(** * Label rendering and pagination engine of the barcode generator

    A shallow embedding of [src/main.py] (class [BarcodeGenerator]) and the
    properties of its pieces of logic: the colour extractor
    ([extract_color_from_product]), the label composer
    ([create_barcode_label]), the grid paginator
    ([create_pdf_from_barcodes]) and the batch driver
    ([generate_from_data]); and, in the last part, of the set-up script
    [src/setup_enviroment.py].

    Conventions of the embedding.
    - Python [str] values are [string]s; the character predicates are the
      ones of Python on ASCII text, which is what the product
      descriptions, IMEIs and box ids of the program are.
    - Python [int]s are [Z]; slices follow Python's rules for negative and
      out-of-range bounds.
    - Python [float]s are IEEE binary64 numbers ([PrimFloat]): the font
      sizes, which the program truncates to an [int], and the cells and
      positions of a page of the document. Positions on a label, which
      are integers and halves of integers, are exact rationals ([Q]).
    - An exception is a value of [Py.exn]; code that may raise returns a
      [Py.result].
    - Pillow, python-barcode, qrcode, reportlab and pandas are not part of
      the repository. What the program asks of them (does this font load,
      how wide is this text, does the encoder accept this data, can a
      label be saved under this path, can this image file be read, what
      does this data file hold) is a field of the classes [Imaging],
      [Reportlab] and [Pandas].
    - In [generate_from_data] two statements (lines 456 and 493) are
      indented one level less than the branch they belong to; they are read
      as the bodies of the [elif] and [else] they follow. *)

From Stdlib Require Import ZArith NArith QArith Qround Floats Uint63 Ascii String List Bool.
From Stdlib Require Import Lia.
From Stdlib Require Import DecimalString.
From Stdlib Require DecimalPos DecimalZ.
From stdpp Require Import base list strings gmap sorting.

Local Open Scope string_scope.
Local Open Scope Z_scope.
Local Open Scope list_scope.

(** ** Python values: slices, exceptions, floats *)

Module Py.

(** [i] as the position it denotes in a sequence of length [n] when it is
    a slice bound: negative bounds count from the end, and every bound is
    clamped to [0 .. n]. *)
Definition slice_bound (n i : Z) : Z :=
  if i <? 0 then Z.max 0 (i + n) else Z.min i n.

(** [l[start:stop]] *)
Definition slice {A} (l : list A) (start stop : Z) : list A :=
  let n := Z.of_nat (length l) in
  let a := slice_bound n start in
  let b := slice_bound n stop in
  take (Z.to_nat (b - a)) (drop (Z.to_nat a) l).

(** [l[start:]] *)
Definition slice_from {A} (l : list A) (start : Z) : list A :=
  drop (Z.to_nat (slice_bound (Z.of_nat (length l)) start)) l.

Inductive exn : Type :=
| ZeroDivisionError
| EncodingError (data : string)
| IOError (path : string).

Inductive result (A : Type) : Type :=
| Returned (a : A)
| Raised (e : exn).
Arguments Returned {A} a.
Arguments Raised {A} e.

Definition bind {A B} (r : result A) (k : A -> result B) : result B :=
  match r with
  | Returned a => k a
  | Raised e => Raised e
  end.

(** [str(n)] for an [int] *)
Definition str_int (n : Z) : string := NilZero.string_of_int (Z.to_int n).

(** [float(n)], for the pixel counts of the program (below 2^53). *)
Definition float_of_int (n : Z) : float :=
  if n <? 0 then PrimFloat.opp (PrimFloat.of_uint63 (Uint63.of_Z (- n)))
  else PrimFloat.of_uint63 (Uint63.of_Z n).

(** [int(x)]: truncation toward zero of a finite float. *)
Definition int_of_float (x : float) : Z :=
  match Prim2SF x with
  | S754_finite s m e =>
      let v := if 0 <=? e then Z.shiftl (Zpos m) e else Z.shiftr (Zpos m) (- e) in
      if s then - v else v
  | _ => 0
  end.

(** [a / b] on two [int]s: true division. *)
Definition true_div (a b : Z) : result float :=
  if b =? 0 then Raised ZeroDivisionError
  else Returned (PrimFloat.div (float_of_int a) (float_of_int b)).

(** [int(k * x)] for an [int] [k] and a [float] [x]. *)
Definition int_times (k : Z) (x : float) : Z :=
  int_of_float (PrimFloat.mul (float_of_int k) x).

(** [os.path.join(a, b)] on POSIX: an absolute [b] replaces [a]. *)
Definition path_join (a b : string) : string :=
  match b with
  | String "/" _ => b
  | _ =>
      match String.length a with
      | O => b
      | S n => if String.eqb (String.substring n 1 a) "/" then a +:+ b else a +:+ "/" +:+ b
      end
  end.

End Py.

#[global] Instance result_ret : MRet Py.result := @Py.Returned.
#[global] Instance result_bind : MBind Py.result := fun A B k r => Py.bind r k.
#[global] Instance result_fmap : FMap Py.result :=
  fun A B f r => Py.bind r (fun a => Py.Returned (f a)).

(** ** Python strings *)

Module PyStr.

Definition code (c : ascii) : nat := nat_of_ascii c.

(** [c.isspace()] for an ASCII character: tab, line feed, vertical tab,
    form feed, carriage return, the four separators 0x1c .. 0x1f and the
    space. (Unicode has further white space, U+00A0 among it; a text is in
    the domain of these functions when [isascii] holds of it.) *)
Definition isspace (c : ascii) : bool :=
  ((9 <=? code c) && (code c <=? 13) || (28 <=? code c) && (code c <=? 32))%nat.

(** [c.isdigit()] for an ASCII character *)
Definition isdigit (c : ascii) : bool :=
  ((48 <=? code c) && (code c <=? 57))%nat.

Definition upper_char (c : ascii) : ascii :=
  if ((97 <=? code c) && (code c <=? 122))%nat
  then ascii_of_nat (code c - 32) else c.

(** [s.upper()] for an ASCII text *)
Fixpoint upper (s : string) : string :=
  match s with
  | EmptyString => EmptyString
  | String c s' => String (upper_char c) (upper s')
  end.

(** [any(p(ch) for ch in s)] *)
Fixpoint any (p : ascii -> bool) (s : string) : bool :=
  match s with
  | EmptyString => false
  | String c s' => p c || any p s'
  end.

(** [ch in s] for a one-character [ch] *)
Definition contains (ch : ascii) (s : string) : bool :=
  any (Ascii.eqb ch) s.

(** [s.isascii()]: every character is below 128. *)
Definition isascii (s : string) : bool :=
  negb (any (fun c => (128 <=? code c)%nat) s).

(** [not s]: a string is falsy exactly when it is empty. *)
Definition falsy (s : string) : bool :=
  match s with
  | EmptyString => true
  | String _ _ => false
  end.

Fixpoint lstrip (s : string) : string :=
  match s with
  | EmptyString => EmptyString
  | String c s' => if isspace c then lstrip s' else s
  end.

Fixpoint rstrip (s : string) : string :=
  match s with
  | EmptyString => EmptyString
  | String c s' =>
      let r := rstrip s' in
      if isspace c && falsy r then EmptyString else String c r
  end.

(** [s.strip()] *)
Definition strip (s : string) : string := rstrip (lstrip s).

(** The scan behind [s.split()]: [cur] is the token being read. *)
Fixpoint split_from (cur : string) (s : string) : list string :=
  match s with
  | EmptyString => if falsy cur then [] else [cur]
  | String c s' =>
      if isspace c
      then (if falsy cur then split_from EmptyString s'
            else cur :: split_from EmptyString s')
      else split_from (cur +:+ String c EmptyString) s'
  end.

(** [s.split()]: the maximal runs of non-whitespace characters. *)
Definition split (s : string) : list string := split_from EmptyString s.

(** [sep.join(l)] *)
Definition join (sep : string) (l : list string) : string :=
  String.concat sep l.

End PyStr.

(** ** The attribute extractor (lines 25-58) *)

Definition Unknown_Color : string := "Unknown Color".

(** The test of line 41: the part holds a ['+'] and at least one digit. *)
Definition is_storage_spec (part : string) : bool :=
  PyStr.contains "+"%char part && PyStr.any PyStr.isdigit part.

(** The loop of lines 40-44, entered at index [i] with the parts not yet
    visited: the first storage spec sets [color_start_index] to its index
    plus one and breaks; otherwise [color_start_index] keeps its value. *)
Fixpoint storage_scan (i : nat) (parts : list string) (color_start_index : nat) : nat :=
  match parts with
  | [] => color_start_index
  | part :: rest =>
      if is_storage_spec part then (i + 1)%nat
      else storage_scan (S i) rest color_start_index
  end.

Definition extract_color_from_product (product_string : string) : string :=
  if PyStr.falsy product_string || String.eqb product_string "nan" then Unknown_Color
  else
    let parts := PyStr.split (PyStr.strip product_string) in
    if (length parts <? 2)%nat then Unknown_Color
    else
      let color_start_index := storage_scan 0 parts 0 in
      if ((0 <? color_start_index) && (color_start_index <? length parts))%nat then
        let color_parts := Py.slice_from parts (Z.of_nat color_start_index) in
        let color := PyStr.join " " color_parts in
        if PyStr.falsy color then Unknown_Color else PyStr.upper color
      else if (2 <=? length parts)%nat then
        PyStr.upper (PyStr.join " " (Py.slice_from parts (-2)))
      else Unknown_Color.

(** The extraction rule as the specification words it: the tokens after
    the first specifier token, if there is one; else the last two tokens;
    the sentinel for an empty or placeholder input or fewer than two
    tokens. *)
Fixpoint after_first_specifier (tokens : list string) : option (list string) :=
  match tokens with
  | [] => None
  | t :: rest => if is_storage_spec t then Some rest else after_first_specifier rest
  end.

Definition last_two (tokens : list string) : list string :=
  rev (take 2 (rev tokens)).

Definition extractColor_reference (product : string) : string :=
  let tokens := PyStr.split product in
  if PyStr.falsy product || String.eqb product "nan" || (length tokens <? 2)%nat
  then Unknown_Color
  else match after_first_specifier tokens with
       | Some following => PyStr.upper (PyStr.join " " following)
       | None => PyStr.upper (PyStr.join " " (last_two tokens))
       end.

(** ** Fonts, images and the label canvas *)

(** A font object: a TrueType face loaded from [file] at [size], or the
    built-in face of [ImageFont.load_default()]. *)
Inductive font : Type :=
| TrueType (file : string) (size : Z)
| DefaultFont.

(** The raster images the two encoders hand back, by what they encode and
    the size they were resampled to. *)
Inductive image : Type :=
| Code128Image (data : string) (width height : Z)
| QRImage (data : string) (width height : Z).

(** What the composer asks of Pillow, python-barcode and qrcode. *)
Class Imaging : Type := {
  (** [ImageFont.truetype(file, size)] returns a font (it raises otherwise) *)
  truetype_loads : string -> Z -> bool;
  (** [bbox[2] - bbox[0]] of [draw.textbbox((0, 0), text, font=font)] *)
  textbbox_width : font -> string -> Z;
  (** [bbox[3] - bbox[1]] of the same box *)
  textbbox_height : font -> string -> Z;
  (** [Code128(data, ...)] and its [write] accept the data *)
  code128_accepts : string -> bool;
  (** [qr.add_data(data); qr.make(fit=True)] accept the data *)
  qr_accepts : string -> bool;
  (** [label.save(path, 'PNG', dpi=(300, 300))] writes the file (it raises
      otherwise, as when the directory of [path] does not exist) *)
  image_saves : string -> bool
}.

Inductive draw_op : Type :=
| DrawText (x y : Q) (text : string) (f : font)
| Paste (img : image) (x y : Z)
| Ellipse (x0 y0 x1 y1 : Q) (outline_width : Z).

(** The [Image.new('RGB', size, background)] canvas and what was drawn and
    pasted on it, in order. *)
Record label : Type := {
  label_size : Z * Z;
  label_background : string;
  label_ops : list draw_op
}.

Section Composer.
Context `{Imaging}.

Definition truetype (file : string) (size : Z) : option font :=
  if truetype_loads file size then Some (TrueType file size) else None.

Definition Arial_Bold_system : string := "/System/Library/Fonts/Arial Bold.ttf".
Definition Arial_system : string := "/System/Library/Fonts/Arial.ttf".

(** Lines 113-128: [(font_large, font_medium, font_circle)]. *)
Definition load_bold_fonts : font * font * font :=
  match truetype "ARIALBD.TTF" 35, truetype "ARIALBD.TTF" 20, truetype "ARIALBD.TTF" 28 with
  | Some l, Some m, Some c => (l, m, c)
  | _, _, _ =>
      match truetype Arial_Bold_system 40, truetype Arial_Bold_system 20,
            truetype Arial_Bold_system 28 with
      | Some l, Some m, Some c => (l, m, c)
      | _, _, _ => (DefaultFont, DefaultFont, DefaultFont)
      end
  end.

(** Lines 130-137: [font_regular]. *)
Definition load_regular_font : font :=
  match truetype Arial_system 18 with
  | Some f => f
  | None => match truetype "arial.ttf" 18 with
            | Some f => f
            | None => DefaultFont
            end
  end.

(** Lines 65-78 *)
Definition generate_qr_code (data : string) (size : Z * Z) : Py.result image :=
  if qr_accepts data then mret (QRImage data (fst size) (snd size))
  else Py.Raised (Py.EncodingError data).

(** Lines 80-100 *)
Definition generate_code128_barcode (data : string) (width height : Z) : Py.result image :=
  if code128_accepts data then mret (Code128Image data width height)
  else Py.Raised (Py.EncodingError data).

(** The fonts and the position a caption is drawn with. *)
Record caption : Type := {
  bold_font : font;
  number_font : font;
  number_x : Z;
  stretched_number_font : font
}.

(** The text-fit computation of a caption, which the composer writes out
    twice: lines 165-221 for ["IMEI"] and lines 235-291 for ["Box ID"]. The
    two copies differ in one place, the font of the number when the whole
    caption is not scaled: [font_regular] at line 193, [font_medium] at
    line 263; it is [unscaled_number_font] here. *)
Definition fit_caption (caption_label number : string)
    (font_medium font_regular unscaled_number_font : font)
    (x_start barcode_width : Z) : Py.result caption :=
  let test_font := font_medium in
  let full_text := caption_label +:+ " " +:+ number in
  let text_width := textbbox_width test_font full_text in
  fonts ←
    (if text_width <? barcode_width then
       scale_factor ← Py.true_div barcode_width text_width;
       let new_font_size := Py.int_times 16 scale_factor in
       mret (match truetype "ARIALBD.TTF" new_font_size, truetype "arial.ttf" new_font_size with
             | Some b, Some r => (b, r)
             | _, _ =>
                 match truetype Arial_Bold_system new_font_size,
                       truetype Arial_system new_font_size with
                 | Some b, Some r => (b, r)
                 | _, _ => (font_medium, font_regular)
                 end
             end)
     else mret (font_medium, unscaled_number_font));
  let bold_font := fst fonts in
  let regular_font := snd fonts in
  let label_width := textbbox_width bold_font caption_label in
  let number_x := x_start + label_width + 5 in
  let available_width := barcode_width - (number_x - x_start) in
  let number_width := textbbox_width regular_font number in
  stretched ←
    (if number_width <? available_width then
       number_scale_factor ← Py.true_div available_width number_width;
       let number_font_size := Py.int_times 25 number_scale_factor in
       mret (match truetype "arial.ttf" number_font_size with
             | Some f => f
             | None => match truetype Arial_system number_font_size with
                       | Some f => f
                       | None => regular_font
                       end
             end)
     else mret regular_font);
  mret {| bold_font := bold_font; number_font := regular_font;
          number_x := number_x; stretched_number_font := stretched |}.

(** [if box_id:] for an argument that is [None] or a string. *)
Definition truthy (box_id : option string) : bool :=
  match box_id with
  | None => false
  | Some s => negb (PyStr.falsy s)
  end.

(** Lines 226-309: the second barcode, its caption and the D/N line. *)
Definition box_id_region (box_id dn : string) (font_large font_medium font_regular : font)
    (x_start y_pos barcode_width barcode_height : Z) : Py.result (list draw_op) :=
  let y_pos := y_pos + 35 in
  box_barcode_img ← generate_code128_barcode box_id barcode_width barcode_height;
  let pasted := Paste box_barcode_img x_start y_pos in
  let y_pos := y_pos + barcode_height + 0 in
  let box_label := "Box ID" in
  let box_number := box_id in
  cap ← fit_caption box_label box_number font_medium font_regular font_medium
          x_start barcode_width;
  let y_label := y_pos in
  let y_pos := y_pos + 35 in
  let dn_font_size := 30 in
  let dn_font :=
    match truetype "arial.ttf" dn_font_size with
    | Some f => f
    | None => match truetype Arial_system dn_font_size with
              | Some f => f
              | None => font_large
              end
    end in
  mret [ pasted;
         DrawText (inject_Z x_start) (inject_Z y_label) box_label (bold_font cap);
         DrawText (inject_Z (number_x cap)) (inject_Z y_label) box_number
                  (stretched_number_font cap);
         DrawText (inject_Z x_start) (inject_Z y_pos) ("D/N: " +:+ dn) dn_font ].

(** Lines 102-348. The [brand] argument is never read and is left out. *)
Definition create_barcode_label (imei model color dn : string) (box_id : option string)
    : Py.result label :=
  let label_width := 650 in
  let label_height := 300 in
  let '(font_large, font_medium, font_circle) := load_bold_fonts in
  let font_regular := load_regular_font in
  let x_start := 30 in
  let y_top := 20 in
  let model_text := DrawText (inject_Z x_start) (inject_Z y_top) model font_large in
  let color_text := PyStr.upper color in
  let color_width := textbbox_width font_large color_text in
  let x_pos_color := label_width - color_width - 60 in
  let color_drawn := DrawText (inject_Z x_pos_color) (inject_Z y_top) color_text font_large in
  let barcode_width := 460 in
  let barcode_height := 60 in
  let y_pos := 70 in
  imei_barcode_img ← generate_code128_barcode imei barcode_width barcode_height;
  let imei_pasted := Paste imei_barcode_img x_start y_pos in
  let y_pos := y_pos + barcode_height + 8 in
  let imei_label := "IMEI" in
  let imei_number := imei in
  cap ← fit_caption imei_label imei_number font_medium font_regular font_regular
          x_start barcode_width;
  let imei_caption :=
    [ DrawText (inject_Z x_start) (inject_Z y_pos) imei_label (bold_font cap);
      DrawText (inject_Z (number_x cap)) (inject_Z y_pos) imei_number
               (stretched_number_font cap) ] in
  box_region ←
    (if truthy box_id
     then box_id_region (default "" box_id) dn font_large font_medium font_regular
                        x_start y_pos barcode_width barcode_height
     else mret []);
  let qr_size := 150 in
  let qr_data := imei in
  qr_code_img ← generate_qr_code qr_data (qr_size, qr_size);
  let qr_x_pos := label_width - qr_size - 0 in
  let qr_y_pos := 65 in
  let qr_pasted := Paste qr_code_img qr_x_pos qr_y_pos in
  let circle_diameter := 40%Q in
  let circle_x_center := (inject_Z qr_x_pos + inject_Z qr_size / 2 + 15)%Q in
  let circle_y_center := 270%Q in
  let circle_left := (circle_x_center - circle_diameter / 2)%Q in
  let circle_top := (circle_y_center - circle_diameter / 2)%Q in
  let circle_right := (circle_x_center + circle_diameter / 2)%Q in
  let circle_bottom := (circle_y_center + circle_diameter / 2)%Q in
  let circle := Ellipse circle_left circle_top circle_right circle_bottom 2 in
  let a_width := textbbox_width font_circle "A" in
  let a_height := textbbox_height font_circle "A" in
  let a_x := (circle_x_center - inject_Z a_width / 2)%Q in
  let a_y := (circle_y_center - inject_Z a_height / 2 - 3)%Q in
  let glyph := DrawText a_x a_y "A" font_circle in
  mret {| label_size := (label_width, label_height);
          label_background := "white";
          label_ops := [model_text; color_drawn; imei_pasted] ++ imei_caption
                       ++ box_region ++ [qr_pasted; circle; glyph] |}.

End Composer.

(** ** The batch driver (lines 478-522) *)

(** A cell of a data-frame row: a value, by the text [str] gives for it, or
    the NaN of a missing cell. *)
Inductive cell : Type :=
| Text (s : string)
| NaN.

(** [str(c)] *)
Definition str (c : cell) : string :=
  match c with
  | Text s => s
  | NaN => "nan"
  end.

(** [row.get(key, dflt)] *)
Definition get (row : gmap string cell) (key : string) (dflt : cell) : cell :=
  default dflt (row !! key).

(** What the driver prints. *)
Inductive message : Type :=
| Skipping_row (index : Z)
| Generated (filename : string)
| Error_generating (index : Z) (e : Py.exn)
| Generated_total (count : nat).

(** [generated_files], the labels saved under those paths, and the lines
    printed so far. *)
Record batch : Type := {
  generated_files : list string;
  saved : list (string * label);
  printed : list message
}.

Section Driver.
Context `{Imaging}.
Variable output_dir : string.

(** The body of the loop of line 481, one row at a time. *)
Definition generate_row (st : batch) (index : Z) (row : gmap string cell) : batch :=
  let imei := str (get row "imei" (get row "IMEI/SN" (get row "IMEI" (Text "")))) in
  let box_id := str (get row "box_id" (get row "Box ID" (get row "Boxid" (Text "")))) in
  let model := str (get row "model" (get row "Model" (Text "Unknown"))) in
  let product_string := str (get row "product" (get row "Product" (Text ""))) in
  let color :=
    if negb (PyStr.falsy product_string) && negb (String.eqb product_string "nan")
    then extract_color_from_product product_string
    else str (get row "color" (get row "Color" (Text "Unknown Color"))) in
  let dn := str (get row "dn" (get row "DN" (Text "M8N7"))) in
  if PyStr.falsy imei || String.eqb imei "nan" then
    {| generated_files := generated_files st;
       saved := saved st;
       printed := printed st ++ [Skipping_row index] |}
  else
    match create_barcode_label imei model color dn (Some box_id) with
    | Py.Returned label =>
        let filename := "barcode_label_" +:+ imei +:+ "_" +:+ Py.str_int (index + 1) +:+ ".png" in
        let filepath := Py.path_join output_dir filename in
        if image_saves filepath then
          {| generated_files := generated_files st ++ [filepath];
             saved := saved st ++ [(filepath, label)];
             printed := printed st ++ [Generated filename] |}
        else
          {| generated_files := generated_files st;
             saved := saved st;
             printed := printed st ++ [Error_generating index (Py.IOError filepath)] |}
    | Py.Raised e =>
        {| generated_files := generated_files st;
           saved := saved st;
           printed := printed st ++ [Error_generating index e] |}
    end.

(** [for index, row in df.iterrows()] from index [index] on. *)
Fixpoint generate_rows (st : batch) (index : Z) (rows : list (gmap string cell)) : batch :=
  match rows with
  | [] => st
  | row :: rest => generate_rows (generate_row st index row) (index + 1) rest
  end.

(** Lines 478-522 of [generate_from_data], on the rows of the data frame
    that lines 440-476 build; the function returns [generated_files]. *)
Definition generate_from_data (df : list (gmap string cell)) : batch :=
  let st := generate_rows {| generated_files := []; saved := []; printed := [] |} 0 df in
  {| generated_files := generated_files st;
     saved := saved st;
     printed := printed st ++ [Generated_total (length (generated_files st))] |}.

End Driver.

(** ** The grid paginator (lines 350-435) *)

(** What the paginator asks of reportlab and of the file system. *)
Class Reportlab : Type := {
  (** [reportlab.lib.pagesizes.A4], in points, two floats *)
  A4 : float * float;
  (** [ImageReader(path)] and the [drawImage] of it succeed *)
  image_readable : string -> bool
}.

(** One [drawImage] on a page: the file and its box (anchored south-west,
    aspect ratio preserved). *)
Record placement : Type := {
  image_path : string;
  at_x : float;
  at_y : float;
  box_width : float;
  box_height : float
}.

(** The canvas: the pages closed so far and the page being drawn. *)
Record pdf_canvas : Type := {
  finished_pages : list (list placement);
  current_page : list placement
}.

Record pdf_output : Type := {
  pdf_path : string;
  pdf_pages : list (list placement);
  warnings : list string;
  total_pages : Z
}.

Section Paginator.
Context `{Reportlab}.

Definition new_canvas : pdf_canvas :=
  {| finished_pages := []; current_page := [] |}.

Definition showPage (c : pdf_canvas) : pdf_canvas :=
  {| finished_pages := finished_pages c ++ [current_page c]; current_page := [] |}.

Definition drawImage (c : pdf_canvas) (path : string) (x y width height : float)
    : Py.result pdf_canvas :=
  if image_readable path then
    mret {| finished_pages := finished_pages c;
            current_page := current_page c ++
              [{| image_path := path; at_x := x; at_y := y;
                  box_width := width; box_height := height |}] |}
  else Py.Raised (Py.IOError path).

(** [c.save()]: the page being drawn is written as the last page of the
    document when something was drawn on it; a page left without any
    drawing is not written. ([showPage] closes a page whatever is on it.) *)
Definition save (c : pdf_canvas) : list (list placement) :=
  match current_page c with
  | [] => finished_pages c
  | _ :: _ => finished_pages c ++ [current_page c]
  end.

(** [a / n] for a float [a] and an [int] [n] (below 2^53 in magnitude). *)
Definition float_div_int (a : float) (n : Z) : Py.result float :=
  if n =? 0 then Py.Raised Py.ZeroDivisionError else mret (a / Py.float_of_int n)%float.

Section Grid.
Variables (grid_cols margin : Z) (page_height cell_width cell_height : float).
Variables (image_padding : Z) (image_width image_height : float).

(** Lines 412-417, in binary64 arithmetic: [margin] and [image_padding]
    are [int]s, the cell sizes and the page height are [float]s. *)
Definition position (i : Z) : float * float :=
  let row := i / grid_cols in
  let col := i mod grid_cols in
  let x := (Py.float_of_int margin + Py.float_of_int col * cell_width
            + Py.float_of_int image_padding)%float in
  let y := (page_height - Py.float_of_int margin
            - Py.float_of_int (row + 1) * cell_height
            + Py.float_of_int image_padding)%float in
  (x, y).

(** The loop of line 410 from index [i] on, over the canvas and the
    warnings printed. *)
Fixpoint place_images (i : Z) (page_images : list string) (st : pdf_canvas * list string)
    : pdf_canvas * list string :=
  match page_images with
  | [] => st
  | image_path :: rest =>
      let '(x, y) := position i in
      let st' :=
        match drawImage (fst st) image_path x y image_width image_height with
        | Py.Returned c => (c, snd st)
        | Py.Raised e => (fst st, snd st ++ [image_path])
        end in
      place_images (i + 1) rest st'
  end.

(** The body of the loop of line 398. *)
Definition place_page (barcode_files : list string) (images_per_page : Z)
    (st : pdf_canvas * list string) (page_num : Z) : pdf_canvas * list string :=
  let st := if 0 <? page_num then (showPage (fst st), snd st) else st in
  let start_idx := page_num * images_per_page in
  let end_idx := Z.min (start_idx + images_per_page) (Z.of_nat (length barcode_files)) in
  let page_images := Py.slice barcode_files start_idx end_idx in
  place_images 0 page_images st.

End Grid.

(** Lines 350-435, on [barcode_files] as line 367 leaves it (the sorted
    listing of the output directory) and with [pdf_filename] resolved.
    [None] is the early [return None] of line 371. The directory of the
    document is made at lines 354-356, and the document is taken to be
    written there: a file name that cannot be written under it is outside
    the model. *)
Definition create_pdf_from_barcodes (barcode_files : list string) (pdf_filename : string)
    (grid_cols grid_rows : Z) : Py.result (option pdf_output) :=
  let pdf_dir := "generated_pdfs" in
  let pdf_path := Py.path_join pdf_dir pdf_filename in
  match barcode_files with
  | [] => mret None
  | _ :: _ =>
      let c := new_canvas in
      let '(page_width, page_height) := A4 in
      let margin := 20 in
      let available_width := (page_width - Py.float_of_int (2 * margin))%float in
      let available_height := (page_height - Py.float_of_int (2 * margin))%float in
      cell_width ← float_div_int available_width grid_cols;
      cell_height ← float_div_int available_height grid_rows;
      let image_padding := 5 in
      let image_width := (cell_width - Py.float_of_int (2 * image_padding))%float in
      let image_height := (cell_height - Py.float_of_int (2 * image_padding))%float in
      let images_per_page := grid_cols * grid_rows in
      if images_per_page =? 0 then Py.Raised Py.ZeroDivisionError
      else
        let total_pages :=
          (Z.of_nat (length barcode_files) + images_per_page - 1) / images_per_page in
        let st :=
          fold_left
            (place_page grid_cols margin page_height cell_width cell_height
                        image_padding image_width image_height barcode_files images_per_page)
            (seqZ 0 total_pages) (c, []) in
        mret (Some {| pdf_path := pdf_path;
                      pdf_pages := save (fst st);
                      warnings := snd st;
                      total_pages := total_pages |})
  end.

End Paginator.

(** ** Font sizes

    The size the composer asks for when it scales a font: [int(k * (a / b))]
    in binary64 arithmetic, as at lines 177-178 and 211-212. *)
Definition scaled_font_size (k a b : Z) : Z :=
  match Py.true_div a b with
  | Py.Returned x => Py.int_times k x
  | Py.Raised _ => 0
  end.

(** ** Reading a label and a document

    The regions of a finished label, read off what was pasted and drawn on
    it. *)

(** The linear barcodes of a label, in the order they were pasted: the
    data, the top-left corner and the size of each. *)
Definition linear_barcodes (l : label) : list (string * (Z * Z) * (Z * Z)) :=
  omap (fun op => match op with
                  | Paste (Code128Image data w h) x y => Some (data, (x, y), (w, h))
                  | _ => None
                  end) (label_ops l).

(** The matrix codes of a label: data, top-left corner, size. *)
Definition matrix_codes (l : label) : list (string * (Z * Z) * (Z * Z)) :=
  omap (fun op => match op with
                  | Paste (QRImage data w h) x y => Some (data, (x, y), (w, h))
                  | _ => None
                  end) (label_ops l).

(** The stroked ellipses of a label: bounding box and stroke width. *)
Definition ellipses (l : label) : list (Q * Q * Q * Q * Z) :=
  omap (fun op => match op with
                  | Ellipse x0 y0 x1 y1 w => Some (x0, y0, x1, y1, w)
                  | _ => None
                  end) (label_ops l).

(** The horizontal middle of a region [w] pixels wide whose left edge is
    at [x]. *)
Definition middle_x (x w : Z) : Q := (inject_Z x + inject_Z w / 2)%Q.

(** A record is valid when its IMEI is neither empty nor the placeholder
    (the test of line 497). *)
Definition valid_imei (imei : string) : bool :=
  negb (PyStr.falsy imei || String.eqb imei "nan").

(** The fields the driver reads from a row (lines 484-495). *)
Definition row_imei (row : gmap string cell) : string :=
  str (get row "imei" (get row "IMEI/SN" (get row "IMEI" (Text "")))).

Definition row_box_id (row : gmap string cell) : string :=
  str (get row "box_id" (get row "Box ID" (get row "Boxid" (Text "")))).

Definition row_model (row : gmap string cell) : string :=
  str (get row "model" (get row "Model" (Text "Unknown"))).

Definition row_color (row : gmap string cell) : string :=
  let product_string := str (get row "product" (get row "Product" (Text ""))) in
  if negb (PyStr.falsy product_string) && negb (String.eqb product_string "nan")
  then extract_color_from_product product_string
  else str (get row "color" (get row "Color" (Text "Unknown Color"))).

Definition row_dn (row : gmap string cell) : string :=
  str (get row "dn" (get row "DN" (Text "M8N7"))).

(** The file a label is saved under (lines 511-512). *)
Definition label_path (output_dir imei : string) (index : Z) : string :=
  Py.path_join output_dir
    ("barcode_label_" +:+ imei +:+ "_" +:+ Py.str_int (index + 1) +:+ ".png").

(** [enumerate(l, start)]: the rows of a data frame with their index. *)
Fixpoint enumerate_from {A} (start : Z) (l : list A) : list (Z * A) :=
  match l with
  | [] => []
  | a :: rest => (start, a) :: enumerate_from (start + 1) rest
  end.

(** What one row adds to the output set: the label of a valid row that
    the composer returns and that is saved, nothing otherwise. *)
Definition row_output `{Imaging} (output_dir : string) (indexed : Z * gmap string cell)
    : option (string * label) :=
  let '(index, row) := indexed in
  if valid_imei (row_imei row) then
    match create_barcode_label (row_imei row) (row_model row) (row_color row) (row_dn row)
                               (Some (row_box_id row)) with
    | Py.Returned l =>
        if image_saves (label_path output_dir (row_imei row) index)
        then Some (label_path output_dir (row_imei row) index, l)
        else None
    | Py.Raised _ => None
    end
  else None.

(** The line printed for one row. *)
Definition row_message `{Imaging} (output_dir : string) (indexed : Z * gmap string cell)
    : message :=
  let '(index, row) := indexed in
  if valid_imei (row_imei row) then
    match create_barcode_label (row_imei row) (row_model row) (row_color row) (row_dn row)
                               (Some (row_box_id row)) with
    | Py.Returned _ =>
        if image_saves (label_path output_dir (row_imei row) index)
        then Generated ("barcode_label_" +:+ row_imei row +:+ "_"
                        +:+ Py.str_int (index + 1) +:+ ".png")
        else Error_generating index (Py.IOError (label_path output_dir (row_imei row) index))
    | Py.Raised e => Error_generating index e
    end
  else Skipping_row index.

(** The cell geometry of lines 381-392, in binary64 arithmetic: the page
    less a margin of 20 on each side, divided by the number of columns and
    of rows. *)
Definition grid_cell_width `{Reportlab} (grid_cols : Z) : float :=
  ((fst A4 - 40) / Py.float_of_int grid_cols)%float.

Definition grid_cell_height `{Reportlab} (grid_rows : Z) : float :=
  ((snd A4 - 40) / Py.float_of_int grid_rows)%float.

(** The image [path] drawn in the cell of index [i] of a page: column
    [i mod grid_cols] counted from the left, row [i / grid_cols] counted
    from the top; the box is the cell less a padding of 5 on each side,
    and its corner is the lower left one. *)
Definition in_cell `{Reportlab} (grid_cols grid_rows i : Z) (path : string) : placement :=
  {| image_path := path;
     at_x := (20 + Py.float_of_int (i mod grid_cols) * grid_cell_width grid_cols + 5)%float;
     at_y := (snd A4 - 20 - Py.float_of_int (i / grid_cols + 1) * grid_cell_height grid_rows
              + 5)%float;
     box_width := (grid_cell_width grid_cols - 10)%float;
     box_height := (grid_cell_height grid_rows - 10)%float |}.

(** The pages of the page loop as [save] writes them: the last one is
    left out when nothing was drawn on it. *)
Fixpoint written {A} (pages : list (list A)) : list (list A) :=
  match pages with
  | [] => []
  | page :: rest =>
      match rest with
      | [] => match page with [] => [] | _ :: _ => [page] end
      | _ :: _ => page :: written rest
      end
  end.

(** The pages of the page loop so far, the one being drawn included. *)
Definition pages_drawn (c : pdf_canvas) : list (list placement) :=
  finished_pages c ++ [current_page c].

Section PageReading.
Context `{Reportlab}.
Variables (grid_cols margin : Z) (page_height cell_width cell_height : float).
Variables (image_padding : Z) (image_width image_height : float).
Variables (barcode_files : list string) (images_per_page : Z).

(** What the loop of line 410 draws for the image at index [i] of a page:
    the image in its cell when it can be read, nothing otherwise. *)
Definition drawn (indexed : Z * string) : option placement :=
  let '(i, path) := indexed in
  let xy := position grid_cols margin page_height cell_width cell_height image_padding i in
  if image_readable path
  then Some {| image_path := path; at_x := fst xy; at_y := snd xy;
               box_width := image_width; box_height := image_height |}
  else None.

Definition unreadable (path : string) : bool := negb (image_readable path).

(** The files of page [page_num] (lines 403-405). *)
Definition page_images_of (page_num : Z) : list string :=
  Py.slice barcode_files (page_num * images_per_page)
    (Z.min (page_num * images_per_page + images_per_page) (Z.of_nat (length barcode_files))).

(** The page drawn for them. *)
Definition page_of (page_num : Z) : list placement :=
  omap drawn (enumerate_from 0 (page_images_of page_num)).

(** The warnings printed for them. *)
Definition warnings_of (page_num : Z) : list string :=
  List.filter unreadable (page_images_of page_num).

End PageReading.

(** A font of the kind the composer measures a caption with: the built-in
    font, or a TrueType font of 16 points or more. *)
Definition usual_font (f : font) : Prop :=
  match f with
  | TrueType _ size => 16 <= size
  | DefaultFont => True
  end.

(** The text has a width at every such font. *)
Definition measurable `{Imaging} (text : string) : Prop :=
  forall f, usual_font f -> 0 < textbbox_width f text.

(** The captions of a record can be measured: the value and the
    label-plus-value of the IMEI caption and, for a non-empty box id, of
    the Box ID caption. *)
Definition captions_measurable `{Imaging} (imei : string) (box_id : option string) : Prop :=
  measurable imei /\
  measurable ("IMEI" +:+ " " +:+ imei) /\
  (truthy box_id = true ->
   measurable (default "" box_id) /\
   measurable ("Box ID" +:+ " " +:+ default "" box_id)).

(** [round(q)] as the specification uses it: to the nearest integer, a tie
    to the even one. *)
Definition round_half_even (q : Q) : Z :=
  let fl := Qfloor q in
  match (q - inject_Z fl ?= 1 # 2)%Q with
  | Lt => fl
  | Gt => fl + 1
  | Eq => if Z.even fl then fl else fl + 1
  end.

(** ** Sample environments

    Concrete libraries to run the program on: every font file loads, a
    TrueType text is three quarters of the font size wide per character,
    the linear encoder takes non-empty ASCII data (the character sets of
    Code 128) and raises on anything else, a label is saved when its file
    name names no directory, and the page is A4 (210 mm by 297 mm, in
    points). *)

Definition sample_text_width (f : font) (text : string) : Z :=
  let n := Z.of_nat (String.length text) in
  if n =? 0 then 0
  else match f with
       | TrueType _ size => Z.max 1 (3 * size * n / 4)
       | DefaultFont => 6 * n
       end.

Definition sample_text_height (f : font) (text : string) : Z :=
  match f with
  | TrueType _ size => size
  | DefaultFont => 11
  end.

Definition ascii_only (data : string) : bool :=
  negb (PyStr.any (fun c => (128 <=? PyStr.code c)%nat) data).

(** The directories named by a path all exist but the last of them holds
    no directory: a file can be written if nothing but its name follows
    the first ['/']. *)
Fixpoint count_char (ch : ascii) (s : string) : nat :=
  match s with
  | EmptyString => 0
  | String c s' => ((if Ascii.eqb c ch then 1 else 0) + count_char ch s')%nat
  end.

Definition sample_image_saves (path : string) : bool :=
  (count_char "/" path <=? 1)%nat.

Definition sample_imaging : Imaging :=
  {| truetype_loads := fun _ size => 0 <? size;
     textbbox_width := sample_text_width;
     textbbox_height := sample_text_height;
     code128_accepts := fun data => negb (PyStr.falsy data) && ascii_only data;
     qr_accepts := fun _ => true;
     image_saves := sample_image_saves |}.

(** The same libraries on a machine without any of the font files. *)
Definition fontless_imaging : Imaging :=
  {| truetype_loads := fun _ _ => false;
     textbbox_width := sample_text_width;
     textbbox_height := sample_text_height;
     code128_accepts := fun data => negb (PyStr.falsy data) && ascii_only data;
     qr_accepts := fun _ => true;
     image_saves := sample_image_saves |}.

(** [A4 = (210*mm, 297*mm)] with [mm = (72.0 / 2.54) * 0.1], that is
    595.2755905511812 by 841.8897637795277. *)
Definition sample_reportlab (unreadable : list string) : Reportlab :=
  {| A4 := (0x1.29a3468d1a347p+9, 0x1.a4f1e3c78f1e5p+9)%float;
     image_readable := fun path => negb (existsb (String.eqb path) unreadable) |}.

Definition sample_imei : string := "359827134443046".

(** An IMEI cell with a character outside ASCII (code point 233). *)
Definition sample_foreign_imei : string :=
  "35982713444304" +:+ String (ascii_of_nat 233) EmptyString.
Definition sample_box_id : string := "355760833587361".

(** A batch of three rows: the second has no IMEI, the third no box id. *)
Definition sample_batch : list (gmap string cell) :=
  [ {[ "imei" := Text "359827134443046"; "box_id" := Text "355760833587361";
       "model" := Text "X6525D"; "product" := Text "SMART 8 64+3 SHINY GOLD";
       "dn" := Text "M8N7" ]};
    {[ "imei" := NaN; "box_id" := Text "355760834629202";
       "model" := Text "X6525D"; "product" := Text "HOT 60 Pro+ 256+8 SLEEK BLACK";
       "dn" := Text "M8N7" ]};
    {[ "imei" := Text "359827134450389"; "box_id" := NaN;
       "model" := Text "X6525D"; "product" := Text "SMART 10 64+3 MISTY VIOLET";
       "dn" := Text "M8N7" ]} ].

(** [n] image files, named in order. *)
Definition sample_files (n : nat) : list string :=
  map (fun k => "barcode_label_" +:+ Py.str_int (Z.of_nat k) +:+ ".png") (seq 1 n).

(** * Properties *)

(** ** The attribute extractor *)

Example str_int_values :
  Py.str_int 0 = "0" /\ Py.str_int 12 = "12" /\ Py.str_int (-5) = "-5".
Proof. repeat split; reflexivity. Qed.

Example split_values :
  PyStr.split "  HOT 60   Pro+ " = ["HOT"; "60"; "Pro+"] /\ PyStr.strip "  a b  " = "a b".
Proof. split; reflexivity. Qed.

Example slice_values :
  Py.slice [1; 2; 3; 4; 5] 1 3 = [2; 3] /\ Py.slice [1; 2; 3; 4; 5] 3 (-1) = [4] /\
  Py.slice_from [1; 2; 3] (-2) = [2; 3] /\ Py.slice_from [1] (-2) = [1].
Proof. repeat split; reflexivity. Qed.

(** [int(25 * (23 / 5))] is 114 in binary64 arithmetic, not 115. *)
Example scaled_font_size_floats :
  scaled_font_size 25 23 5 = 114 /\ scaled_font_size 16 460 300 = 24.
Proof. split; vm_compute; reflexivity. Qed.

Example extract_smart8 :
  extract_color_from_product "SMART 8 64+3 SHINY GOLD" = "SHINY GOLD".
Proof. reflexivity. Qed.

Example extract_hot60 :
  extract_color_from_product "HOT 60 Pro+ 256+8 SLEEK BLACK" = "SLEEK BLACK".
Proof. reflexivity. Qed.

Example extract_one_token : extract_color_from_product "NOSPECHERE" = "Unknown Color".
Proof. reflexivity. Qed.

Example extract_empty : extract_color_from_product "" = "Unknown Color".
Proof. reflexivity. Qed.

Example extract_no_spec :
  extract_color_from_product "  x6525d timber   black " = "TIMBER BLACK".
Proof. reflexivity. Qed.

(** *** Splitting ignores surrounding whitespace *)

Lemma split_from_lstrip s :
  PyStr.split_from EmptyString (PyStr.lstrip s) = PyStr.split_from EmptyString s.
Proof.
  induction s as [|c s IH]; simpl; [reflexivity|].
  destruct (PyStr.isspace c) eqn:Hc; simpl; [exact IH|].
  rewrite Hc. reflexivity.
Qed.

Lemma split_from_rstrip s :
  forall cur, PyStr.split_from cur (PyStr.rstrip s) = PyStr.split_from cur s.
Proof.
  induction s as [|c s IH]; intros cur; simpl; [reflexivity|].
  destruct (PyStr.isspace c) eqn:Hc; simpl.
  - destruct (PyStr.falsy (PyStr.rstrip s)) eqn:Hr; simpl.
    + pose proof (IH EmptyString) as H0.
      destruct (PyStr.rstrip s); [|discriminate Hr].
      simpl in H0. rewrite <- H0. reflexivity.
    + rewrite Hc, IH. reflexivity.
  - rewrite Hc. apply IH.
Qed.

Lemma split_strip s : PyStr.split (PyStr.strip s) = PyStr.split s.
Proof.
  unfold PyStr.split, PyStr.strip.
  rewrite split_from_rstrip. apply split_from_lstrip.
Qed.

(** *** Tokens are never empty *)

Lemma falsy_append cur c : PyStr.falsy (cur +:+ String c EmptyString) = false.
Proof. destruct cur; reflexivity. Qed.

Lemma split_from_nonempty s :
  forall cur, Forall (fun t => PyStr.falsy t = false) (PyStr.split_from cur s).
Proof.
  induction s as [|c s IH]; intros cur; simpl.
  - destruct (PyStr.falsy cur) eqn:Hcur; auto.
  - destruct (PyStr.isspace c).
    + destruct (PyStr.falsy cur) eqn:Hcur; auto.
    + apply IH.
Qed.

Lemma join_nonempty sep t rest :
  PyStr.falsy t = false -> PyStr.falsy (PyStr.join sep (t :: rest)) = false.
Proof.
  intros Ht. destruct t as [|c t]; [discriminate|].
  unfold PyStr.join. simpl. destruct rest; reflexivity.
Qed.

(** *** Slices met in the extractor *)

Lemma slice_from_nat {A} (l : list A) (k : nat) :
  Py.slice_from l (Z.of_nat k) = drop k l.
Proof.
  unfold Py.slice_from, Py.slice_bound.
  destruct (Z.ltb_spec (Z.of_nat k) 0) as [Hneg|_]; [lia|].
  destruct (Nat.le_gt_cases k (length l)) as [Hle|Hgt].
  - rewrite Z.min_l by lia. rewrite Nat2Z.id. reflexivity.
  - rewrite Z.min_r by lia. rewrite Nat2Z.id.
    rewrite !drop_ge by lia. reflexivity.
Qed.

Lemma slice_from_last_two (l : list string) :
  (2 <= length l)%nat -> Py.slice_from l (-2) = last_two l.
Proof.
  intros Hlen. unfold Py.slice_from, Py.slice_bound, last_two. simpl.
  rewrite Z.max_r by lia.
  rewrite firstn_rev, rev_involutive.
  f_equal. lia.
Qed.

(** *** The index loop finds the first specifier *)

Lemma storage_scan_none parts :
  forall i d, after_first_specifier parts = None -> storage_scan i parts d = d.
Proof.
  induction parts as [|t rest IH]; intros i d H; simpl in *; [reflexivity|].
  destruct (is_storage_spec t); [discriminate|]. apply IH, H.
Qed.

Lemma storage_scan_some parts :
  forall i d following,
    after_first_specifier parts = Some following ->
    exists k : nat,
      storage_scan i parts d = (i + k)%nat /\ (1 <= k)%nat /\
      drop k parts = following /\ (k + length following = length parts)%nat.
Proof.
  induction parts as [|t rest IH]; intros i d following H; simpl in *; [discriminate|].
  destruct (is_storage_spec t).
  - injection H as <-. exists 1%nat. repeat split; lia.
  - destruct (IH (S i) d following H) as (k & Hk & Hk1 & Hdrop & Hlen).
    exists (S k). rewrite Hk. repeat split; try lia. exact Hdrop.
Qed.

(** The value of the extractor once the input has passed the two guards:
    the tokens after the first specifier when there are some, else the
    last two tokens. *)
Lemma extract_color_of_parts product :
  PyStr.falsy product || String.eqb product "nan" = false ->
  (2 <= length (PyStr.split product))%nat ->
  extract_color_from_product product =
    match after_first_specifier (PyStr.split product) with
    | Some (t :: following) => PyStr.upper (PyStr.join " " (t :: following))
    | _ => PyStr.upper (PyStr.join " " (last_two (PyStr.split product)))
    end.
Proof.
  intros Hguard Hlen. unfold extract_color_from_product.
  rewrite Hguard, split_strip.
  set (parts := PyStr.split product) in *.
  destruct (Nat.ltb_spec (length parts) 2) as [Hlt|_]; [lia|].
  pose proof (split_from_nonempty product EmptyString) as Htok.
  fold (PyStr.split product) in Htok. fold parts in Htok.
  destruct (after_first_specifier parts) as [following|] eqn:Hspec.
  - destruct (storage_scan_some parts 0 0 following Hspec)
      as (k & Hk & Hk1 & Hdrop & Hklen).
    rewrite Hk. simpl Nat.add.
    destruct following as [|t following].
    + assert (k = length parts) as -> by (simpl in Hklen; lia).
      rewrite Nat.ltb_irrefl, andb_false_r.
      destruct (Nat.leb_spec 2 (length parts)) as [_|Hlt]; [|lia].
      rewrite slice_from_last_two by lia. reflexivity.
    + simpl in Hklen.
      destruct (Nat.ltb_spec 0 k) as [_|H0]; [|lia].
      destruct (Nat.ltb_spec k (length parts)) as [_|Hge]; [|lia].
      simpl andb. cbv zeta.
      rewrite slice_from_nat, Hdrop.
      assert (PyStr.falsy t = false) as Ht.
      { assert (Forall (fun t => PyStr.falsy t = false) (drop k parts)) as Hd
          by (apply Forall_drop, Htok).
        rewrite Hdrop in Hd. inversion Hd; assumption. }
      rewrite (join_nonempty " " t following Ht). reflexivity.
  - rewrite (storage_scan_none parts 0 0 Hspec). simpl andb.
    destruct (Nat.leb_spec 2 (length parts)) as [_|Hlt]; [|lia].
    rewrite slice_from_last_two by lia. reflexivity.
Qed.

Lemma extract_color_few_tokens product :
  (length (PyStr.split product) < 2)%nat ->
  extract_color_from_product product = Unknown_Color.
Proof.
  intros Hlen. unfold extract_color_from_product.
  destruct (PyStr.falsy product || String.eqb product "nan"); [reflexivity|].
  rewrite split_strip.
  destruct (Nat.ltb_spec (length (PyStr.split product)) 2); [reflexivity|lia].
Qed.

Lemma guard_few_tokens product :
  PyStr.falsy product || String.eqb product "nan" = true ->
  (length (PyStr.split product) < 2)%nat.
Proof.
  intros Hguard. apply orb_true_iff in Hguard as [Hempty|Hnan].
  - destruct product; [simpl; lia|discriminate].
  - apply String.eqb_eq in Hnan. subst product. simpl. lia.
Qed.

Lemma guard_false product :
  (2 <= length (PyStr.split product))%nat ->
  PyStr.falsy product || String.eqb product "nan" = false.
Proof.
  intros Hlen.
  destruct (PyStr.falsy product || String.eqb product "nan") eqn:Hguard; [|reflexivity].
  apply guard_few_tokens in Hguard. lia.
Qed.

(** C1 (the code departs from it). On every ASCII input whose first
    specifier token is not the final token, [extract_color_from_product]
    is the reference definition: the sentinel for an empty or placeholder
    input or fewer than two tokens; the tokens after the first token with
    a ['+'] and a digit, joined by single spaces and upper-cased; the last
    two tokens joined and upper-cased when no token is a specifier; in
    particular the colour of "SMART 8 64+3 SHINY GOLD" is "SHINY GOLD".
    Where the first specifier is the final token of two or more, the code
    departs from the reference: the guard of line 47 sends it to the
    fallback of line 52, and it answers with the last two tokens, the
    specifier among them, where the reference has no token to join; so
    for "A 64+3" the code gives "A 64+3". *)
Theorem extract_color_follows_reference (product : string) :
  PyStr.isascii product = true ->
  (((2 <= length (PyStr.split product))%nat ->
    after_first_specifier (PyStr.split product) <> Some []) ->
   extract_color_from_product product = extractColor_reference product) /\
  ((2 <= length (PyStr.split product))%nat ->
   after_first_specifier (PyStr.split product) = Some [] ->
   extract_color_from_product product
     = PyStr.upper (PyStr.join " " (last_two (PyStr.split product))) /\
   extractColor_reference product = "") /\
  extract_color_from_product "SMART 8 64+3 SHINY GOLD" = "SHINY GOLD" /\
  extract_color_from_product "A 64+3" = "A 64+3" /\
  extractColor_reference "A 64+3" = "".
Proof.
  intros _. split; [|split; [|repeat split; reflexivity]].
  - intros Hnot_last. unfold extractColor_reference.
    destruct (PyStr.falsy product || String.eqb product "nan") eqn:Hguard.
    + unfold extract_color_from_product. rewrite Hguard. reflexivity.
    + simpl orb.
      destruct (Nat.ltb_spec (length (PyStr.split product)) 2) as [Hlt|Hge].
      * apply extract_color_few_tokens, Hlt.
      * rewrite (extract_color_of_parts product Hguard Hge).
        specialize (Hnot_last Hge).
        destruct (after_first_specifier (PyStr.split product)) as [[|t following]|];
          [contradiction|reflexivity|reflexivity].
  - intros Hge Hlast. pose proof (guard_false product Hge) as Hguard.
    rewrite (extract_color_of_parts product Hguard Hge), Hlast.
    split; [reflexivity|].
    unfold extractColor_reference. rewrite Hguard, Hlast. simpl orb.
    destruct (Nat.ltb_spec (length (PyStr.split product)) 2) as [Hlt|_]; [lia|].
    reflexivity.
Qed.

Lemma extract_color_follows_reference_witness :
  extract_color_from_product "HOT 60 Pro+ 256+8 SLEEK BLACK"
    = extractColor_reference "HOT 60 Pro+ 256+8 SLEEK BLACK" /\
  extract_color_from_product "A 64+3" = "A 64+3" /\
  extractColor_reference "A 64+3" = "".
Proof.
  destruct (extract_color_follows_reference "HOT 60 Pro+ 256+8 SLEEK BLACK" eq_refl)
    as (Hfollows & _).
  destruct (extract_color_follows_reference "A 64+3" eq_refl) as (_ & Hdeparts & _).
  split; [apply Hfollows; intros _; vm_compute; discriminate|].
  destruct Hdeparts as [Hcode Hreference]; [vm_compute; lia|reflexivity|].
  split; [exact Hcode|exact Hreference].
Defined.

(** Upper-casing is idempotent, so no upper-cased string is the sentinel,
    which has lower-case letters. *)
Lemma upper_char_idempotent c : PyStr.upper_char (PyStr.upper_char c) = PyStr.upper_char c.
Proof. destruct c as [[] [] [] [] [] [] [] []]; reflexivity. Qed.

Lemma upper_idempotent s : PyStr.upper (PyStr.upper s) = PyStr.upper s.
Proof.
  induction s as [|c s IH]; [reflexivity|].
  simpl. rewrite upper_char_idempotent, IH. reflexivity.
Qed.

Lemma upper_not_sentinel s : PyStr.upper s <> Unknown_Color.
Proof.
  intros Heq. pose proof (upper_idempotent s) as Hidem.
  rewrite Heq in Hidem. discriminate Hidem.
Qed.

(** C2 (the code departs from it). For every product string of two or
    more tokens whose specifier is the final token, the extractor does not
    return the sentinel: the guard of line 47 sends it to the fallback,
    and the result is the last two tokens, the specifier among them, joined
    and upper-cased. *)
Theorem extract_color_final_specifier (product : string) :
  PyStr.falsy product || String.eqb product "nan" = false ->
  (2 <= length (PyStr.split product))%nat ->
  after_first_specifier (PyStr.split product) = Some [] ->
  extract_color_from_product product
    = PyStr.upper (PyStr.join " " (last_two (PyStr.split product))) /\
  extract_color_from_product product <> Unknown_Color.
Proof.
  intros Hguard Hlen Hlast.
  rewrite (extract_color_of_parts product Hguard Hlen), Hlast.
  split; [reflexivity|apply upper_not_sentinel].
Qed.

Lemma extract_color_final_specifier_witness :
  extract_color_from_product "SMART 64+3" = "SMART 64+3".
Proof.
  apply (extract_color_final_specifier "SMART 64+3"); reflexivity.
Defined.

(** ** The label composer *)

Section ComposerFacts.
Context `{Imaging}.

Lemma bind_returned {A B} (r : Py.result A) (k : A -> Py.result B) (b : B) :
  (r ≫= k) = Py.Returned b -> exists a, r = Py.Returned a /\ k a = Py.Returned b.
Proof.
  destruct r as [a|e]; simpl; intros Hb; [|discriminate].
  exists a. split; [reflexivity|exact Hb].
Qed.

Lemma generate_code128_barcode_returned data w h img :
  generate_code128_barcode data w h = Py.Returned img ->
  code128_accepts data = true /\ img = Code128Image data w h.
Proof.
  unfold generate_code128_barcode. destruct (code128_accepts data); [|discriminate].
  intros [= <-]. split; reflexivity.
Qed.

Lemma generate_qr_code_returned data size img :
  generate_qr_code data size = Py.Returned img ->
  qr_accepts data = true /\ img = QRImage data (fst size) (snd size).
Proof.
  unfold generate_qr_code. destruct (qr_accepts data); [|discriminate].
  intros [= <-]. split; reflexivity.
Qed.

(** The second region, when it is drawn: the barcode of the box id below
    the IMEI caption, then three texts. *)
Lemma box_id_region_returned box_id dn fl fm fr x_start y_pos bw bh ops :
  box_id_region box_id dn fl fm fr x_start y_pos bw bh = Py.Returned ops ->
  code128_accepts box_id = true /\
  exists cap dn_font,
    fit_caption "Box ID" box_id fm fr fm x_start bw = Py.Returned cap /\
    ops = [ Paste (Code128Image box_id bw bh) x_start (y_pos + 35);
            DrawText (inject_Z x_start) (inject_Z (y_pos + 35 + bh + 0)) "Box ID" (bold_font cap);
            DrawText (inject_Z (number_x cap)) (inject_Z (y_pos + 35 + bh + 0)) box_id
                     (stretched_number_font cap);
            DrawText (inject_Z x_start) (inject_Z (y_pos + 35 + bh + 0 + 35))
                     ("D/N: " +:+ dn) dn_font ].
Proof.
  unfold box_id_region. intros Hret.
  apply bind_returned in Hret as (img & Himg & Hret).
  apply generate_code128_barcode_returned in Himg as [Hacc ->].
  apply bind_returned in Hret as (cap & Hcap & Hret).
  split; [exact Hacc|].
  injection Hret as <-. eauto.
Qed.

(** What a label that [create_barcode_label] returns is made of. *)
Lemma create_barcode_label_returned imei model color dn box_id l :
  create_barcode_label imei model color dn box_id = Py.Returned l ->
  let font_large := fst (fst load_bold_fonts) in
  let font_medium := snd (fst load_bold_fonts) in
  let font_circle := snd load_bold_fonts in
  let circle_x_center := (inject_Z 500 + inject_Z 150 / 2 + 15)%Q in
  exists cap box_region,
    label_size l = (650, 300) /\
    label_background l = "white" /\
    code128_accepts imei = true /\
    qr_accepts imei = true /\
    fit_caption "IMEI" imei font_medium load_regular_font load_regular_font
                30 460 = Py.Returned cap /\
    (if truthy box_id
     then box_id_region (default "" box_id) dn font_large font_medium
                        load_regular_font 30 138 460 60 = Py.Returned box_region
     else box_region = []) /\
    label_ops l =
      [ DrawText 30 20 model font_large;
        DrawText (inject_Z (650 - textbbox_width font_large (PyStr.upper color) - 60)) 20
                 (PyStr.upper color) font_large;
        Paste (Code128Image imei 460 60) 30 70;
        DrawText 30 138 "IMEI" (bold_font cap);
        DrawText (inject_Z (number_x cap)) 138 imei (stretched_number_font cap) ]
      ++ box_region ++
      [ Paste (QRImage imei 150 150) 500 65;
        Ellipse (circle_x_center - 40 / 2) (270 - 40 / 2)
                (circle_x_center + 40 / 2) (270 + 40 / 2) 2;
        DrawText (circle_x_center - inject_Z (textbbox_width font_circle "A") / 2)
                 (270 - inject_Z (textbbox_height font_circle "A") / 2 - 3)
                 "A" font_circle ].
Proof.
  unfold create_barcode_label.
  destruct load_bold_fonts as [[fl fm] fc]. simpl fst; simpl snd.
  intros Hret.
  apply bind_returned in Hret as (img & Himg & Hret).
  apply generate_code128_barcode_returned in Himg as [Hacc ->].
  apply bind_returned in Hret as (cap & Hcap & Hret).
  apply bind_returned in Hret as (box_region & Hbox & Hret).
  apply bind_returned in Hret as (qr & Hqr & Hret).
  apply generate_qr_code_returned in Hqr as [Hqacc ->].
  injection Hret as <-.
  exists cap, box_region.
  repeat split; try assumption; try reflexivity.
  destruct (truthy box_id); [exact Hbox|].
  injection Hbox as <-. reflexivity.
Qed.

End ComposerFacts.

(** ** Font sizes of the text-fit computation *)

(** For a caption narrower than the 460-pixel barcode, the size asked for
    the label is [16 * 460 / w] truncated: the float quotient never falls
    on the wrong side of an integer. *)
Lemma scaled_font_size_16 w :
  0 < w < 460 -> scaled_font_size 16 460 w = 7360 / w.
Proof.
  intros Hw.
  assert (forallb (fun w => scaled_font_size 16 460 w =? 7360 / w) (seqZ 1 459) = true)
    as Hall by (vm_compute; reflexivity).
  rewrite forallb_forall in Hall.
  apply Z.eqb_eq, Hall, list_elem_of_In, elem_of_seqZ. lia.
Qed.

Lemma true_div_scaled k a b x :
  Py.true_div a b = Py.Returned x -> Py.int_times k x = scaled_font_size k a b.
Proof. unfold scaled_font_size. intros ->. reflexivity. Qed.

Lemma scaled_size_usual w : 0 < w < 460 -> 16 <= 7360 / w.
Proof. intros Hw. apply Z.div_le_lower_bound; lia. Qed.

Section ComposerReturns.
Context `{Imaging}.

Lemma true_div_returns a b : b <> 0 -> exists x, Py.true_div a b = Py.Returned x.
Proof.
  intros Hb. unfold Py.true_div.
  destruct (Z.eqb_spec b 0) as [->|_]; [contradiction|]. eauto.
Qed.

(** What a caption that [fit_caption] returns for the width 460 is made
    of, whichever font files load. *)
Lemma fit_caption_returned caption_label number fm fr fu x_start cap :
  fit_caption caption_label number fm fr fu x_start 460 = Py.Returned cap ->
  let w := textbbox_width fm (caption_label +:+ " " +:+ number) in
  let size := scaled_font_size 16 460 w in
  let available_width := 460 - textbbox_width (bold_font cap) caption_label - 5 in
  let number_width := textbbox_width (number_font cap) number in
  let number_size := scaled_font_size 25 available_width number_width in
  (bold_font cap, number_font cap) =
    (if w <? 460 then
       if truetype_loads "ARIALBD.TTF" size && truetype_loads "arial.ttf" size
       then (TrueType "ARIALBD.TTF" size, TrueType "arial.ttf" size)
       else if truetype_loads Arial_Bold_system size && truetype_loads Arial_system size
       then (TrueType Arial_Bold_system size, TrueType Arial_system size)
       else (fm, fr)
     else (fm, fu)) /\
  number_x cap = x_start + textbbox_width (bold_font cap) caption_label + 5 /\
  stretched_number_font cap =
    (if number_width <? available_width then
       if truetype_loads "arial.ttf" number_size then TrueType "arial.ttf" number_size
       else if truetype_loads Arial_system number_size
       then TrueType Arial_system number_size
       else number_font cap
     else number_font cap).
Proof.
  unfold fit_caption. intros Hret.
  apply bind_returned in Hret as (fonts & Hfonts & Hret).
  apply bind_returned in Hret as (stretched & Hstretched & Hret).
  injection Hret as <-.
  cbn [bold_font number_font number_x stretched_number_font]. cbv zeta.
  set (w := textbbox_width fm (caption_label +:+ " " +:+ number)) in *.
  replace (460 - (x_start + textbbox_width (fst fonts) caption_label + 5 - x_start))
    with (460 - textbbox_width (fst fonts) caption_label - 5) in Hstretched by lia.
  set (available_width := 460 - textbbox_width (fst fonts) caption_label - 5) in *.
  set (number_width := textbbox_width (snd fonts) number) in *.
  split; [|split; [reflexivity|]].
  - destruct (w <? 460).
    + apply bind_returned in Hfonts as (x & Hx & Hfonts).
      rewrite (true_div_scaled 16 460 w x Hx) in Hfonts.
      set (size := scaled_font_size 16 460 w) in *.
      unfold truetype in Hfonts. injection Hfonts as <-.
      destruct (truetype_loads "ARIALBD.TTF" size), (truetype_loads "arial.ttf" size),
        (truetype_loads Arial_Bold_system size), (truetype_loads Arial_system size);
        reflexivity.
    + injection Hfonts as <-. reflexivity.
  - destruct (number_width <? available_width).
    + apply bind_returned in Hstretched as (x & Hx & Hstretched).
      rewrite (true_div_scaled 25 available_width number_width x Hx) in Hstretched.
      set (number_size := scaled_font_size 25 available_width number_width) in *.
      unfold truetype in Hstretched. injection Hstretched as <-.
      destruct (truetype_loads "arial.ttf" number_size),
        (truetype_loads Arial_system number_size); reflexivity.
    + injection Hstretched as <-. reflexivity.
Qed.

Lemma usual_medium_font : usual_font (snd (fst load_bold_fonts)).
Proof.
  unfold load_bold_fonts, truetype.
  destruct (truetype_loads "ARIALBD.TTF" 35), (truetype_loads "ARIALBD.TTF" 20),
    (truetype_loads "ARIALBD.TTF" 28), (truetype_loads Arial_Bold_system 40),
    (truetype_loads Arial_Bold_system 20), (truetype_loads Arial_Bold_system 28);
    simpl; lia || exact I.
Qed.

Lemma usual_regular_font : usual_font load_regular_font.
Proof.
  unfold load_regular_font, truetype.
  destruct (truetype_loads Arial_system 18), (truetype_loads "arial.ttf" 18);
    simpl; lia || exact I.
Qed.

(** The text-fit computation returns as soon as the two texts it measures
    have a width: the only thing it can raise is a division by a width of
    zero. *)
Lemma fit_caption_returns caption_label number fm fr fu x_start :
  usual_font fm -> usual_font fr -> usual_font fu ->
  measurable (caption_label +:+ " " +:+ number) -> measurable number ->
  exists cap, fit_caption caption_label number fm fr fu x_start 460 = Py.Returned cap.
Proof.
  intros Hfm Hfr Hfu Hfull Hnum. unfold fit_caption.
  set (w := textbbox_width fm (caption_label +:+ " " +:+ number)).
  assert (0 < w) as Hw by (apply Hfull, Hfm).
  assert (exists fonts,
    (if w <? 460
     then scale_factor ← Py.true_div 460 w;
          mret (match truetype "ARIALBD.TTF" (Py.int_times 16 scale_factor),
                      truetype "arial.ttf" (Py.int_times 16 scale_factor) with
                | Some b, Some r => (b, r)
                | _, _ =>
                    match truetype Arial_Bold_system (Py.int_times 16 scale_factor),
                          truetype Arial_system (Py.int_times 16 scale_factor) with
                    | Some b, Some r => (b, r)
                    | _, _ => (fm, fr)
                    end
                end)
     else mret (fm, fu)) = Py.Returned fonts /\ usual_font (snd fonts)) as (fonts & -> & Hfont).
  { destruct (Z.ltb_spec w 460) as [Hlt|_]; [|eauto].
    destruct (true_div_returns 460 w) as [x Hx]; [lia|]. rewrite Hx.
    cbn [mbind result_bind Py.bind].
    rewrite (true_div_scaled 16 460 w x Hx), scaled_font_size_16 by lia.
    pose proof (scaled_size_usual w ltac:(lia)) as Hsize.
    eexists. split; [reflexivity|].
    unfold truetype.
    destruct (truetype_loads "ARIALBD.TTF" (7360 / w)),
      (truetype_loads "arial.ttf" (7360 / w)),
      (truetype_loads Arial_Bold_system (7360 / w)),
      (truetype_loads Arial_system (7360 / w));
      simpl; assumption. }
  cbn [mbind result_bind Py.bind].
  pose proof (Hnum (snd fonts) Hfont) as Hnw.
  destruct (textbbox_width (snd fonts) number
              <? 460 - (x_start + textbbox_width (fst fonts) caption_label + 5 - x_start));
    [|cbn [mbind result_bind Py.bind]; eauto].
  destruct (true_div_returns
              (460 - (x_start + textbbox_width (fst fonts) caption_label + 5 - x_start))
              (textbbox_width (snd fonts) number)) as [x ->]; [lia|].
  cbn [mbind result_bind Py.bind]. eauto.
Qed.

Lemma truthy_not_falsy box_id :
  truthy box_id = true -> PyStr.falsy (default "" box_id) = false.
Proof.
  destruct box_id as [b|]; simpl; [|discriminate].
  destruct (PyStr.falsy b); [discriminate|reflexivity].
Qed.

(** The composer returns a label as soon as both encoders take the data
    they are given and the captions can be measured. *)
Lemma create_barcode_label_returns imei model color dn box_id :
  code128_accepts imei = true ->
  qr_accepts imei = true ->
  (truthy box_id = true -> code128_accepts (default "" box_id) = true) ->
  captions_measurable imei box_id ->
  exists l, create_barcode_label imei model color dn box_id = Py.Returned l.
Proof.
  intros Hacc Hqr Hbox (Himei & Hcaption & Hbox_caption). unfold create_barcode_label.
  pose proof usual_medium_font as Hfm. pose proof usual_regular_font as Hfr.
  destruct load_bold_fonts as [[fl fm] fc]. cbn [fst snd] in Hfm.
  unfold generate_code128_barcode at 1. rewrite Hacc. simpl.
  destruct (fit_caption_returns "IMEI" imei fm load_regular_font load_regular_font 30
              Hfm Hfr Hfr Hcaption Himei) as [cap ->].
  simpl.
  destruct (truthy box_id) eqn:Htruthy.
  - unfold box_id_region, generate_code128_barcode.
    rewrite (Hbox eq_refl). simpl.
    destruct (Hbox_caption eq_refl) as [Hb Hb_caption].
    destruct (fit_caption_returns "Box ID" (default "" box_id) fm load_regular_font fm 30
                Hfm Hfr Hfm Hb_caption Hb) as [cap2 ->].
    simpl. unfold generate_qr_code. rewrite Hqr. simpl. eauto.
  - simpl. unfold generate_qr_code. rewrite Hqr. simpl. eauto.
Qed.

End ComposerReturns.

Lemma sample_measurable (text : string) :
  PyStr.falsy text = false -> measurable (H:=sample_imaging) text.
Proof.
  intros Htext f Hf. simpl. unfold sample_text_width.
  destruct text as [|c text]; [discriminate|].
  destruct (Z.eqb_spec (Z.of_nat (String.length (String c text))) 0) as [H0|_].
  - simpl in H0. lia.
  - destruct f; simpl String.length; lia.
Qed.

Lemma sample_captions_measurable (imei : string) (box_id : option string) :
  PyStr.falsy imei = false ->
  captions_measurable (H:=sample_imaging) imei box_id.
Proof.
  intros Himei. split; [apply sample_measurable, Himei|].
  split; [apply sample_measurable; reflexivity|].
  intros Htruthy. split; apply sample_measurable;
    [apply truthy_not_falsy, Htruthy|reflexivity].
Qed.

(** C3 (amended). Every image the composer returns, for any record, is
    exactly 650 by 300 pixels on a white background; and it returns one
    for every record whose IMEI both encoders accept, whose box id, when
    it is not empty, the linear encoder accepts, and whose captions have a
    width. A valid IMEI alone does not make the composer return: nothing
    validates the data before the encoders see it. *)
Theorem create_barcode_label_size `{Imaging} (imei model color dn : string)
    (box_id : option string) :
  (forall l,
     create_barcode_label imei model color dn box_id = Py.Returned l ->
     label_size l = (650, 300) /\ label_background l = "white") /\
  (code128_accepts imei = true ->
   qr_accepts imei = true ->
   (truthy box_id = true -> code128_accepts (default "" box_id) = true) ->
   captions_measurable imei box_id ->
   exists l, create_barcode_label imei model color dn box_id = Py.Returned l /\
             label_size l = (650, 300) /\ label_background l = "white").
Proof.
  assert (forall l,
            create_barcode_label imei model color dn box_id = Py.Returned l ->
            label_size l = (650, 300) /\ label_background l = "white") as Hsize.
  { intros l Hret.
    apply create_barcode_label_returned in Hret as (cap & box_region & Hs & Hb & _).
    split; assumption. }
  split; [exact Hsize|].
  intros Hacc Hqr Hbox Hcaptions.
  destruct (create_barcode_label_returns imei model color dn box_id Hacc Hqr Hbox Hcaptions)
    as [l Hl].
  exists l. split; [exact Hl|]. apply Hsize, Hl.
Qed.

Lemma create_barcode_label_size_witness :
  exists l,
    create_barcode_label (H:=sample_imaging) sample_imei "X6525D" "TIMBER BLACK" "M8N7"
                         (Some sample_box_id) = Py.Returned l /\
    label_size l = (650, 300) /\ label_background l = "white".
Proof.
  apply (create_barcode_label_size (H:=sample_imaging) sample_imei "X6525D" "TIMBER BLACK"
           "M8N7" (Some sample_box_id)).
  - reflexivity.
  - reflexivity.
  - intros _. reflexivity.
  - apply sample_captions_measurable. reflexivity.
Defined.

(** C3 as stated fails on a valid record whose IMEI the linear encoder
    rejects: the IMEI is present and is not the placeholder, and the
    composer raises the encoder's error and returns no image. *)
Lemma create_barcode_label_raises :
  valid_imei sample_foreign_imei = true /\
  create_barcode_label (H:=sample_imaging) sample_foreign_imei "X6525D" "TIMBER BLACK"
                       "M8N7" (Some sample_box_id)
    = Py.Raised (Py.EncodingError sample_foreign_imei).
Proof. split; reflexivity. Qed.

(** ** The text-fit computation *)

(** C4 (amended). For a caption fitted to the barcode width 460, with [w]
    the width of label-plus-value at the base bold font: if [w] is
    positive and strictly below 460, the size asked for the bold label
    and for the value is 16 * 460 / w truncated to an integer, not
    rounded; the two fonts are ARIALBD.TTF and arial.ttf at that size when
    both load, else the system Arial Bold and Arial at that size when both
    load, else the base fonts. If [w] is at least 460 the base fonts are
    used unchanged. Then, with the available width 460 minus the placed
    label's width minus 5, and the value measured at the font the first
    stage chose for it: if the value is strictly narrower than the
    available width, the size asked for it is 25 * (available / value
    width) truncated to an integer, from arial.ttf when it loads, else
    from the system Arial when it loads, else the value keeps the font of
    the first stage; and it keeps that font when it is not narrower. *)
Theorem fit_caption_sizes `{Imaging} (caption_label number : string)
    (font_medium font_regular unscaled_number_font : font) (x_start : Z) (cap : caption) :
  fit_caption caption_label number font_medium font_regular unscaled_number_font
              x_start 460 = Py.Returned cap ->
  let w := textbbox_width font_medium (caption_label +:+ " " +:+ number) in
  let size := 7360 / w in
  let available_width := 460 - textbbox_width (bold_font cap) caption_label - 5 in
  let number_width := textbbox_width (number_font cap) number in
  let number_size := scaled_font_size 25 available_width number_width in
  (0 < w < 460 ->
   (bold_font cap, number_font cap) =
     if truetype_loads "ARIALBD.TTF" size && truetype_loads "arial.ttf" size
     then (TrueType "ARIALBD.TTF" size, TrueType "arial.ttf" size)
     else if truetype_loads Arial_Bold_system size && truetype_loads Arial_system size
     then (TrueType Arial_Bold_system size, TrueType Arial_system size)
     else (font_medium, font_regular)) /\
  (460 <= w -> bold_font cap = font_medium /\ number_font cap = unscaled_number_font) /\
  number_x cap = x_start + textbbox_width (bold_font cap) caption_label + 5 /\
  (number_width < available_width ->
   stretched_number_font cap =
     if truetype_loads "arial.ttf" number_size then TrueType "arial.ttf" number_size
     else if truetype_loads Arial_system number_size
     then TrueType Arial_system number_size
     else number_font cap) /\
  (available_width <= number_width -> stretched_number_font cap = number_font cap).
Proof.
  intros Hret w size available_width number_width number_size.
  destruct (fit_caption_returned _ _ _ _ _ _ _ Hret) as (Hfonts & Hx & Hstretched).
  cbv zeta in Hfonts, Hstretched. fold w in Hfonts.
  fold available_width number_width number_size in Hstretched.
  split; [|split; [|split; [exact Hx|split]]].
  - intros Hw. destruct (Z.ltb_spec w 460) as [_|Hge]; [|lia].
    rewrite scaled_font_size_16 in Hfonts by exact Hw. exact Hfonts.
  - intros Hw. destruct (Z.ltb_spec w 460) as [Hlt|_]; [lia|].
    injection Hfonts as -> ->. split; reflexivity.
  - intros Hlt.
    destruct (Z.ltb_spec number_width available_width) as [_|Hge]; [|lia].
    exact Hstretched.
  - intros Hge.
    destruct (Z.ltb_spec number_width available_width) as [Hlt|_]; [lia|].
    exact Hstretched.
Qed.

(** Without any font file every scaled font falls back to the base font
    it was derived from. *)
Example fit_caption_without_fonts :
  fit_caption (H:=fontless_imaging) "IMEI" sample_imei DefaultFont DefaultFont DefaultFont
              30 460
  = Py.Returned {| bold_font := DefaultFont; number_font := DefaultFont;
                   number_x := 59; stretched_number_font := DefaultFont |}.
Proof. vm_compute. reflexivity. Qed.

(** Libraries with the system fonts only: ARIALBD.TTF and arial.ttf are
    not found. *)
Definition system_fonts_imaging : Imaging :=
  {| truetype_loads := fun file size =>
       (0 <? size) && (String.eqb file Arial_Bold_system || String.eqb file Arial_system);
     textbbox_width := sample_text_width;
     textbbox_height := sample_text_height;
     code128_accepts := fun data => negb (PyStr.falsy data) && ascii_only data;
     qr_accepts := fun _ => true;
     image_saves := sample_image_saves |}.

Lemma fit_caption_sizes_witness :
  (exists cap,
     fit_caption (H:=sample_imaging) "IMEI" sample_imei (TrueType "ARIALBD.TTF" 20)
                 (TrueType Arial_system 18) (TrueType Arial_system 18) 30 460
       = Py.Returned cap /\
     bold_font cap = TrueType "ARIALBD.TTF" 24 /\
     number_font cap = TrueType "arial.ttf" 24 /\
     stretched_number_font cap = TrueType "arial.ttf" 35) /\
  (exists cap,
     fit_caption (H:=system_fonts_imaging) "IMEI" sample_imei (TrueType Arial_Bold_system 20)
                 (TrueType Arial_system 18) (TrueType Arial_system 18) 30 460
       = Py.Returned cap /\
     bold_font cap = TrueType Arial_Bold_system 24 /\
     number_font cap = TrueType Arial_system 24 /\
     stretched_number_font cap = TrueType Arial_system 35).
Proof.
  split.
  - eexists. split; [vm_compute; reflexivity|].
    pose proof (fit_caption_sizes (H:=sample_imaging) "IMEI" sample_imei
                  (TrueType "ARIALBD.TTF" 20) (TrueType Arial_system 18)
                  (TrueType Arial_system 18) 30 _ eq_refl) as (Hscaled & _ & _ & Hstretch & _).
    specialize (Hscaled ltac:(vm_compute; split; reflexivity)).
    specialize (Hstretch ltac:(vm_compute; reflexivity)).
    split; [exact (f_equal fst Hscaled)|].
    split; [exact (f_equal snd Hscaled)|exact Hstretch].
  - eexists. split; [vm_compute; reflexivity|].
    pose proof (fit_caption_sizes (H:=system_fonts_imaging) "IMEI" sample_imei
                  (TrueType Arial_Bold_system 20) (TrueType Arial_system 18)
                  (TrueType Arial_system 18) 30 _ eq_refl) as (Hscaled & _ & _ & Hstretch & _).
    specialize (Hscaled ltac:(vm_compute; split; reflexivity)).
    specialize (Hstretch ltac:(vm_compute; reflexivity)).
    split; [exact (f_equal fst Hscaled)|].
    split; [exact (f_equal snd Hscaled)|exact Hstretch].
Defined.

(** C4 as stated fails on the rounding: a caption measuring 300 pixels
    makes the composer ask for size 24 = int(16 * 460 / 300), where
    round(16 * (460 / 300)) is 25. *)
Lemma fit_caption_truncates :
  textbbox_width (Imaging:=sample_imaging) (TrueType "ARIALBD.TTF" 20)
                 ("IMEI" +:+ " " +:+ sample_imei) = 300 /\
  (bold_font <$> fit_caption (H:=sample_imaging) "IMEI" sample_imei
                   (TrueType "ARIALBD.TTF" 20) (TrueType Arial_system 18)
                   (TrueType Arial_system 18) 30 460)
    = Py.Returned (TrueType "ARIALBD.TTF" 24) /\
  round_half_even (16 * (460 / 300)) = 25.
Proof. repeat split; vm_compute; reflexivity. Qed.

(** ** The regions of a label *)

Section Regions.
Context `{Imaging}.

(** Reads the drawing list of a returned label, with and without the
    second region, and computes the observation at hand on it. *)
Ltac read_regions Hret :=
  let cap := fresh "cap" in
  let box_region := fresh "box_region" in
  let Hbox := fresh "Hbox" in
  let Hops := fresh "Hops" in
  apply create_barcode_label_returned in Hret
    as (cap & box_region & _ & _ & _ & _ & _ & Hbox & Hops);
  rewrite Hops;
  match type of Hbox with
  | if truthy ?b then _ else _ =>
      destruct (truthy b);
      [ apply box_id_region_returned in Hbox as (_ & ? & ? & _ & ->)
      | subst box_region ];
      reflexivity
  end.

Lemma linear_barcodes_returned imei model color dn box_id l :
  create_barcode_label imei model color dn box_id = Py.Returned l ->
  linear_barcodes l =
    (imei, (30, 70), (460, 60)) ::
    (if truthy box_id then [(default "" box_id, (30, 173), (460, 60))] else []).
Proof. intros Hret. unfold linear_barcodes. read_regions Hret. Qed.

Lemma matrix_codes_returned imei model color dn box_id l :
  create_barcode_label imei model color dn box_id = Py.Returned l ->
  matrix_codes l = [(imei, (500, 65), (150, 150))].
Proof. intros Hret. unfold matrix_codes. read_regions Hret. Qed.

Lemma ellipses_returned imei model color dn box_id l :
  create_barcode_label imei model color dn box_id = Py.Returned l ->
  ellipses l =
    [ ((inject_Z 500 + inject_Z 150 / 2 + 15 - 40 / 2)%Q, (270 - 40 / 2)%Q,
       (inject_Z 500 + inject_Z 150 / 2 + 15 + 40 / 2)%Q, (270 + 40 / 2)%Q, 2) ].
Proof. intros Hret. unfold ellipses. read_regions Hret. Qed.

Lemma glyph_returned imei model color dn box_id l :
  create_barcode_label imei model color dn box_id = Py.Returned l ->
  let font_circle := snd load_bold_fonts in
  last (label_ops l) =
    Some (DrawText (inject_Z 500 + inject_Z 150 / 2 + 15
                      - inject_Z (textbbox_width font_circle "A") / 2)
                   (270 - inject_Z (textbbox_height font_circle "A") / 2 - 3)
                   "A" font_circle).
Proof.
  intros Hret.
  apply create_barcode_label_returned in Hret
    as (cap & box_region & _ & _ & _ & _ & _ & Hbox & Hops).
  cbv zeta. rewrite Hops, !app_assoc, last_app. reflexivity.
Qed.

End Regions.

(** C8 (the code departs from it). Every label the composer returns has
    exactly one matrix code: 150 by 150 pixels, encoding the IMEI alone,
    its right edge (500 + 150) flush with the right edge of the 650-pixel
    canvas. Its top is at y = 65, while the first barcode region has its
    top at y = 70: the two are five pixels apart, not aligned. *)
Theorem matrix_code_region `{Imaging} (imei model color dn : string)
    (box_id : option string) (l : label) :
  create_barcode_label imei model color dn box_id = Py.Returned l ->
  matrix_codes l = [(imei, (500, 65), (150, 150))] /\
  500 + 150 = fst (label_size l) /\
  head (linear_barcodes l) = Some (imei, (30, 70), (460, 60)).
Proof.
  intros Hret.
  split; [eapply matrix_codes_returned, Hret|].
  split.
  - apply create_barcode_label_returned in Hret as (cap & box_region & -> & _).
    reflexivity.
  - erewrite linear_barcodes_returned by exact Hret. reflexivity.
Qed.

Lemma matrix_code_region_witness :
  exists l,
    create_barcode_label (H:=sample_imaging) sample_imei "X6525D" "TIMBER BLACK" "M8N7"
                         (Some sample_box_id) = Py.Returned l /\
    matrix_codes l = [(sample_imei, (500, 65), (150, 150))] /\
    500 + 150 = fst (label_size l) /\
    head (linear_barcodes l) = Some (sample_imei, (30, 70), (460, 60)).
Proof.
  eexists. split; [vm_compute; reflexivity|].
  apply (matrix_code_region (H:=sample_imaging) sample_imei "X6525D" "TIMBER BLACK" "M8N7"
           (Some sample_box_id)).
  vm_compute. reflexivity.
Defined.

(** C9 (the code departs from it). Every label the composer returns has
    exactly one stroked ellipse: a circle 40 pixels across with a 2-pixel
    stroke, centred at height 270, and the glyph "A" is drawn last, centred
    on the same point (three pixels up). The centre of the circle is at
    x = 590, which is 15 pixels to the right of the horizontal middle of
    the matrix-code region (500 + 150 / 2 = 575), not on it. *)
Theorem circle_region `{Imaging} (imei model color dn : string)
    (box_id : option string) (l : label) :
  create_barcode_label imei model color dn box_id = Py.Returned l ->
  exists x0 y0 x1 y1 glyph_x glyph_y : Q,
    ellipses l = [(x0, y0, x1, y1, 2)] /\
    (x1 - x0 == 40)%Q /\ (y1 - y0 == 40)%Q /\
    ((x0 + x1) / 2 == middle_x 500 150 + 15)%Q /\
    ((x0 + x1) / 2 == 590)%Q /\
    (middle_x 500 150 == 575)%Q /\
    ((y0 + y1) / 2 == 270)%Q /\
    last (label_ops l) = Some (DrawText glyph_x glyph_y "A" (snd load_bold_fonts)) /\
    (glyph_x == (x0 + x1) / 2
                - inject_Z (textbbox_width (snd load_bold_fonts) "A") / 2)%Q /\
    (glyph_y == (y0 + y1) / 2
                - inject_Z (textbbox_height (snd load_bold_fonts) "A") / 2 - 3)%Q.
Proof.
  intros Hret.
  eexists _, _, _, _, _, _.
  split; [eapply ellipses_returned, Hret|].
  split; [vm_compute; reflexivity|].
  split; [vm_compute; reflexivity|].
  split; [vm_compute; reflexivity|].
  split; [vm_compute; reflexivity|].
  split; [vm_compute; reflexivity|].
  split; [vm_compute; reflexivity|].
  split; [eapply glyph_returned, Hret|].
  split; field.
Qed.

Lemma circle_region_witness :
  exists l,
    create_barcode_label (H:=sample_imaging) sample_imei "X6525D" "TIMBER BLACK" "M8N7"
                         (Some sample_box_id) = Py.Returned l /\
    exists x0 y0 x1 y1 : Q,
      ellipses l = [(x0, y0, x1, y1, 2)] /\
      (x1 - x0 == 40)%Q /\
      ((x0 + x1) / 2 == middle_x 500 150 + 15)%Q.
Proof.
  eexists. split; [vm_compute; reflexivity|].
  destruct (circle_region (H:=sample_imaging) sample_imei "X6525D" "TIMBER BLACK" "M8N7"
              (Some sample_box_id) _ eq_refl)
    as (x0 & y0 & x1 & y1 & gx & gy & Hellipse & Hdiameter & _ & Hcentre & _).
  exists x0, y0, x1, y1. repeat split; assumption.
Defined.

(** ** The batch driver *)

Section DriverFacts.
Context `{Imaging}.
Variable output_dir : string.

(** One round of the loop adds the row's output and the row's message, and
    touches nothing else. *)
Lemma generate_row_spec st index row :
  generate_row output_dir st index row =
    {| generated_files := generated_files st
                          ++ map fst (option_list (row_output output_dir (index, row)));
       saved := saved st ++ option_list (row_output output_dir (index, row));
       printed := printed st ++ [row_message output_dir (index, row)] |}.
Proof.
  unfold generate_row, row_output, row_message, valid_imei, label_path.
  fold (row_imei row). fold (row_box_id row). fold (row_model row).
  fold (row_color row). fold (row_dn row).
  destruct (PyStr.falsy (row_imei row) || String.eqb (row_imei row) "nan"); simpl.
  - rewrite !app_nil_r. reflexivity.
  - destruct (create_barcode_label _ _ _ _ _); simpl.
    + destruct (image_saves _); simpl; rewrite ?app_nil_r; reflexivity.
    + rewrite !app_nil_r. reflexivity.
Qed.

Lemma omap_cons_option_list {A B} (f : A -> option B) (a : A) (l : list A) :
  omap f (a :: l) = option_list (f a) ++ omap f l.
Proof. simpl. destruct (f a); reflexivity. Qed.

Lemma generate_rows_spec rows :
  forall st index,
    generate_rows output_dir st index rows =
      {| generated_files := generated_files st
           ++ map fst (omap (row_output output_dir) (enumerate_from index rows));
         saved := saved st ++ omap (row_output output_dir) (enumerate_from index rows);
         printed := printed st ++ map (row_message output_dir) (enumerate_from index rows) |}.
Proof.
  induction rows as [|row rest IH]; intros st index.
  - simpl. rewrite !app_nil_r. destruct st; reflexivity.
  - cbn [generate_rows enumerate_from].
    rewrite IH, generate_row_spec. cbn [generated_files saved printed].
    rewrite omap_cons_option_list, map_app, map_cons, <- !app_assoc.
    reflexivity.
Qed.

Lemma generate_from_data_spec df :
  let out := omap (row_output output_dir) (enumerate_from 0 df) in
  generate_from_data output_dir df =
    {| generated_files := map fst out;
       saved := out;
       printed := map (row_message output_dir) (enumerate_from 0 df)
                  ++ [Generated_total (length (map fst out))] |}.
Proof. unfold generate_from_data. rewrite generate_rows_spec. reflexivity. Qed.

Lemma enumerate_from_lookup {A} (l : list A) :
  forall start k a, l !! k = Some a -> In (start + Z.of_nat k, a) (enumerate_from start l).
Proof.
  induction l as [|b rest IH]; intros start k a Hk; [discriminate|].
  cbn [enumerate_from]. destruct k as [|k]; simpl in Hk.
  - injection Hk as ->. left. f_equal. lia.
  - right. replace (start + Z.of_nat (S k)) with (start + 1 + Z.of_nat k) by lia.
    apply (IH (start + 1)), Hk.
Qed.

Lemma enumerate_from_index {A} (l : list A) :
  forall start i a, In (i, a) (enumerate_from start l) ->
                    exists k, i = start + Z.of_nat k /\ l !! k = Some a.
Proof.
  induction l as [|b rest IH]; intros start i a Hin; [destruct Hin|].
  destruct Hin as [Heq|Hin].
  - injection Heq as <- <-. exists 0%nat. split; [lia|reflexivity].
  - destruct (IH _ _ _ Hin) as (k & -> & Hk). exists (S k). split; [lia|exact Hk].
Qed.

End DriverFacts.

(** C7 (amended). In every batch, a record whose IMEI is missing, empty or
    the placeholder is skipped with a printed diagnostic and adds nothing
    to the output set, and the batch goes on: the driver always returns,
    and its output set is made of what each row yields on its own. A
    valid record is composed; it is saved under
    barcode_label_{imei}_{index+1}.png and listed in the result when the
    composer returns its label and the label can be saved, which is so
    whenever the encoders accept its data, its captions have a width and
    the file can be written; when the composer or the save raises, the
    error is printed and the record is left out. *)
Theorem generate_from_data_isolates `{Imaging} (output_dir : string)
    (df : list (gmap string cell)) (k : nat) (row : gmap string cell) :
  df !! k = Some row ->
  let out := generate_from_data output_dir df in
  let index := Z.of_nat k in
  let path := label_path output_dir (row_imei row) index in
  let composed :=
    create_barcode_label (row_imei row) (row_model row) (row_color row) (row_dn row)
                         (Some (row_box_id row)) in
  saved out = omap (row_output output_dir) (enumerate_from 0 df) /\
  generated_files out = map fst (saved out) /\
  (valid_imei (row_imei row) = false ->
   In (Skipping_row index) (printed out) /\
   row_output output_dir (index, row) = None) /\
  (valid_imei (row_imei row) = true ->
   forall l, composed = Py.Returned l ->
     (image_saves path = true ->
      In (path, l) (saved out) /\ In path (generated_files out)) /\
     (image_saves path = false ->
      In (Error_generating index (Py.IOError path)) (printed out) /\
      row_output output_dir (index, row) = None)) /\
  (valid_imei (row_imei row) = true ->
   forall e, composed = Py.Raised e ->
     In (Error_generating index e) (printed out) /\
     row_output output_dir (index, row) = None) /\
  (valid_imei (row_imei row) = true ->
   code128_accepts (row_imei row) = true ->
   qr_accepts (row_imei row) = true ->
   (PyStr.falsy (row_box_id row) = false -> code128_accepts (row_box_id row) = true) ->
   captions_measurable (row_imei row) (Some (row_box_id row)) ->
   image_saves path = true ->
   exists l, composed = Py.Returned l /\
             In (path, l) (saved out) /\ In path (generated_files out)).
Proof.
  intros Hk out index path composed. subst out.
  rewrite generate_from_data_spec. cbn [saved generated_files printed].
  pose proof (enumerate_from_lookup df 0 k row Hk) as Hin. simpl in Hin. fold index in Hin.
  assert (forall m, row_message output_dir (index, row) = m ->
            In m (map (row_message output_dir) (enumerate_from 0 df)
                  ++ [Generated_total
                        (length (map fst (omap (row_output output_dir)
                                               (enumerate_from 0 df))))])) as Hprinted.
  { intros m <-. apply in_or_app. left. apply in_map_iff. exists (index, row).
    split; [reflexivity|exact Hin]. }
  assert (valid_imei (row_imei row) = true ->
          forall l, composed = Py.Returned l -> image_saves path = true ->
            In (path, l) (omap (row_output output_dir) (enumerate_from 0 df)) /\
            In path (map fst (omap (row_output output_dir) (enumerate_from 0 df))))
    as Hproduced.
  { intros Hvalid l Hl Hsave.
    assert (In (path, l) (omap (row_output output_dir) (enumerate_from 0 df))) as Hsaved.
    { apply list_elem_of_In, list_elem_of_omap. exists (index, row).
      split; [apply list_elem_of_In, Hin|].
      unfold row_output. fold composed path. rewrite Hvalid, Hl, Hsave. reflexivity. }
    split; [exact Hsaved|].
    apply in_map_iff. exists (path, l). split; [reflexivity|exact Hsaved]. }
  split; [reflexivity|]. split; [reflexivity|].
  split; [|split; [|split]].
  - intros Hinvalid. split.
    + apply Hprinted. unfold row_message. rewrite Hinvalid. reflexivity.
    + unfold row_output. rewrite Hinvalid. reflexivity.
  - intros Hvalid l Hl. split.
    + intros Hsave. apply Hproduced; assumption.
    + intros Hsave. split.
      * apply Hprinted. unfold row_message. fold composed path.
        rewrite Hvalid, Hl, Hsave. reflexivity.
      * unfold row_output. fold composed path. rewrite Hvalid, Hl, Hsave. reflexivity.
  - intros Hvalid e He. split.
    + apply Hprinted. unfold row_message. fold composed. rewrite Hvalid, He. reflexivity.
    + unfold row_output. fold composed. rewrite Hvalid, He. reflexivity.
  - intros Hvalid Hacc Hqr Hbox Hcaptions Hsave.
    destruct (create_barcode_label_returns (row_imei row) (row_model row) (row_color row)
                (row_dn row) (Some (row_box_id row)) Hacc Hqr) as [l Hl];
      [|exact Hcaptions|].
    { simpl. intros Htruthy. apply Hbox.
      destruct (PyStr.falsy (row_box_id row)); [discriminate|reflexivity]. }
    exists l. split; [exact Hl|]. apply Hproduced; assumption.
Qed.

Lemma generate_from_data_isolates_witness :
  let out := generate_from_data (H:=sample_imaging) "generated_barcodes" sample_batch in
  In "generated_barcodes/barcode_label_359827134443046_1.png" (generated_files out) /\
  In (Skipping_row 1) (printed out) /\
  row_output (H:=sample_imaging) "generated_barcodes" (1, sample_batch !!! 1%nat) = None.
Proof.
  destruct (generate_from_data_isolates (H:=sample_imaging) "generated_barcodes" sample_batch
              0 (sample_batch !!! 0%nat) eq_refl) as (_ & _ & _ & _ & _ & Hvalid).
  destruct (generate_from_data_isolates (H:=sample_imaging) "generated_barcodes" sample_batch
              1 (sample_batch !!! 1%nat) eq_refl) as (_ & _ & Hskipped & _).
  destruct Hvalid as (l & _ & _ & Hlisted);
    [reflexivity|reflexivity|reflexivity|intros _; reflexivity
    |apply sample_captions_measurable; reflexivity|reflexivity|].
  split; [exact Hlisted|]. apply Hskipped. vm_compute. reflexivity.
Defined.

(** C7 as stated fails on a valid record that cannot be saved: the IMEI
    "12/34" is present and is not the placeholder, the composer returns
    its label, and the file name barcode_label_12/34_1.png names a
    directory that does not exist; the save raises inside the [try], the
    error is printed and the record is not produced. *)
Lemma valid_record_not_produced :
  valid_imei (row_imei {[ "imei" := Text "12/34" ]}) = true /\
  generate_from_data (H:=sample_imaging) "generated_barcodes" [ {[ "imei" := Text "12/34" ]} ]
  = {| generated_files := [];
       saved := [];
       printed := [ Error_generating 0
                      (Py.IOError "generated_barcodes/barcode_label_12/34_1.png");
                    Generated_total 0 ] |}.
Proof. split; vm_compute; reflexivity. Qed.

Example generate_from_data_sample :
  generated_files (generate_from_data (H:=sample_imaging) "generated_barcodes" sample_batch)
  = [ "generated_barcodes/barcode_label_359827134443046_1.png";
      "generated_barcodes/barcode_label_359827134450389_3.png" ].
Proof. vm_compute. reflexivity. Qed.




(** ** The grid paginator *)

Section PageFacts.
Context `{Reportlab}.
Variables (grid_cols margin : Z) (page_height cell_width cell_height : float).
Variables (image_padding : Z) (image_width image_height : float).

Abbreviation drawn_here :=
  (drawn grid_cols margin page_height cell_width cell_height image_padding
         image_width image_height).

Lemma place_images_cons i path rest st :
  place_images grid_cols margin page_height cell_width cell_height image_padding
               image_width image_height i (path :: rest) st =
  place_images grid_cols margin page_height cell_width cell_height image_padding
               image_width image_height (i + 1) rest
    ({| finished_pages := finished_pages (fst st);
        current_page := current_page (fst st) ++ option_list (drawn_here (i, path)) |},
     snd st ++ List.filter unreadable [path]).
Proof.
  cbn [place_images]. unfold drawn, drawImage, unreadable.
  destruct (position grid_cols margin page_height cell_width cell_height image_padding i)
    as [x y].
  cbn [List.filter fst snd].
  destruct (image_readable path); simpl; rewrite ?app_nil_r; [reflexivity|].
  destruct st as [[fin cur] ws]; reflexivity.
Qed.

Lemma place_images_spec page_images :
  forall i st,
    place_images grid_cols margin page_height cell_width cell_height image_padding
                 image_width image_height i page_images st =
      ({| finished_pages := finished_pages (fst st);
          current_page := current_page (fst st)
                          ++ omap drawn_here (enumerate_from i page_images) |},
       snd st ++ List.filter unreadable page_images).
Proof.
  induction page_images as [|path rest IH]; intros i st.
  - simpl. rewrite !app_nil_r. destruct st as [[fin cur] ws]; reflexivity.
  - rewrite place_images_cons, IH. cbn [enumerate_from fst snd finished_pages current_page].
    rewrite omap_cons_option_list, <- !app_assoc.
    change (path :: rest) with ([path] ++ rest). rewrite List.filter_app.
    reflexivity.
Qed.

End PageFacts.

Section PageLoop.
Context `{Reportlab}.
Variables (grid_cols margin : Z) (page_height cell_width cell_height : float).
Variables (image_padding : Z) (image_width image_height : float).
Variables (barcode_files : list string) (images_per_page : Z).

Abbreviation page_here :=
  (page_of grid_cols margin page_height cell_width cell_height image_padding
           image_width image_height barcode_files images_per_page).
Abbreviation warnings_here := (warnings_of barcode_files images_per_page).

Let step := place_page grid_cols margin page_height cell_width cell_height image_padding
                       image_width image_height barcode_files images_per_page.

Lemma place_page_first ws :
  step (new_canvas, ws) 0 =
    ({| finished_pages := []; current_page := page_here 0 |}, ws ++ warnings_here 0).
Proof.
  unfold step, place_page. simpl (0 <? 0). cbv iota.
  rewrite place_images_spec. reflexivity.
Qed.

Lemma place_page_later st page_num :
  0 < page_num ->
  step st page_num =
    ({| finished_pages := finished_pages (fst st) ++ [current_page (fst st)];
        current_page := page_here page_num |},
     snd st ++ warnings_here page_num).
Proof.
  intros Hpos. unfold step, place_page.
  destruct (Z.ltb_spec 0 page_num) as [_|Hle]; [|lia].
  rewrite place_images_spec. reflexivity.
Qed.

Lemma fold_pages_later len :
  forall m st,
    0 < m ->
    let r := fold_left step (seqZ m (Z.of_nat len)) st in
    pages_drawn (fst r) = pages_drawn (fst st) ++ map page_here (seqZ m (Z.of_nat len)) /\
    snd r = snd st ++ concat (map warnings_here (seqZ m (Z.of_nat len))).
Proof.
  induction len as [|len IH]; intros m st Hm.
  - simpl. rewrite !app_nil_r. split; reflexivity.
  - rewrite seqZ_cons by lia.
    replace (Z.pred (Z.of_nat (S len))) with (Z.of_nat len) by lia.
    cbn [fold_left map concat].
    destruct (IH (Z.succ m) (step st m) ltac:(lia)) as [Hsave Hwarn].
    cbv zeta. rewrite Hsave, Hwarn, place_page_later by lia.
    unfold pages_drawn. cbn [fst snd finished_pages current_page].
    rewrite <- !app_assoc. split; reflexivity.
Qed.

Lemma fold_pages t :
  let r := fold_left step (seqZ 0 (Z.of_nat (S t))) (new_canvas, []) in
  pages_drawn (fst r) = map page_here (seqZ 0 (Z.of_nat (S t))) /\
  snd r = concat (map warnings_here (seqZ 0 (Z.of_nat (S t)))).
Proof.
  rewrite seqZ_cons by lia.
  replace (Z.pred (Z.of_nat (S t))) with (Z.of_nat t) by lia.
  cbn [fold_left map concat]. rewrite place_page_first.
  destruct (fold_pages_later t (Z.succ 0)
              ({| finished_pages := []; current_page := page_here 0 |}, [] ++ warnings_here 0)
              ltac:(lia)) as [Hsave Hwarn].
  cbv zeta. rewrite Hsave, Hwarn. split; reflexivity.
Qed.

End PageLoop.

(** *** Pages are consecutive chunks of the file list *)

Lemma slice_take_drop {A} (l : list A) (a len : nat) :
  Py.slice l (Z.of_nat a) (Z.min (Z.of_nat a + Z.of_nat len) (Z.of_nat (length l)))
  = take len (drop a l).
Proof.
  unfold Py.slice, Py.slice_bound.
  destruct (Z.ltb_spec (Z.of_nat a) 0) as [Hneg|_]; [lia|].
  destruct (Z.ltb_spec (Z.min (Z.of_nat a + Z.of_nat len) (Z.of_nat (length l))) 0)
    as [Hneg|_]; [lia|].
  destruct (Nat.le_gt_cases a (length l)) as [Hle|Hgt].
  - rewrite (Z.min_l (Z.of_nat a)) by lia. rewrite Nat2Z.id.
    destruct (Nat.le_gt_cases len (length l - a)) as [Hlen|Hlen].
    + f_equal. lia.
    + rewrite !take_ge; [reflexivity| |]; rewrite length_drop; lia.
  - rewrite (drop_ge l a) by lia. rewrite take_nil.
    rewrite (Z.min_r (Z.of_nat a)) by lia. rewrite Nat2Z.id.
    rewrite drop_ge by lia. apply take_nil.
Qed.

Lemma page_images_of_chunk (files : list string) (ipp p : nat) :
  page_images_of files (Z.of_nat ipp) (Z.of_nat p) = take ipp (drop (p * ipp) files).
Proof.
  unfold page_images_of.
  rewrite <- Nat2Z.inj_mul. apply slice_take_drop.
Qed.

Lemma seqZ_nat (t : nat) : seqZ 0 (Z.of_nat t) = map Z.of_nat (seq 0 t).
Proof.
  unfold seqZ. rewrite Nat2Z.id.
  apply map_ext. intros i. lia.
Qed.

Lemma chunks_concat {A} (l : list A) (ipp t : nat) :
  concat (map (fun p => take ipp (drop (p * ipp) l)) (seq 0 t)) = take (t * ipp) l.
Proof.
  induction t as [|t IH].
  - reflexivity.
  - rewrite seq_S, map_app, concat_app, IH. simpl.
    rewrite app_nil_r, take_take_drop. f_equal. lia.
Qed.

Lemma chunk_lookup {A} (l : list A) (ipp k : nat) (a : A) :
  (0 < ipp)%nat -> l !! k = Some a ->
  take ipp (drop (k / ipp * ipp) l) !! (k mod ipp)%nat = Some a.
Proof.
  intros Hipp Hk.
  rewrite lookup_take_lt by (apply Nat.mod_upper_bound; lia).
  rewrite lookup_drop. rewrite <- Hk. f_equal.
  rewrite (Nat.div_mod_eq k ipp) at 3. lia.
Qed.

Lemma omap_drawn_paths `{Reportlab} cols margin ph cw ch pad iw ih (chunk : list string) :
  forall i,
    map image_path (omap (drawn cols margin ph cw ch pad iw ih) (enumerate_from i chunk))
    = List.filter image_readable chunk.
Proof.
  induction chunk as [|path rest IH]; intros i; [reflexivity|].
  cbn [enumerate_from List.filter]. rewrite omap_cons_option_list, map_app, IH.
  unfold drawn. destruct (image_readable path); reflexivity.
Qed.

Lemma filter_concat {A} (f : A -> bool) (ls : list (list A)) :
  concat (map (List.filter f) ls) = List.filter f (concat ls).
Proof.
  induction ls as [|l ls IH]; [reflexivity|].
  simpl. rewrite List.filter_app, IH. reflexivity.
Qed.

(** *** What [save] writes *)

Lemma written_cons {A} (p q : list A) (rest : list (list A)) :
  written (p :: q :: rest) = p :: written (q :: rest).
Proof. reflexivity. Qed.

Lemma written_snoc {A} (l : list (list A)) (page : list A) :
  written (l ++ [page]) = l ++ match page with [] => [] | _ :: _ => [page] end.
Proof.
  induction l as [|p l IH]; [destruct page; reflexivity|].
  destruct l as [|q l].
  - destruct page; reflexivity.
  - change ((p :: q :: l) ++ [page]) with (p :: q :: (l ++ [page])).
    rewrite written_cons.
    change (q :: l ++ [page]) with ((q :: l) ++ [page]). rewrite IH. reflexivity.
Qed.

Lemma save_written `{Reportlab} (c : pdf_canvas) : save c = written (pages_drawn c).
Proof.
  unfold save, pages_drawn. rewrite written_snoc.
  destruct (current_page c); [rewrite app_nil_r|]; reflexivity.
Qed.

Lemma concat_written {A} (pages : list (list A)) : concat (written pages) = concat pages.
Proof.
  induction pages as [|p rest IH]; [reflexivity|].
  destruct rest as [|q rest].
  - destruct p; reflexivity.
  - rewrite written_cons. cbn [concat]. rewrite IH. reflexivity.
Qed.

Lemma written_sublist {A} (pages : list (list A)) (page : list A) :
  In page (written pages) -> In page pages.
Proof.
  induction pages as [|p rest IH]; [intros []|].
  destruct rest as [|q rest].
  - destruct p; [intros []|exact (fun H => H)].
  - rewrite written_cons. intros [<-|Hin]; [left; reflexivity|right; apply IH, Hin].
Qed.

Lemma written_lookup {A} (pages : list (list A)) (page : list A) :
  forall j, pages !! j = Some page -> page <> [] -> written pages !! j = Some page.
Proof.
  induction pages as [|p rest IH]; intros j Hj Hne; [discriminate|].
  destruct rest as [|q rest].
  - destruct j as [|j]; [|discriminate].
    injection Hj as ->. destruct page; [contradiction|reflexivity].
  - rewrite written_cons. destruct j as [|j]; [exact Hj|]. apply (IH j); assumption.
Qed.

Lemma filter_nil_existsb {A} (f : A -> bool) (l : list A) :
  List.filter f l = [] <-> existsb f l = false.
Proof.
  induction l as [|a l IH]; [split; reflexivity|].
  simpl. destruct (f a); simpl; [split; discriminate|exact IH].
Qed.

Section PaginatorFacts.
Context `{Reportlab}.

Lemma total_pages_bounds (n ipp : Z) :
  0 < n -> 0 < ipp ->
  let t := (n + ipp - 1) / ipp in
  1 <= t /\ (t - 1) * ipp < n <= t * ipp.
Proof.
  intros Hn Hipp t.
  pose proof (Z.mul_div_le (n + ipp - 1) ipp Hipp) as Hlo.
  pose proof (Z.mul_succ_div_gt (n + ipp - 1) ipp Hipp) as Hhi.
  fold t in Hlo, Hhi. nia.
Qed.

(** The document [create_pdf_from_barcodes] returns: one page per chunk
    of [grid_cols * grid_rows] files, as [save] writes them. *)
Lemma create_pdf_from_barcodes_spec files pdf_filename grid_cols grid_rows :
  files <> [] -> 0 < grid_cols -> 0 < grid_rows ->
  let ipp := grid_cols * grid_rows in
  let t := (Z.of_nat (length files) + ipp - 1) / ipp in
  create_pdf_from_barcodes files pdf_filename grid_cols grid_rows =
    Py.Returned (Some
      {| pdf_path := Py.path_join "generated_pdfs" pdf_filename;
         pdf_pages :=
           written
             (map (page_of grid_cols 20 (snd A4) (grid_cell_width grid_cols)
                           (grid_cell_height grid_rows) 5
                           (grid_cell_width grid_cols - 10)%float
                           (grid_cell_height grid_rows - 10)%float files ipp)
                  (seqZ 0 t));
         warnings := concat (map (warnings_of files ipp) (seqZ 0 t));
         total_pages := t |}).
Proof.
  intros Hne Hc Hr ipp t.
  unfold create_pdf_from_barcodes, grid_cell_width, grid_cell_height.
  destruct files as [|f files]; [contradiction|].
  destruct A4 as [pw ph]. unfold float_div_int.
  destruct (Z.eqb_spec grid_cols 0) as [?|_]; [lia|].
  destruct (Z.eqb_spec grid_rows 0) as [?|_]; [lia|].
  cbn [mbind result_bind Py.bind mret result_ret fst snd].
  fold ipp.
  destruct (Z.eqb_spec ipp 0) as [?|_]; [subst ipp; nia|].
  fold t.
  destruct (total_pages_bounds (Z.of_nat (length (f :: files))) ipp) as [Ht _];
    [simpl; lia|subst ipp; nia|].
  fold t in Ht.
  destruct (Z.to_nat t) as [|t'] eqn:Ht'; [lia|].
  replace t with (Z.of_nat (S t')) by lia.
  rewrite save_written.
  destruct (fold_pages grid_cols 20 ph ((pw - Py.float_of_int (2 * 20)) / Py.float_of_int grid_cols)%float
              ((ph - Py.float_of_int (2 * 20)) / Py.float_of_int grid_rows)%float 5
              ((pw - Py.float_of_int (2 * 20)) / Py.float_of_int grid_cols
               - Py.float_of_int (2 * 5))%float
              ((ph - Py.float_of_int (2 * 20)) / Py.float_of_int grid_rows
               - Py.float_of_int (2 * 5))%float
              (f :: files) ipp t') as [Hsave Hwarn].
  cbv zeta in Hsave, Hwarn. rewrite Hsave, Hwarn. reflexivity.
Qed.

End PaginatorFacts.

Section DocumentFacts.
Context `{Reportlab}.
Variables (files : list string) (grid_cols grid_rows : Z).
Hypothesis Hfiles : files <> [].
Hypothesis Hcols : 0 < grid_cols.
Hypothesis Hrows : 0 < grid_rows.

Let ipp := grid_cols * grid_rows.
Let t := (Z.of_nat (length files) + ipp - 1) / ipp.
Let pages :=
  map (page_of grid_cols 20 (snd A4) (grid_cell_width grid_cols)
               (grid_cell_height grid_rows) 5
               (grid_cell_width grid_cols - 10)%float
               (grid_cell_height grid_rows - 10)%float files ipp)
      (seqZ 0 t).

Lemma ipp_pos : 0 < ipp.
Proof. subst ipp. nia. Qed.

Lemma files_pos : 0 < Z.of_nat (length files).
Proof. destruct files; [contradiction|simpl; lia]. Qed.

Lemma pages_cover : (length files <= Z.to_nat t * Z.to_nat ipp)%nat.
Proof.
  destruct (total_pages_bounds _ _ files_pos ipp_pos) as (Ht & _ & Hhi).
  fold t in Ht, Hhi. pose proof ipp_pos. nia.
Qed.

Lemma pages_length : Z.of_nat (length pages) = t.
Proof.
  destruct (total_pages_bounds _ _ files_pos ipp_pos) as (Ht & _).
  fold t in Ht. subst pages. rewrite length_map, length_seqZ. lia.
Qed.

Lemma pages_as_chunks :
  forall f : list string -> list string,
    map (fun p => f (page_images_of files ipp p)) (seqZ 0 t)
    = map f (map (fun p => take (Z.to_nat ipp) (drop (p * Z.to_nat ipp) files))
                 (seq 0 (Z.to_nat t))).
Proof.
  intros f.
  destruct (total_pages_bounds _ _ files_pos ipp_pos) as (Ht & _). fold t in Ht.
  replace t with (Z.of_nat (Z.to_nat t)) at 1 by lia.
  rewrite seqZ_nat, !map_map. apply map_ext. intros p.
  replace ipp with (Z.of_nat (Z.to_nat ipp)) at 1 by (pose proof ipp_pos; lia).
  rewrite page_images_of_chunk. reflexivity.
Qed.

Lemma chunks_are_files :
  concat (map (fun p => take (Z.to_nat ipp) (drop (p * Z.to_nat ipp) files))
              (seq 0 (Z.to_nat t))) = files.
Proof. rewrite chunks_concat. apply take_ge, pages_cover. Qed.

(** The images of the pages drawn, page after page, are the readable
    files in input order. *)
Lemma pages_in_order :
  concat (map (map image_path) pages) = List.filter image_readable files.
Proof.
  subst pages. rewrite map_map. unfold page_of.
  erewrite map_ext by (intros p; apply omap_drawn_paths).
  rewrite (pages_as_chunks (List.filter image_readable)).
  rewrite filter_concat, chunks_are_files. reflexivity.
Qed.

(** The warnings are the unreadable files in input order. *)
Lemma warnings_in_order :
  concat (map (warnings_of files ipp) (seqZ 0 t)) = List.filter unreadable files.
Proof.
  unfold warnings_of.
  rewrite (pages_as_chunks (List.filter unreadable)).
  rewrite filter_concat, chunks_are_files. reflexivity.
Qed.

(** The file at index [k], when it can be read, is drawn on page
    [k / ipp] in the cell of index [k mod ipp]; the page is written. *)
Lemma file_cell (k : nat) (f : string) :
  files !! k = Some f -> image_readable f = true ->
  exists page,
    written pages !! Z.to_nat (Z.of_nat k / ipp) = Some page /\
    In (in_cell grid_cols grid_rows (Z.of_nat k mod ipp) f) page.
Proof.
  intros Hk Hread. pose proof ipp_pos as Hipp.
  assert (k < length files)%nat as Hlt by (apply lookup_lt_Some in Hk; exact Hk).
  pose proof pages_cover as Hcover.
  set (ippn := Z.to_nat ipp) in *.
  assert (Z.of_nat k / ipp = Z.of_nat (k / ippn)) as Hdiv
    by (rewrite Nat2Z.inj_div; subst ippn; f_equal; lia).
  assert (Z.of_nat k mod ipp = Z.of_nat (k mod ippn)) as Hmod
    by (rewrite Nat2Z.inj_mod; subst ippn; f_equal; lia).
  assert (k / ippn < Z.to_nat t)%nat as Hpage.
  { apply Nat.Div0.div_lt_upper_bound. lia. }
  assert (In (in_cell grid_cols grid_rows (Z.of_nat k mod ipp) f)
             (page_of grid_cols 20 (snd A4) (grid_cell_width grid_cols)
                      (grid_cell_height grid_rows) 5
                      (grid_cell_width grid_cols - 10)%float
                      (grid_cell_height grid_rows - 10)%float files ipp
                      (0 + Z.of_nat (k / ippn)))) as Hin.
  { unfold page_of. apply list_elem_of_In, list_elem_of_omap.
    exists (Z.of_nat k mod ipp, f). split.
    - apply list_elem_of_In. rewrite Hmod.
      change (Z.of_nat (k mod ippn)) with (0 + Z.of_nat (k mod ippn)).
      apply enumerate_from_lookup.
      replace ipp with (Z.of_nat ippn) by (subst ippn; lia).
      rewrite Z.add_0_l, page_images_of_chunk.
      apply chunk_lookup; [subst ippn; lia|exact Hk].
    - unfold drawn, in_cell, position. rewrite Hread. reflexivity. }
  eexists. split; [|exact Hin].
  apply written_lookup; [|intros Hnil; rewrite Hnil in Hin; destruct Hin].
  subst pages. rewrite list_lookup_fmap, Hdiv, Nat2Z.id.
  rewrite lookup_seqZ_lt by lia. reflexivity.
Qed.

(** The files of the last round of the page loop. *)
Definition last_page_files : list string := page_images_of files ipp (t - 1).

(** The document has one page per round of the loop, less the last when
    none of its files can be read. *)
Lemma written_pages_length :
  Z.of_nat (length (written pages))
  = if existsb image_readable last_page_files then t else t - 1.
Proof.
  destruct (total_pages_bounds _ _ files_pos ipp_pos) as (Ht & _). fold t in Ht.
  subst pages. unfold last_page_files.
  replace t with (Z.of_nat (S (Z.to_nat (t - 1)))) at 1 by lia.
  rewrite seqZ_nat, seq_S, !map_app. cbn [map Nat.add].
  rewrite written_snoc, length_app, !length_map, length_seq.
  replace (Z.of_nat (Z.to_nat (t - 1))) with (t - 1) by lia.
  destruct (existsb image_readable (page_images_of files ipp (t - 1))) eqn:Hlast.
  - destruct (page_of _ _ _ _ _ _ _ _ files ipp (t - 1)) as [|d page] eqn:Hpage.
    + apply (f_equal (map image_path)) in Hpage. unfold page_of in Hpage.
      rewrite omap_drawn_paths in Hpage. apply filter_nil_existsb in Hpage. congruence.
    + simpl. lia.
  - apply filter_nil_existsb in Hlast.
    unfold page_of.
    destruct (omap _ (enumerate_from 0 (page_images_of files ipp (t - 1))))
      as [|d page] eqn:Hpage; [simpl; lia|].
    apply (f_equal (map image_path)) in Hpage.
    rewrite omap_drawn_paths, Hlast in Hpage. discriminate.
Qed.

End DocumentFacts.

Lemma filter_all {A} (f : A -> bool) (l : list A) :
  Forall (fun a => f a = true) l -> List.filter f l = l.
Proof.
  induction 1 as [|a l Ha _ IH]; [reflexivity|].
  simpl. rewrite Ha, IH. reflexivity.
Qed.

Lemma page_length `{Reportlab} cols margin ph cw ch pad iw ih (files : list string)
    (ipp p : nat) :
  Forall (fun f => image_readable f = true) files ->
  length (page_of cols margin ph cw ch pad iw ih files (Z.of_nat ipp) (Z.of_nat p))
  = length (take ipp (drop (p * ipp) files)).
Proof.
  intros Hall. unfold page_of.
  rewrite <- (length_map image_path), omap_drawn_paths, page_images_of_chunk.
  rewrite filter_all; [reflexivity|].
  apply Forall_take, Forall_drop, Hall.
Qed.

Lemma existsb_all {A} (f : A -> bool) (l : list A) :
  l <> [] -> Forall (fun a => f a = true) l -> existsb f l = true.
Proof.
  intros Hne Hall. destruct Hall as [|a l Ha _]; [contradiction|].
  simpl. rewrite Ha. reflexivity.
Qed.

Lemma last_page_files_nonempty (files : list string) (grid_cols grid_rows : Z) :
  files <> [] -> 0 < grid_cols -> 0 < grid_rows ->
  last_page_files files grid_cols grid_rows <> [].
Proof.
  intros Hne Hc Hr. unfold last_page_files.
  set (ipp := grid_cols * grid_rows).
  assert (0 < ipp) as Hipp by (subst ipp; nia).
  assert (0 < Z.of_nat (length files)) as Hn by (destruct files; [contradiction|simpl; lia]).
  destruct (total_pages_bounds (Z.of_nat (length files)) ipp Hn Hipp) as (Ht & Hlo & Hhi).
  set (t := (Z.of_nat (length files) + ipp - 1) / ipp) in *.
  replace ipp with (Z.of_nat (Z.to_nat ipp)) at 1 by lia.
  replace (t - 1) with (Z.of_nat (Z.to_nat (t - 1))) by lia.
  rewrite page_images_of_chunk. intros Hnil.
  apply (f_equal length) in Hnil. rewrite length_take, length_drop in Hnil.
  simpl in Hnil. nia.
Qed.

(** The eighth image of a page of the 5 by 12 grid on A4: second row,
    third column, at (247.11023622047247, 693.2414698162731). *)
Example in_cell_sample :
  in_cell (H:=sample_reportlab []) 5 12 7 "barcode_label_8.png"
  = {| image_path := "barcode_label_8.png";
       at_x := 0x1.ee3870e1c3872p+7;
       at_y := 0x1.5a9ee87ba1eeap+9;
       box_width := 0x1.943870e1c3872p+6;
       box_height := 0x1.c697da5f697dcp+5 |}.
Proof. vm_compute. reflexivity. Qed.

(** C5. A non-empty sequence of n images paginated into a grid of c
    columns and r rows gives a document of exactly ceil(n / (c r)) pages
    (the number t with (t - 1) c r < n <= t c r) when the images can be
    read, and of t or t - 1 pages in any case; the images drawn appear
    page after page in input order; the image of index k is on page
    k / (c r), in the cell of index k mod (c r) of that page, that is in row
    (k mod (c r)) / c from the top and column (k mod (c r)) mod c from the
    left, so a new page begins after every c r placements; and 61 images
    in the 5 by 12 grid give two pages, of 60 images and of 1. *)
Theorem pagination_is_row_major `{Reportlab} (files : list string) (pdf_filename : string)
    (grid_cols grid_rows : Z) :
  files <> [] -> 0 < grid_cols -> 0 < grid_rows ->
  let n := Z.of_nat (length files) in
  let ipp := grid_cols * grid_rows in
  exists out,
    create_pdf_from_barcodes files pdf_filename grid_cols grid_rows
      = Py.Returned (Some out) /\
    (total_pages out - 1) * ipp < n <= total_pages out * ipp /\
    (Forall (fun f => image_readable f = true) files ->
     Z.of_nat (length (pdf_pages out)) = total_pages out) /\
    total_pages out - 1 <= Z.of_nat (length (pdf_pages out)) <= total_pages out /\
    concat (map (map image_path) (pdf_pages out)) = List.filter image_readable files /\
    (forall (k : nat) (f : string),
       files !! k = Some f -> image_readable f = true ->
       let i := Z.of_nat k mod ipp in
       exists page drawing,
         pdf_pages out !! Z.to_nat (Z.of_nat k / ipp) = Some page /\
         In drawing page /\
         image_path drawing = f /\
         at_x drawing
           = (20 + Py.float_of_int (i mod grid_cols) * grid_cell_width grid_cols + 5)%float /\
         at_y drawing
           = (snd A4 - 20 - Py.float_of_int (i / grid_cols + 1) * grid_cell_height grid_rows
              + 5)%float) /\
    (length files = 61%nat -> grid_cols = 5 -> grid_rows = 12 ->
     Forall (fun f => image_readable f = true) files ->
     map length (pdf_pages out) = [60%nat; 1%nat]).
Proof.
  intros Hne Hc Hr n ipp.
  eexists. split; [apply create_pdf_from_barcodes_spec; assumption|].
  cbn [pdf_pages total_pages]. fold ipp.
  pose proof (written_pages_length files grid_cols grid_rows Hne Hc Hr) as Hcount.
  cbv zeta in Hcount. fold ipp in Hcount.
  split.
  { assert (0 < n) as Hn by (eapply files_pos; eassumption).
    assert (0 < ipp) as Hipp by (apply ipp_pos; assumption).
    destruct (total_pages_bounds n ipp Hn Hipp) as (_ & Hb). exact Hb. }
  split.
  { intros Hall. rewrite Hcount, existsb_all; [reflexivity| |].
    - apply last_page_files_nonempty; assumption.
    - unfold last_page_files.
      apply List.Forall_forall. intros f Hf.
      rewrite List.Forall_forall in Hall. apply Hall.
      unfold page_images_of, Py.slice in Hf.
      apply list_elem_of_In in Hf. apply list_elem_of_In.
      eapply subseteq_drop, subseteq_take, Hf. }
  split.
  { rewrite Hcount. destruct (existsb image_readable _); lia. }
  split.
  { rewrite <- List.concat_map, concat_written, List.concat_map.
    apply pages_in_order; assumption. }
  split.
  { intros k f Hk Hread.
    destruct (file_cell files grid_cols grid_rows Hne Hc Hr k f Hk Hread)
      as (page & Hpage & Hin).
    exists page, (in_cell grid_cols grid_rows (Z.of_nat k mod ipp) f).
    repeat split; assumption. }
  intros Hlen -> -> Hall. subst ipp. rewrite Hlen.
  change ((Z.of_nat 61 + 5 * 12 - 1) / (5 * 12)) with 2.
  change (seqZ 0 2) with [0; 1]. cbn [map written].
  pose proof (page_length 5 20 (snd A4) (grid_cell_width 5) (grid_cell_height 12) 5
                (grid_cell_width 5 - 10)%float (grid_cell_height 12 - 10)%float
                files 60 0 Hall) as Hfirst.
  pose proof (page_length 5 20 (snd A4) (grid_cell_width 5) (grid_cell_height 12) 5
                (grid_cell_width 5 - 10)%float (grid_cell_height 12 - 10)%float
                files 60 1 Hall) as Hsecond.
  change (Z.of_nat 60) with (5 * 12) in Hfirst, Hsecond.
  change (Z.of_nat 0) with 0 in Hfirst. change (Z.of_nat 1) with 1 in Hsecond.
  rewrite !length_take, !length_drop, Hlen in Hfirst, Hsecond.
  destruct (page_of 5 20 (snd A4) (grid_cell_width 5) (grid_cell_height 12) 5
              (grid_cell_width 5 - 10)%float (grid_cell_height 12 - 10)%float
              files (5 * 12) 1) as [|d page]; [discriminate Hsecond|].
  cbn [map]. rewrite Hfirst, Hsecond. reflexivity.
Qed.

Lemma pagination_is_row_major_witness :
  exists out,
    create_pdf_from_barcodes (H:=sample_reportlab []) (sample_files 61)
                             "barcode_collection.pdf" 5 12 = Py.Returned (Some out) /\
    map length (pdf_pages out) = [60%nat; 1%nat].
Proof.
  destruct (pagination_is_row_major (H:=sample_reportlab []) (sample_files 61)
              "barcode_collection.pdf" 5 12)
    as (out & Hout & _ & _ & _ & _ & _ & Hpages); [discriminate|lia|lia|].
  exists out. split; [exact Hout|].
  apply Hpages; [reflexivity|reflexivity|reflexivity|].
  apply Forall_forall. intros f _. reflexivity.
Defined.



(** * Further properties of the program *)

(** ** The attribute extractor: shape of the result *)

Lemma falsy_upper s : PyStr.falsy (PyStr.upper s) = PyStr.falsy s.
Proof. destruct s; reflexivity. Qed.

Lemma last_two_head (l : list string) :
  (2 <= length l)%nat -> exists t rest, last_two l = t :: rest /\ In t l.
Proof.
  intros Hlen. rewrite <- slice_from_last_two by exact Hlen.
  unfold Py.slice_from, Py.slice_bound. simpl.
  rewrite Z.max_r by lia.
  destruct (drop (Z.to_nat (-2 + Z.of_nat (length l))) l) as [|t rest] eqn:Hdrop.
  - apply (f_equal length) in Hdrop. rewrite length_drop in Hdrop. simpl in Hdrop. lia.
  - exists t, rest. split; [reflexivity|].
    apply list_elem_of_In, (subseteq_drop (Z.to_nat (-2 + Z.of_nat (length l))) l).
    rewrite Hdrop. left.
Qed.

(** X1. On ASCII text the extractor never answers with an empty string,
    and it answers with the sentinel exactly when the description has
    fewer than two tokens, which the early returns of lines 28 and 34
    handle: with two tokens or more the answer is upper-case text other
    than the sentinel, so the sentinel alternative of line 50
    ([if color else ...]) is never taken. *)
Theorem extract_color_shape (product : string) :
  PyStr.isascii product = true ->
  PyStr.falsy (extract_color_from_product product) = false /\
  (extract_color_from_product product = Unknown_Color <->
   (length (PyStr.split product) < 2)%nat) /\
  ((2 <= length (PyStr.split product))%nat ->
   PyStr.upper (extract_color_from_product product) = extract_color_from_product product).
Proof.
  intros _.
  destruct (Nat.lt_ge_cases (length (PyStr.split product)) 2) as [Hlt|Hge].
  - rewrite extract_color_few_tokens by exact Hlt.
    split; [reflexivity|]. split; [tauto|lia].
  - rewrite (extract_color_of_parts product (guard_false product Hge) Hge).
    pose proof (split_from_nonempty product EmptyString) as Htok.
    fold (PyStr.split product) in Htok.
    assert (forall t rest, In t (PyStr.split product) ->
              PyStr.falsy (PyStr.upper (PyStr.join " " (t :: rest))) = false) as Hjoin.
    { intros t rest Hin. rewrite falsy_upper. apply join_nonempty.
      rewrite Forall_forall in Htok. apply Htok, list_elem_of_In, Hin. }
    destruct (last_two_head (PyStr.split product) Hge) as (t2 & rest2 & Hlast & Hin2).
    assert (forall s, PyStr.upper s = Unknown_Color <-> (length (PyStr.split product) < 2)%nat)
      as Hsentinel.
    { intros s. split; [intros Heq; destruct (upper_not_sentinel s Heq)|lia]. }
    destruct (after_first_specifier (PyStr.split product)) as [[|t following]|] eqn:Hspec.
    + rewrite Hlast.
      split; [apply Hjoin, Hin2|]. split; [apply Hsentinel|intros _; apply upper_idempotent].
    + split; [|split; [apply Hsentinel|intros _; apply upper_idempotent]].
      destruct (storage_scan_some _ 0 0 _ Hspec) as (k & _ & _ & Hdrop & _).
      apply Hjoin, list_elem_of_In, (subseteq_drop k). rewrite Hdrop. left.
    + rewrite Hlast.
      split; [apply Hjoin, Hin2|]. split; [apply Hsentinel|intros _; apply upper_idempotent].
Qed.

Lemma extract_color_shape_witness :
  (extract_color_from_product "SMART 8 64+3 SHINY GOLD" = Unknown_Color <->
   (length (PyStr.split "SMART 8 64+3 SHINY GOLD") < 2)%nat) /\
  (extract_color_from_product "SMART" = Unknown_Color <->
   (length (PyStr.split "SMART") < 2)%nat).
Proof.
  destruct (extract_color_shape "SMART 8 64+3 SHINY GOLD" eq_refl) as (_ & Hlong & _).
  destruct (extract_color_shape "SMART" eq_refl) as (_ & Hshort & _).
  split; [exact Hlong|exact Hshort].
Defined.

(** X2. The extractor reads its input through [split] only: two descriptions
    with the same tokens, however they are spaced, get the same colour. *)
Theorem extract_color_reads_tokens (product product' : string) :
  PyStr.split product = PyStr.split product' ->
  extract_color_from_product product = extract_color_from_product product'.
Proof.
  intros Hsame.
  destruct (Nat.lt_ge_cases (length (PyStr.split product)) 2) as [Hlt|Hge].
  - rewrite !extract_color_few_tokens; [reflexivity| |exact Hlt].
    rewrite <- Hsame. exact Hlt.
  - assert (forall s, (2 <= length (PyStr.split s))%nat ->
              PyStr.falsy s || String.eqb s "nan" = false) as Hguard.
    { intros s Hs. destruct (PyStr.falsy s || String.eqb s "nan") eqn:Hg; [|reflexivity].
      apply guard_few_tokens in Hg. lia. }
    rewrite (extract_color_of_parts product (Hguard _ Hge) Hge).
    rewrite Hsame in Hge.
    rewrite (extract_color_of_parts product' (Hguard _ Hge) Hge), Hsame.
    reflexivity.
Qed.

Lemma extract_color_reads_tokens_witness :
  extract_color_from_product "SMART 8 64+3 SHINY GOLD"
  = extract_color_from_product "  SMART   8 64+3 SHINY    GOLD ".
Proof.
  apply (extract_color_reads_tokens "SMART 8 64+3 SHINY GOLD"
           "  SMART   8 64+3 SHINY    GOLD ").
  vm_compute. reflexivity.
Defined.

(** ** The label composer: failures, fonts, pasted regions *)

(** The rectangles of the pasted images: left, top, width, height. *)
Definition pasted_boxes (l : label) : list (Z * Z * Z * Z) :=
  omap (fun op => match op with
                  | Paste (Code128Image _ w h) x y => Some (x, y, w, h)
                  | Paste (QRImage _ w h) x y => Some (x, y, w, h)
                  | _ => None
                  end) (label_ops l).

Definition inside_canvas (l : label) (box : Z * Z * Z * Z) : Prop :=
  let '(x, y, w, h) := box in
  0 <= x /\ 0 <= y /\ x + w <= fst (label_size l) /\ y + h <= snd (label_size l).

Definition apart (box box' : Z * Z * Z * Z) : Prop :=
  let '(x, y, w, h) := box in
  let '(x', y', w', h') := box' in
  x + w <= x' \/ x' + w' <= x \/ y + h <= y' \/ y' + h' <= y.

(** The fonts a label is written with. *)
Definition fonts_used (l : label) : list font :=
  omap (fun op => match op with
                  | DrawText _ _ _ f => Some f
                  | _ => None
                  end) (label_ops l).

Section ComposerMore.
Context `{Imaging}.

(** X3. For a record whose captions have a width, the composer fails
    exactly when an encoder refuses its data: it returns a label if and
    only if the linear and the matrix encoder accept the IMEI and the
    linear encoder accepts the box id, when there is one; and whatever it
    raises is the encoder's refusal of the IMEI or of the box id. The
    text-fit computation itself raises nothing then. *)
Theorem create_barcode_label_failures (imei model color dn : string)
    (box_id : option string) :
  captions_measurable imei box_id ->
  ((exists l, create_barcode_label imei model color dn box_id = Py.Returned l) <->
   code128_accepts imei = true /\ qr_accepts imei = true /\
   (truthy box_id = true -> code128_accepts (default "" box_id) = true)) /\
  (forall e,
     create_barcode_label imei model color dn box_id = Py.Raised e ->
     (e = Py.EncodingError imei /\
      (code128_accepts imei = false \/ qr_accepts imei = false)) \/
     (e = Py.EncodingError (default "" box_id) /\ truthy box_id = true /\
      code128_accepts (default "" box_id) = false)).
Proof.
  intros Hcaptions. split.
  - split.
    + intros [l Hret].
      apply create_barcode_label_returned in Hret
        as (cap & box_region & _ & _ & Hacc & Hqr & _ & Hbox & _).
      split; [exact Hacc|]. split; [exact Hqr|].
      intros Htruthy. rewrite Htruthy in Hbox.
      apply box_id_region_returned in Hbox as [Hbox _]. exact Hbox.
    + intros (Hacc & Hqr & Hbox). apply create_barcode_label_returns; assumption.
  - destruct Hcaptions as (Himei & Hcaption & Hbox_caption).
    intros e. unfold create_barcode_label.
    pose proof usual_medium_font as Hfm. pose proof usual_regular_font as Hfr.
    destruct load_bold_fonts as [[fl fm] fc]. cbn [fst snd] in Hfm.
    unfold generate_code128_barcode at 1.
    destruct (code128_accepts imei) eqn:Hacc; simpl.
    2:{ intros [= <-]. left. split; [reflexivity|left; reflexivity]. }
    destruct (fit_caption_returns "IMEI" imei fm load_regular_font load_regular_font 30
                Hfm Hfr Hfr Hcaption Himei) as [cap ->].
    simpl.
    destruct (truthy box_id) eqn:Htruthy.
    + unfold box_id_region, generate_code128_barcode.
      destruct (code128_accepts (default "" box_id)) eqn:Hbox; simpl.
      2:{ intros [= <-]. right. repeat split; reflexivity. }
      destruct (Hbox_caption eq_refl) as [Hb Hb_caption].
      destruct (fit_caption_returns "Box ID" (default "" box_id) fm load_regular_font fm 30
                  Hfm Hfr Hfm Hb_caption Hb) as [cap2 ->].
      simpl. unfold generate_qr_code. destruct (qr_accepts imei); simpl; [discriminate|].
      intros [= <-]. left. split; [reflexivity|right; reflexivity].
    + simpl. unfold generate_qr_code. destruct (qr_accepts imei); simpl; [discriminate|].
      intros [= <-]. left. split; [reflexivity|right; reflexivity].
Qed.

(** X4. Every image pasted on a label lies inside the canvas, and no two of
    them overlap: the two barcodes and the matrix code keep clear of one
    another whatever the record. *)
Theorem pasted_images_keep_apart (imei model color dn : string) (box_id : option string)
    (l : label) :
  create_barcode_label imei model color dn box_id = Py.Returned l ->
  Forall (inside_canvas l) (pasted_boxes l) /\
  ForallOrdPairs apart (pasted_boxes l).
Proof.
  intros Hret.
  assert (label_size l = (650, 300) /\
          pasted_boxes l =
            (30, 70, 460, 60) ::
            (if truthy box_id then [(30, 173, 460, 60)] else []) ++ [(500, 65, 150, 150)])
    as [Hsize Hboxes].
  { apply create_barcode_label_returned in Hret
      as (cap & box_region & Hsize & _ & _ & _ & _ & Hbox & Hops).
    split; [exact Hsize|]. unfold pasted_boxes. rewrite Hops.
    destruct (truthy box_id).
    - apply box_id_region_returned in Hbox as (_ & cap2 & dn_font & _ & ->). reflexivity.
    - subst box_region. reflexivity. }
  rewrite Hboxes.
  destruct (truthy box_id); simpl; split;
    repeat (constructor; try (unfold inside_canvas, apart; rewrite ?Hsize; simpl; lia)).
Qed.

(** X5. Without a box id, be it [None] or the empty string, the label has a
    single linear barcode and the D/N code is not used at all: the result
    is the same for every [dn]. *)
Theorem no_box_id_no_dn (imei model color dn dn' : string) (box_id : option string) :
  truthy box_id = false ->
  create_barcode_label imei model color dn box_id
    = create_barcode_label imei model color dn' None /\
  (forall l, create_barcode_label imei model color dn box_id = Py.Returned l ->
             linear_barcodes l = [(imei, (30, 70), (460, 60))] /\
             length (label_ops l) = 8%nat).
Proof.
  intros Hfalsy. split.
  - unfold create_barcode_label. rewrite Hfalsy. reflexivity.
  - intros l Hret. split.
    + rewrite (linear_barcodes_returned _ _ _ _ _ _ Hret), Hfalsy. reflexivity.
    + apply create_barcode_label_returned in Hret
        as (cap & box_region & _ & _ & _ & _ & _ & Hbox & ->).
      rewrite Hfalsy in Hbox. subst box_region. reflexivity.
Qed.

End ComposerMore.

Lemma create_barcode_label_failures_witness :
  exists e,
    create_barcode_label (H:=sample_imaging) sample_imei "X6525D" "TIMBER BLACK" "M8N7"
                         (Some sample_foreign_imei) = Py.Raised e /\
    e = Py.EncodingError sample_foreign_imei /\
    code128_accepts (Imaging:=sample_imaging) sample_foreign_imei = false.
Proof.
  eexists. split; [vm_compute; reflexivity|].
  destruct (create_barcode_label_failures (H:=sample_imaging) sample_imei "X6525D"
              "TIMBER BLACK" "M8N7" (Some sample_foreign_imei)) as [_ Hraised];
    [apply sample_captions_measurable; reflexivity|].
  destruct (Hraised _ eq_refl) as [[Himei _]|(Hbox & _ & Hrefused)].
  - vm_compute in Himei. discriminate Himei.
  - split; [exact Hbox|exact Hrefused].
Defined.

Lemma pasted_images_keep_apart_witness :
  exists l,
    create_barcode_label (H:=sample_imaging) sample_imei "X6525D" "TIMBER BLACK" "M8N7"
                         (Some sample_box_id) = Py.Returned l /\
    ForallOrdPairs apart (pasted_boxes l).
Proof.
  eexists. split; [vm_compute; reflexivity|].
  apply (pasted_images_keep_apart (H:=sample_imaging) sample_imei "X6525D" "TIMBER BLACK"
           "M8N7" (Some sample_box_id)).
  vm_compute. reflexivity.
Defined.

Lemma no_box_id_no_dn_witness :
  create_barcode_label (H:=sample_imaging) sample_imei "X6525D" "TIMBER BLACK" "M8N7" (Some "")
  = create_barcode_label (H:=sample_imaging) sample_imei "X6525D" "TIMBER BLACK" "K2" None.
Proof.
  apply (no_box_id_no_dn (H:=sample_imaging) sample_imei "X6525D" "TIMBER BLACK" "M8N7" "K2"
           (Some "")).
  reflexivity.
Defined.

Section FontFacts.
Context `{Imaging}.

(** The three bold fonts always come from one source: the three sizes of
    ARIALBD.TTF, else the three sizes of the system Arial Bold (with the
    large one at 40 instead of 35), else three times the built-in font. A
    file that loads at some sizes only is given up as a whole. *)
Lemma bold_fonts_same_source :
  load_bold_fonts
    = (TrueType "ARIALBD.TTF" 35, TrueType "ARIALBD.TTF" 20, TrueType "ARIALBD.TTF" 28) /\
    truetype_loads "ARIALBD.TTF" 35 && truetype_loads "ARIALBD.TTF" 20
      && truetype_loads "ARIALBD.TTF" 28 = true
  \/
  load_bold_fonts
    = (TrueType Arial_Bold_system 40, TrueType Arial_Bold_system 20,
       TrueType Arial_Bold_system 28) /\
    truetype_loads "ARIALBD.TTF" 35 && truetype_loads "ARIALBD.TTF" 20
      && truetype_loads "ARIALBD.TTF" 28 = false /\
    truetype_loads Arial_Bold_system 40 && truetype_loads Arial_Bold_system 20
      && truetype_loads Arial_Bold_system 28 = true
  \/
  load_bold_fonts = (DefaultFont, DefaultFont, DefaultFont) /\
    truetype_loads "ARIALBD.TTF" 35 && truetype_loads "ARIALBD.TTF" 20
      && truetype_loads "ARIALBD.TTF" 28 = false /\
    truetype_loads Arial_Bold_system 40 && truetype_loads Arial_Bold_system 20
      && truetype_loads Arial_Bold_system 28 = false.
Proof.
  unfold load_bold_fonts, truetype.
  destruct (truetype_loads "ARIALBD.TTF" 35), (truetype_loads "ARIALBD.TTF" 20),
    (truetype_loads "ARIALBD.TTF" 28); simpl; auto;
  destruct (truetype_loads Arial_Bold_system 40), (truetype_loads Arial_Bold_system 20),
    (truetype_loads Arial_Bold_system 28); simpl; auto.
Qed.

Hypothesis no_font_file : forall file size, truetype_loads file size = false.

Lemma truetype_none file size : truetype file size = None.
Proof. unfold truetype. rewrite no_font_file. reflexivity. Qed.

Lemma fit_caption_fontless caption_label number fm fr fu x_start bw cap :
  fit_caption caption_label number fm fr fu x_start bw = Py.Returned cap ->
  bold_font cap = fm /\ (number_font cap = fr \/ number_font cap = fu) /\
  stretched_number_font cap = number_font cap.
Proof.
  unfold fit_caption. intros Hret.
  apply bind_returned in Hret as (fonts & Hfonts & Hret).
  apply bind_returned in Hret as (stretched & Hstretched & Hret).
  injection Hret as <-. simpl.
  assert (fonts = (fm, fr) \/ fonts = (fm, fu)) as Hcase.
  { destruct (_ <? bw) in Hfonts.
    - apply bind_returned in Hfonts as (x & _ & Hfonts).
      rewrite !truetype_none in Hfonts. injection Hfonts as <-. left. reflexivity.
    - injection Hfonts as <-. right. reflexivity. }
  assert (stretched = snd fonts) as ->.
  { destruct (_ <? _) in Hstretched.
    - apply bind_returned in Hstretched as (x & _ & Hstretched).
      rewrite !truetype_none in Hstretched. injection Hstretched as <-. reflexivity.
    - injection Hstretched as <-. reflexivity. }
  destruct Hcase as [-> | ->]; simpl; auto.
Qed.

(** X6. On a machine with none of the font files every label the composer
    returns is written entirely in the built-in font: no caption is
    scaled, whatever its width. *)
Theorem fontless_label_uses_default_font (imei model color dn : string)
    (box_id : option string) (l : label) :
  create_barcode_label imei model color dn box_id = Py.Returned l ->
  Forall (fun f => f = DefaultFont) (fonts_used l).
Proof.
  intros Hret.
  apply create_barcode_label_returned in Hret
    as (cap & box_region & _ & _ & _ & _ & Hcap & Hbox & Hops).
  assert (load_bold_fonts = (DefaultFont, DefaultFont, DefaultFont)) as Hbold
    by (unfold load_bold_fonts; rewrite !truetype_none; reflexivity).
  assert (load_regular_font = DefaultFont) as Hreg
    by (unfold load_regular_font; rewrite !truetype_none; reflexivity).
  rewrite Hbold, Hreg in *. simpl fst in *; simpl snd in *.
  apply fit_caption_fontless in Hcap as (Hb & Hn & Hs).
  assert (stretched_number_font cap = DefaultFont) as Hs'
    by (rewrite Hs; destruct Hn as [-> | ->]; reflexivity).
  assert (Forall (fun f => f = DefaultFont)
            (omap (fun op => match op with DrawText _ _ _ f => Some f | _ => None end)
                  box_region)) as Hregion.
  { destruct (truthy box_id); [|subst box_region; constructor].
    unfold box_id_region in Hbox.
    apply bind_returned in Hbox as (img & _ & Hbox).
    apply bind_returned in Hbox as (cap2 & Hcap2 & Hbox).
    rewrite !truetype_none in Hbox. injection Hbox as <-.
    apply fit_caption_fontless in Hcap2 as (Hb2 & Hn2 & Hs2).
    assert (stretched_number_font cap2 = DefaultFont) as Hs2'
      by (rewrite Hs2; destruct Hn2 as [-> | ->]; reflexivity).
    simpl. rewrite Hb2, Hs2'. repeat constructor. }
  unfold fonts_used. rewrite Hops, !omap_app. simpl. rewrite Hb, Hs'.
  repeat (apply Forall_cons; split; [reflexivity|]).
  apply Forall_app. split; [exact Hregion|]. repeat constructor.
Qed.

End FontFacts.

Lemma fontless_label_uses_default_font_witness :
  exists l,
    create_barcode_label (H:=fontless_imaging) sample_imei "X6525D" "TIMBER BLACK" "M8N7"
                         (Some sample_box_id) = Py.Returned l /\
    Forall (fun f => f = DefaultFont) (fonts_used l).
Proof.
  eexists. split; [vm_compute; reflexivity|].
  apply (fontless_label_uses_default_font (H:=fontless_imaging) (fun _ _ => eq_refl)
           sample_imei "X6525D" "TIMBER BLACK" "M8N7" (Some sample_box_id)).
  vm_compute. reflexivity.
Defined.

(** ** The text-fit computation: what the scaling does to the sizes *)

(** X7. The caption is measured with the base bold font (20 points when it is
    a TrueType font) but the scale is applied to 16. For a caption [w]
    pixels wide, [0 < w < 460], the size asked for is [7360 / w] rounded
    down, whichever font file then loads at that size (ARIALBD.TTF with
    arial.ttf, else the system Arial Bold with the system Arial, else the
    base font is kept). That size is never below 16; it is below 20 for a
    caption of 369 to 459 pixels, which fits the barcode already and is
    redrawn smaller, and 20 or more only for a caption of at most 368
    pixels. *)
Theorem caption_scaling_can_shrink `{Imaging} (caption_label number : string)
    (font_medium font_regular unscaled_number_font : font) (x_start : Z) (cap : caption) :
  fit_caption caption_label number font_medium font_regular unscaled_number_font
              x_start 460 = Py.Returned cap ->
  let w := textbbox_width font_medium (caption_label +:+ " " +:+ number) in
  let size := 7360 / w in
  0 < w < 460 ->
  bold_font cap =
    (if truetype_loads "ARIALBD.TTF" size && truetype_loads "arial.ttf" size
     then TrueType "ARIALBD.TTF" size
     else if truetype_loads Arial_Bold_system size && truetype_loads Arial_system size
     then TrueType Arial_Bold_system size
     else font_medium) /\
  16 <= size /\
  (368 < w -> size < 20) /\
  (w <= 368 -> 20 <= size).
Proof.
  intros Hret w size Hw.
  destruct (fit_caption_returned _ _ _ _ _ _ _ Hret) as (Hfonts & _).
  cbv zeta in Hfonts. fold w in Hfonts.
  destruct (Z.ltb_spec w 460) as [_|Hge]; [|lia].
  rewrite scaled_font_size_16 in Hfonts by exact Hw. fold size in Hfonts.
  split.
  { apply (f_equal fst) in Hfonts. cbn [fst] in Hfonts. rewrite Hfonts.
    destruct (truetype_loads "ARIALBD.TTF" size && truetype_loads "arial.ttf" size);
      [reflexivity|].
    destruct (truetype_loads Arial_Bold_system size && truetype_loads Arial_system size);
      reflexivity. }
  split; [apply Z.div_le_lower_bound; lia|].
  split; intros Hcmp.
  - apply Z.div_lt_upper_bound; lia.
  - apply Z.div_le_lower_bound; lia.
Qed.

Lemma caption_scaling_can_shrink_witness :
  exists cap,
    fit_caption (H:=sample_imaging) "Box ID" "355760833587361-AB" (TrueType "ARIALBD.TTF" 20)
                (TrueType Arial_system 18) (TrueType "ARIALBD.TTF" 20) 30 460
      = Py.Returned cap /\
    bold_font cap = TrueType "ARIALBD.TTF" 19.
Proof.
  eexists. split; [vm_compute; reflexivity|].
  destruct (caption_scaling_can_shrink (H:=sample_imaging) "Box ID" "355760833587361-AB"
              (TrueType "ARIALBD.TTF" 20) (TrueType Arial_system 18)
              (TrueType "ARIALBD.TTF" 20) 30 _ eq_refl)
    as (Hfont & _); [vm_compute; split; reflexivity|].
  exact Hfont.
Defined.

(** [1 .. n] *)
Definition one_to (n : nat) : list Z := map Z.of_nat (seq 1 n).

(** X8. The size asked for the value, [int(25 * (a / n))] in binary64
    arithmetic, for a value [n] pixels wide in [a] available pixels
    ([0 < n < a <= 455]): it is the exact quotient [25 a / n] rounded down,
    or one less when the float product falls just short of an integer, and
    it is never below the base size 25. *)
Theorem value_font_size_bounds (available_width number_width : Z) :
  0 < number_width < available_width -> available_width <= 455 ->
  let size := scaled_font_size 25 available_width number_width in
  25 <= size /\
  25 * available_width / number_width - 1 <= size <= 25 * available_width / number_width.
Proof.
  intros Hn Ha.
  assert (forallb (fun a =>
            forallb (fun n =>
              let size := scaled_font_size 25 a n in
              negb (n <? a) ||
              ((25 <=? size) && (25 * a / n - 1 <=? size) && (size <=? 25 * a / n)))
              (one_to 455))
            (one_to 455) = true) as Hall by (vm_compute; reflexivity).
  assert (forall z, 0 < z <= 455 -> In z (one_to 455)) as Hin.
  { intros z Hz. unfold one_to. apply in_map_iff. exists (Z.to_nat z).
    split; [lia|]. apply in_seq. lia. }
  rewrite forallb_forall in Hall.
  specialize (Hall available_width (Hin available_width ltac:(lia))).
  rewrite forallb_forall in Hall.
  specialize (Hall number_width (Hin number_width ltac:(lia))).
  cbv zeta in Hall |- *.
  destruct (Z.ltb_spec number_width available_width) as [_|Hge]; [|lia].
  simpl in Hall. apply andb_true_iff in Hall as [Hall Hhi].
  apply andb_true_iff in Hall as [Hlo Hmid].
  lia.
Qed.

Lemma value_font_size_bounds_witness :
  25 <= scaled_font_size 25 23 5 /\
  25 * 23 / 5 - 1 <= scaled_font_size 25 23 5 <= 25 * 23 / 5.
Proof. apply (value_font_size_bounds 23 5); lia. Defined.

(** ** The batch driver: accounting and file names *)

Definition is_generated (m : message) : bool :=
  match m with Generated _ => true | _ => false end.

Definition is_skipping (m : message) : bool :=
  match m with Skipping_row _ => true | _ => false end.

Definition is_error (m : message) : bool :=
  match m with Error_generating _ _ => true | _ => false end.

Section Accounting.
Context `{Imaging}.
Variable output_dir : string.

Lemma row_accounting (rows : list (Z * gmap string cell)) :
  let messages := map (row_message output_dir) rows in
  length (List.filter is_generated messages) = length (omap (row_output output_dir) rows) /\
  (length (List.filter is_generated messages) + length (List.filter is_skipping messages)
   + length (List.filter is_error messages) = length rows)%nat.
Proof.
  induction rows as [|[index row] rows [IHg IHsum]]; [split; reflexivity|].
  cbn [map]. rewrite omap_cons_option_list.
  unfold row_message at 1 3 5 7, row_output at 1.
  destruct (valid_imei (row_imei row)); simpl.
  - destruct (create_barcode_label _ _ _ _ _); simpl; [|split; lia].
    destruct (image_saves _); simpl; split; lia.
  - split; lia.
Qed.

(** X9. The driver prints one line per row and a total after them; each row
    is counted once, as generated, skipped or failed; and the total it
    reports is the number of files it returns. *)
Theorem batch_accounting (df : list (gmap string cell)) :
  let out := generate_from_data output_dir df in
  length (printed out) = S (length df) /\
  last (printed out) = Some (Generated_total (length (generated_files out))) /\
  length (List.filter is_generated (printed out)) = length (generated_files out) /\
  (length (List.filter is_generated (printed out))
   + length (List.filter is_skipping (printed out))
   + length (List.filter is_error (printed out)) = length df)%nat.
Proof.
  intros out. subst out. rewrite generate_from_data_spec.
  cbn [printed generated_files saved].
  assert (forall (A : Type) (l : list A) start, length (enumerate_from start l) = length l)
    as Hlen by (intros A l; induction l; intros; simpl; auto).
  destruct (row_accounting (enumerate_from 0 df)) as [Hg Hsum].
  cbv zeta in Hg, Hsum. rewrite Hlen in Hsum.
  rewrite !List.filter_app, !length_app, !length_map, Hlen, last_snoc.
  simpl. repeat split; lia.
Qed.

End Accounting.

(** *** File names *)

Lemma append_cons x (a b : string) : String x a +:+ b = String x (a +:+ b).
Proof. reflexivity. Qed.

Lemma append_nil (b : string) : EmptyString +:+ b = b.
Proof. reflexivity. Qed.

Lemma append_assoc (a b c : string) : (a +:+ b) +:+ c = a +:+ (b +:+ c).
Proof.
  induction a as [|x a IH]; [reflexivity|].
  rewrite !append_cons, IH. reflexivity.
Qed.

Lemma append_inv_head (p a b : string) : p +:+ a = p +:+ b -> a = b.
Proof.
  induction p as [|x p IH]; [trivial|].
  rewrite !append_cons. intros [= Heq]. apply IH, Heq.
Qed.

Lemma length_append (a b : string) :
  String.length (a +:+ b) = (String.length a + String.length b)%nat.
Proof.
  induction a as [|x a IH]; [reflexivity|].
  rewrite append_cons. simpl. rewrite IH. reflexivity.
Qed.

Lemma append_inv_tail (a b u : string) : a +:+ u = b +:+ u -> a = b.
Proof.
  revert b. induction a as [|x a IH]; intros [|y b] Heq;
    rewrite ?append_cons, ?append_nil in Heq.
  - reflexivity.
  - apply (f_equal String.length) in Heq. simpl in Heq. rewrite length_append in Heq. lia.
  - apply (f_equal String.length) in Heq. simpl in Heq. rewrite length_append in Heq. lia.
  - injection Heq as -> Heq. f_equal. apply IH, Heq.
Qed.

Lemma contains_append ch (a b : string) :
  PyStr.contains ch (a +:+ b) = PyStr.contains ch a || PyStr.contains ch b.
Proof.
  unfold PyStr.contains. induction a as [|x a IH]; [reflexivity|].
  rewrite append_cons. simpl. rewrite IH, orb_assoc. reflexivity.
Qed.

(** Two strings that are equal have the same text after their last
    underscore. *)
Lemma after_last_underscore (a b s t : string) :
  PyStr.contains "_" s = false -> PyStr.contains "_" t = false ->
  a +:+ String "_" s = b +:+ String "_" t -> s = t.
Proof.
  intros Hs Ht. revert b. induction a as [|x a IH]; intros [|y b] Heq;
    rewrite ?append_cons, ?append_nil in Heq.
  - injection Heq as ->. reflexivity.
  - injection Heq as <- ->.
    rewrite contains_append in Hs. simpl in Hs. rewrite orb_true_r in Hs. discriminate.
  - injection Heq as -> <-.
    rewrite contains_append in Ht. simpl in Ht. rewrite orb_true_r in Ht. discriminate.
  - injection Heq as _ Heq. apply (IH b), Heq.
Qed.

Lemma digits_no_underscore d : PyStr.contains "_" (NilEmpty.string_of_uint d) = false.
Proof. induction d; simpl; auto. Qed.

Lemma str_int_no_underscore z : PyStr.contains "_" (Py.str_int z) = false.
Proof.
  unfold Py.str_int, NilZero.string_of_int, NilZero.string_of_uint.
  destruct (Z.to_int z) as [d|d]; destruct d; try reflexivity;
    try apply digits_no_underscore;
    change (PyStr.contains "_" (String "-" ?s)) with (PyStr.contains "_" s);
    apply digits_no_underscore.
Qed.

Lemma str_int_inj a b : Py.str_int a = Py.str_int b -> a = b.
Proof.
  unfold Py.str_int. intros Heq.
  assert (forall z, NilZero.int_of_string (NilZero.string_of_int (Z.to_int z))
                    = Some (Z.to_int z)) as Hisi.
  { intros z. apply NilZero.isi; destruct z; simpl; try discriminate;
      intros [= Hnil]; apply (DecimalPos.Unsigned.to_uint_nonnil _ Hnil). }
  apply (f_equal NilZero.int_of_string) in Heq. rewrite !Hisi in Heq.
  injection Heq as Heq. apply DecimalZ.to_int_inj, Heq.
Qed.

Lemma path_join_relative (a b : string) (c : ascii) :
  c <> "/"%char ->
  Py.path_join a (String c b)
  = match String.length a with
    | O => String c b
    | S n => if String.eqb (String.substring n 1 a) "/" then a +:+ String c b
             else a +:+ "/" +:+ String c b
    end.
Proof.
  intros Hc. unfold Py.path_join.
  destruct c as [[] [] [] [] [] [] [] []]; try reflexivity. contradiction.
Qed.

Lemma path_join_prefix (a : string) :
  exists p, forall c b, c <> "/"%char -> Py.path_join a (String c b) = p +:+ String c b.
Proof.
  destruct (String.length a) as [|n] eqn:Hlen.
  - exists EmptyString. intros c b Hc. rewrite path_join_relative, Hlen by exact Hc.
    reflexivity.
  - destruct (String.eqb (String.substring n 1 a) "/") eqn:Hslash.
    + exists a. intros c b Hc. rewrite path_join_relative, Hlen, Hslash by exact Hc.
      reflexivity.
    + exists (a +:+ "/"). intros c b Hc.
      rewrite path_join_relative, Hlen, Hslash by exact Hc.
      rewrite append_assoc. reflexivity.
Qed.

(** The path a label is saved under tells the index of its row. *)
Lemma label_path_index (output_dir imei imei' : string) (index index' : Z) :
  label_path output_dir imei index = label_path output_dir imei' index' ->
  index = index'.
Proof.
  unfold label_path. destruct (path_join_prefix output_dir) as [p Hp].
  change ("barcode_label_" +:+ ?x) with (String "b" ("arcode_label_" +:+ x)).
  rewrite !Hp by discriminate. intros Heq. apply append_inv_head in Heq.
  apply (append_inv_head "barcode_label_") in Heq.
  change ("_" +:+ ?s) with (String "_" s) in Heq.
  apply after_last_underscore in Heq.
  - apply append_inv_tail, str_int_inj in Heq. lia.
  - rewrite contains_append, str_int_no_underscore. reflexivity.
  - rewrite contains_append, str_int_no_underscore. reflexivity.
Qed.

Section FileNames.
Context `{Imaging}.
Variable output_dir : string.

Lemma row_output_path index row path l :
  row_output output_dir (index, row) = Some (path, l) ->
  path = label_path output_dir (row_imei row) index.
Proof.
  unfold row_output. destruct (valid_imei _); [|discriminate].
  destruct (create_barcode_label _ _ _ _ _); [|discriminate].
  destruct (image_saves _); [|discriminate].
  intros [= <- _]. reflexivity.
Qed.

Lemma row_outputs_distinct (rows : list (gmap string cell)) :
  forall start,
    NoDup (map fst (omap (row_output output_dir) (enumerate_from start rows))).
Proof.
  induction rows as [|row rest IH]; intros start; [constructor|].
  cbn [enumerate_from]. rewrite omap_cons_option_list, map_app.
  destruct (row_output output_dir (start, row)) as [[path l]|] eqn:Hout; [|apply IH].
  simpl. constructor; [|apply IH].
  intros Hin. apply list_elem_of_In, in_map_iff in Hin as ([path' l'] & Hpath & Hin).
  simpl in Hpath. subst path'.
  apply list_elem_of_In, list_elem_of_omap in Hin as ([index' row'] & Hin & Hout').
  apply list_elem_of_In, enumerate_from_index in Hin as (k & -> & _).
  apply row_output_path in Hout, Hout'. rewrite Hout in Hout'.
  apply label_path_index in Hout'. lia.
Qed.

(** X10. No two rows of a batch are saved under the same path: the files the
    driver returns are pairwise distinct, so within one run no label
    overwrites another, even when two rows carry the same IMEI. *)
Theorem generated_files_distinct (df : list (gmap string cell)) :
  NoDup (generated_files (generate_from_data output_dir df)).
Proof.
  rewrite generate_from_data_spec. cbn [generated_files]. apply row_outputs_distinct.
Qed.

End FileNames.

Lemma get_absent (row : gmap string cell) key dflt :
  row !! key = None -> get row key dflt = dflt.
Proof. unfold get. intros ->. reflexivity. Qed.

(** X11. A row of a data frame without any of the box id columns (box_id,
    Box ID, Boxid) gets the empty box id, and every label composed for it
    carries the IMEI barcode alone. When its IMEI is valid, the encoders
    accept it and its caption has a width, a label is composed; it is
    saved under the row's path when the file can be written, and when it
    cannot the row is reported as an error and nothing is recorded. *)
Theorem missing_box_id_column `{Imaging} (output_dir : string) (st : batch)
    (index : Z) (row : gmap string cell) :
  row !! "box_id" = None -> row !! "Box ID" = None -> row !! "Boxid" = None ->
  let path := label_path output_dir (row_imei row) index in
  let composed :=
    create_barcode_label (row_imei row) (row_model row) (row_color row) (row_dn row)
                         (Some (row_box_id row)) in
  row_box_id row = "" /\
  (forall l, composed = Py.Returned l ->
             linear_barcodes l = [(row_imei row, (30, 70), (460, 60))]) /\
  (valid_imei (row_imei row) = true ->
   code128_accepts (row_imei row) = true ->
   qr_accepts (row_imei row) = true ->
   measurable (row_imei row) ->
   measurable ("IMEI" +:+ " " +:+ row_imei row) ->
   exists l,
     composed = Py.Returned l /\
     (image_saves path = true ->
      saved (generate_row output_dir st index row) = saved st ++ [(path, l)] /\
      generated_files (generate_row output_dir st index row)
        = generated_files st ++ [path]) /\
     (image_saves path = false ->
      saved (generate_row output_dir st index row) = saved st /\
      generated_files (generate_row output_dir st index row) = generated_files st /\
      printed (generate_row output_dir st index row)
        = printed st ++ [Error_generating index (Py.IOError path)])).
Proof.
  intros H1 H2 H3 path composed.
  assert (row_box_id row = "") as Hempty
    by (unfold row_box_id; rewrite !get_absent by assumption; reflexivity).
  split; [exact Hempty|]. split.
  { intros l Hl. subst composed. rewrite Hempty in Hl.
    rewrite (linear_barcodes_returned _ _ _ _ _ _ Hl). reflexivity. }
  intros Hvalid Hacc Hqr Himei Hcaption.
  destruct (create_barcode_label_returns (row_imei row) (row_model row) (row_color row)
              (row_dn row) (Some "") Hacc Hqr) as [l Hl].
  { discriminate. }
  { split; [exact Himei|]. split; [exact Hcaption|]. discriminate. }
  exists l. subst composed path. rewrite Hempty. split; [exact Hl|].
  rewrite generate_row_spec. cbn [saved generated_files printed].
  unfold row_output, row_message. rewrite Hvalid, Hempty, Hl.
  split; intros Hsave; rewrite Hsave; cbn [option_list map fst];
    rewrite ?app_nil_r; repeat split; reflexivity.
Qed.

Lemma missing_box_id_column_witness :
  exists l,
    saved (generate_row (H:=sample_imaging) "generated_barcodes"
             {| generated_files := []; saved := []; printed := [] |} 0
             {[ "IMEI/SN" := Text "359827134443046"; "Model" := Text "X6525D" ]})
      = [("generated_barcodes/barcode_label_359827134443046_1.png", l)] /\
    linear_barcodes l = [("359827134443046", (30, 70), (460, 60))].
Proof.
  destruct (missing_box_id_column (H:=sample_imaging) "generated_barcodes"
              {| generated_files := []; saved := []; printed := [] |} 0
              {[ "IMEI/SN" := Text "359827134443046"; "Model" := Text "X6525D" ]})
    as (_ & Hbars & Hsaved); [reflexivity|reflexivity|reflexivity|].
  destruct Hsaved as (l & Hl & Hwritten & _);
    [reflexivity|reflexivity|reflexivity
    |apply sample_measurable; reflexivity|apply sample_measurable; reflexivity|].
  exists l. split; [exact (proj1 (Hwritten eq_refl))|exact (Hbars l Hl)].
Defined.

(** ** The grid paginator: capacity and geometry *)

Lemma filter_negb_length {A} (f : A -> bool) (l : list A) :
  (length (List.filter f l) + length (List.filter (fun a => negb (f a)) l) = length l)%nat.
Proof.
  induction l as [|a l IH]; [reflexivity|].
  simpl. destruct (f a); simpl; lia.
Qed.

Lemma filter_negb_In {A} (f : A -> bool) (l : list A) (a : A) :
  In a l <-> In a (List.filter f l) \/ In a (List.filter (fun a => negb (f a)) l).
Proof.
  rewrite !List.filter_In. destruct (f a); simpl; intuition congruence.
Qed.

Lemma page_images_of_length (files : list string) (ipp p : Z) :
  0 < ipp -> 0 <= p -> Z.of_nat (length (page_images_of files ipp p)) <= ipp.
Proof.
  intros Hipp Hp.
  rewrite <- (Z2Nat.id ipp) at 1 by lia. rewrite <- (Z2Nat.id p) by lia.
  rewrite page_images_of_chunk, length_take. lia.
Qed.

Section GridFacts.
Context `{Reportlab}.
Variables (files : list string) (grid_cols grid_rows : Z).

Let page :=
  page_of grid_cols 20 (snd A4) (grid_cell_width grid_cols) (grid_cell_height grid_rows) 5
          (grid_cell_width grid_cols - 10)%float (grid_cell_height grid_rows - 10)%float
          files (grid_cols * grid_rows).

Lemma page_capacity_of (p : Z) :
  0 < grid_cols * grid_rows -> 0 <= p ->
  Z.of_nat (length (page p)) <= grid_cols * grid_rows.
Proof.
  intros Hipp Hp. subst page. cbv beta. unfold page_of.
  rewrite <- (length_map image_path), omap_drawn_paths.
  pose proof (List.filter_length_le image_readable
                (page_images_of files (grid_cols * grid_rows) p)) as Hle.
  pose proof (page_images_of_length files _ p Hipp Hp). lia.
Qed.

End GridFacts.

(** X13. Every page of the document holds at most [grid_cols * grid_rows]
    images, and every file of the list is accounted for exactly once:
    the images drawn and the warnings together are as many as the files,
    each file is drawn or named in a warning, and none is both. *)
Theorem every_file_drawn_or_warned `{Reportlab} (files : list string) (pdf_filename : string)
    (grid_cols grid_rows : Z) :
  files <> [] -> 0 < grid_cols -> 0 < grid_rows ->
  exists out,
    create_pdf_from_barcodes files pdf_filename grid_cols grid_rows
      = Py.Returned (Some out) /\
    Forall (fun page => Z.of_nat (length page) <= grid_cols * grid_rows) (pdf_pages out) /\
    (length (concat (pdf_pages out)) + length (warnings out) = length files)%nat /\
    (forall f, In f files <->
               In f (map image_path (concat (pdf_pages out))) \/ In f (warnings out)) /\
    (forall f, In f (map image_path (concat (pdf_pages out))) -> ~ In f (warnings out)).
Proof.
  intros Hne Hc Hr.
  eexists. split; [apply create_pdf_from_barcodes_spec; assumption|].
  cbn [pdf_pages warnings].
  pose proof (pages_in_order files grid_cols grid_rows Hne Hc Hr) as Hpages.
  pose proof (warnings_in_order files grid_cols grid_rows Hne Hc Hr) as Hwarn.
  cbv zeta in Hpages, Hwarn. rewrite Hwarn.
  rewrite <- List.concat_map in Hpages. rewrite !concat_written, Hpages.
  split.
  { apply List.Forall_forall. intros page Hin.
    apply written_sublist, List.in_map_iff in Hin as (p & <- & Hp).
    apply list_elem_of_In, elem_of_seqZ in Hp.
    apply page_capacity_of; [nia|lia]. }
  split.
  { rewrite <- (length_map image_path), Hpages.
    exact (filter_negb_length image_readable files). }
  split.
  { intros f. exact (filter_negb_In image_readable files f). }
  intros f Hdrawn Hwarned.
  apply List.filter_In in Hdrawn as [_ Hdrawn].
  apply List.filter_In in Hwarned as [_ Hwarned].
  unfold unreadable in Hwarned. rewrite Hdrawn in Hwarned. discriminate.
Qed.

Lemma every_file_drawn_or_warned_witness :
  exists out,
    create_pdf_from_barcodes (H:=sample_reportlab ["barcode_label_7.png"]) (sample_files 61)
                             "barcode_collection.pdf" 5 12 = Py.Returned (Some out) /\
    (length (concat (pdf_pages out)) + length (warnings out) = 61)%nat.
Proof.
  destruct (every_file_drawn_or_warned (H:=sample_reportlab ["barcode_label_7.png"])
              (sample_files 61) "barcode_collection.pdf" 5 12)
    as (out & Hout & _ & Hcount & _); [discriminate|lia|lia|].
  exists out. split; [exact Hout|exact Hcount].
Defined.

(** * The document of a directory (lines 350-371 of [src/main.py]) *)

(** [a <= b] on two [str]: the order of the code points. *)
Definition str_le (a b : string) : Prop := String.leb a b = true.

#[global] Instance str_le_dec (a b : string) : Decision (str_le a b) :=
  decide (String.leb a b = true).

(** [l.sort()] on a list of [str]. *)
Definition list_sort (l : list string) : list string := merge_sort str_le l.

(** Lines 358-367 and what follows them: the name of the document when
    none is given, from the time of the call, and the files to lay out,
    from what [glob.glob] lists, in whatever order it lists them. *)
Definition create_pdf_from_listing `{Reportlab} (listing : list string)
    (pdf_filename : option string) (timestamp : string) (grid_cols grid_rows : Z)
    : Py.result (option pdf_output) :=
  let pdf_filename :=
    match pdf_filename with
    | None => "barcode_collection_" +:+ timestamp +:+ ".pdf"
    | Some name => name
    end in
  let barcode_files := list_sort listing in
  create_pdf_from_barcodes barcode_files pdf_filename grid_cols grid_rows.

Lemma str_le_trans (a b c : string) : str_le a b -> str_le b c -> str_le a c.
Proof.
  unfold str_le, String.leb. revert b c.
  induction a as [|x a IH]; intros [|y b] [|z c]; cbn [String.compare];
    try (intros; reflexivity || discriminate).
  unfold Ascii.compare.
  destruct (N.compare_spec (N_of_ascii x) (N_of_ascii y)) as [Hxy|Hxy|Hxy];
    destruct (N.compare_spec (N_of_ascii y) (N_of_ascii z)) as [Hyz|Hyz|Hyz];
    destruct (N.compare_spec (N_of_ascii x) (N_of_ascii z)) as [Hxz|Hxz|Hxz];
    try (intros; reflexivity || discriminate || lia).
  apply IH.
Qed.

#[global] Instance str_le_transitive : Transitive str_le := str_le_trans.
#[global] Instance str_le_total : Total str_le := String.leb_total.
#[global] Instance str_le_antisymm : AntiSymm (=) str_le := String.leb_antisym.

Lemma list_sort_permutation (l l' : list string) :
  l ≡ₚ l' -> list_sort l = list_sort l'.
Proof.
  intros Hperm. unfold list_sort.
  apply (Sorted_unique str_le); try apply Sorted_merge_sort; try apply _.
  rewrite !merge_sort_Permutation. exact Hperm.
Qed.

Lemma StronglySorted_filter {A} (R : A -> A -> Prop) (f : A -> bool) (l : list A) :
  StronglySorted R l -> StronglySorted R (List.filter f l).
Proof.
  induction 1 as [|a l _ IH Ha]; [constructor|].
  simpl. destruct (f a); [|exact IH].
  constructor; [exact IH|].
  apply List.Forall_forall. intros b Hb. apply List.filter_In in Hb as [Hb _].
  revert b Hb. apply List.Forall_forall. exact Ha.
Qed.

Lemma list_sort_nonempty (l : list string) : l <> [] -> list_sort l <> [].
Proof.
  intros Hne Hnil. apply Hne.
  apply Permutation_nil. rewrite <- Hnil. unfold list_sort.
  apply merge_sort_Permutation.
Qed.

(** X16. The document does not depend on the order in which the directory is
    listed: two listings of the same files give the same result. *)
Theorem listing_order_is_irrelevant `{Reportlab} (listing listing' : list string)
    (pdf_filename : option string) (timestamp : string) (grid_cols grid_rows : Z) :
  listing ≡ₚ listing' ->
  create_pdf_from_listing listing pdf_filename timestamp grid_cols grid_rows
  = create_pdf_from_listing listing' pdf_filename timestamp grid_cols grid_rows.
Proof.
  intros Hperm. unfold create_pdf_from_listing.
  rewrite (list_sort_permutation listing listing' Hperm). reflexivity.
Qed.

Lemma listing_order_is_irrelevant_witness :
  create_pdf_from_listing (H:=sample_reportlab [])
    ["out/barcode_label_2.png"; "out/barcode_label_1.png"] None "20250101_120000" 5 12
  = create_pdf_from_listing (H:=sample_reportlab [])
      ["out/barcode_label_1.png"; "out/barcode_label_2.png"] None "20250101_120000" 5 12.
Proof.
  apply (listing_order_is_irrelevant (H:=sample_reportlab [])). apply perm_swap.
Defined.

(** X17. The images of the document, page after page, are the readable files
    of the directory in ascending order of their paths (the order of the
    code points, in which [_10] comes before [_2]); the warnings name the
    others in the same order. *)
Theorem images_in_ascending_order `{Reportlab} (listing : list string)
    (pdf_filename : option string) (timestamp : string) (grid_cols grid_rows : Z) :
  listing <> [] -> 0 < grid_cols -> 0 < grid_rows ->
  exists out,
    create_pdf_from_listing listing pdf_filename timestamp grid_cols grid_rows
      = Py.Returned (Some out) /\
    StronglySorted str_le (map image_path (concat (pdf_pages out))) /\
    StronglySorted str_le (warnings out) /\
    (forall f, In f (map image_path (concat (pdf_pages out)))
               <-> In f listing /\ image_readable f = true) /\
    (forall f, In f (warnings out) <-> In f listing /\ image_readable f = false).
Proof.
  intros Hne Hc Hr. unfold create_pdf_from_listing.
  pose proof (list_sort_nonempty listing Hne) as Hsorted.
  eexists. split; [apply create_pdf_from_barcodes_spec; assumption|].
  cbn [pdf_pages warnings].
  pose proof (pages_in_order (list_sort listing) grid_cols grid_rows Hsorted Hc Hr) as Hpages.
  pose proof (warnings_in_order (list_sort listing) grid_cols grid_rows Hsorted Hc Hr)
    as Hwarn.
  cbv zeta in Hpages, Hwarn. rewrite Hwarn.
  rewrite <- List.concat_map in Hpages. rewrite !concat_written, Hpages.
  assert (forall f, In f (list_sort listing) <-> In f listing) as Hin.
  { intros f. unfold list_sort. split; apply Permutation_in;
      [|symmetry]; apply merge_sort_Permutation. }
  split; [apply StronglySorted_filter, StronglySorted_merge_sort; apply _|].
  split; [apply StronglySorted_filter, StronglySorted_merge_sort; apply _|].
  split; intros f; rewrite List.filter_In, Hin; [reflexivity|].
  unfold unreadable. destruct (image_readable f); simpl; intuition congruence.
Qed.

Lemma images_in_ascending_order_witness :
  exists out,
    create_pdf_from_listing (H:=sample_reportlab [])
      ["out/barcode_label_2.png"; "out/barcode_label_10.png"] None "20250101_120000" 5 12
    = Py.Returned (Some out) /\
    StronglySorted str_le (map image_path (concat (pdf_pages out))).
Proof.
  destruct (images_in_ascending_order (H:=sample_reportlab [])
              ["out/barcode_label_2.png"; "out/barcode_label_10.png"] None
              "20250101_120000" 5 12)
    as (out & Hout & Hsorted & _); [discriminate|lia|lia|].
  exists out. split; [exact Hout|exact Hsorted].
Defined.

(** * Reading a data file (lines 440-463 of [src/main.py]) *)

Definition lower_char (c : ascii) : ascii :=
  if ((65 <=? PyStr.code c) && (PyStr.code c <=? 90))%nat
  then ascii_of_nat (PyStr.code c + 32) else c.

(** [s.lower()] *)
Fixpoint lower (s : string) : string :=
  match s with
  | EmptyString => EmptyString
  | String c s' => String (lower_char c) (lower s')
  end.

(** The scan behind [s.split(sep)] for a one-character [sep]: [cur] is
    the piece being read. *)
Fixpoint split_at_from (sep : ascii) (cur : string) (s : string) : list string :=
  match s with
  | EmptyString => [cur]
  | String c s' =>
      if Ascii.eqb c sep then cur :: split_at_from sep EmptyString s'
      else split_at_from sep (cur +:+ String c EmptyString) s'
  end.

(** [s.split(sep)] *)
Definition split_at (sep : ascii) (s : string) : list string :=
  split_at_from sep EmptyString s.

(** What the reader asks of the file system and of pandas: [None] is a
    raised exception. *)
Class Pandas : Type := {
  path_exists : string -> bool;
  read_excel : string -> option (list (gmap string cell));
  read_csv : string -> option (list (gmap string cell))
}.

Section Reader.
Context `{Pandas}.

(** Line 448 *)
Definition file_extension (data_source : string) : string :=
  List.last (split_at "." (lower data_source)) EmptyString.

(** Lines 450-460: the data frame read for an extension, [None] when the
    format is not supported or the reader raises (line 462). *)
Definition read_as (file_extension data_source : string)
    : option (list (gmap string cell)) :=
  if String.eqb file_extension "xlsx" || String.eqb file_extension "xls"
  then read_excel data_source
  else if String.eqb file_extension "csv" then read_csv data_source
  else None.

(** Lines 440-463 for a [str]: the data frame, or [None] where the
    function returns without one. *)
Definition read_data_file (data_source : string) : option (list (gmap string cell)) :=
  if negb (path_exists data_source) then None
  else read_as (file_extension data_source) data_source.

End Reader.

(** [generate_from_data] on the path of a file. *)
Definition generate_from_file `{Pandas} `{Imaging} (output_dir data_source : string)
    : option batch :=
  generate_from_data output_dir <$> read_data_file data_source.

Lemma split_at_from_nonempty (sep : ascii) (s : string) :
  forall cur, split_at_from sep cur s <> [].
Proof.
  induction s as [|c s IH]; intros cur; cbn [split_at_from]; [discriminate|].
  destruct (Ascii.eqb c sep); [discriminate|apply IH].
Qed.

Lemma last_cons_nonempty {A} (a d : A) (l : list A) :
  l <> [] -> List.last (a :: l) d = List.last l d.
Proof. destruct l; [contradiction|reflexivity]. Qed.

Lemma split_at_from_last (sep : ascii) (a b : string) :
  forall cur,
    List.last (split_at_from sep cur (a +:+ String sep b)) EmptyString
    = List.last (split_at sep b) EmptyString.
Proof.
  induction a as [|c a IH]; intros cur.
  - rewrite append_nil. cbn [split_at_from]. rewrite Ascii.eqb_refl.
    apply last_cons_nonempty, split_at_from_nonempty.
  - rewrite append_cons. cbn [split_at_from].
    destruct (Ascii.eqb c sep); [|apply IH].
    rewrite last_cons_nonempty by apply split_at_from_nonempty. apply IH.
Qed.

Lemma append_empty (s : string) : s +:+ EmptyString = s.
Proof.
  induction s as [|c s IH]; [reflexivity|].
  rewrite append_cons, IH. reflexivity.
Qed.

Lemma split_at_from_whole (sep : ascii) (s : string) :
  PyStr.contains sep s = false ->
  forall cur, split_at_from sep cur s = [cur +:+ s].
Proof.
  induction s as [|c s IH]; intros Hno cur.
  - rewrite append_empty. reflexivity.
  - unfold PyStr.contains in Hno, IH. cbn [PyStr.any] in Hno.
    apply orb_false_elim in Hno as [Hc Hs].
    cbn [split_at_from]. rewrite Ascii.eqb_sym, Hc, (IH Hs).
    f_equal. rewrite append_assoc. reflexivity.
Qed.

Lemma lower_append (a b : string) : lower (a +:+ b) = lower a +:+ lower b.
Proof.
  induction a as [|c a IH]; [rewrite !append_nil; reflexivity|].
  rewrite append_cons. cbn [lower]. rewrite append_cons, IH. reflexivity.
Qed.

Lemma lower_char_dot (c : ascii) :
  Ascii.eqb "." (lower_char c) = Ascii.eqb "." c.
Proof. destruct c as [[] [] [] [] [] [] [] []]; reflexivity. Qed.

Lemma lower_contains_dot (s : string) :
  PyStr.contains "." (lower s) = PyStr.contains "." s.
Proof.
  unfold PyStr.contains. induction s as [|c s IH]; [reflexivity|].
  cbn [lower PyStr.any]. rewrite lower_char_dot, IH. reflexivity.
Qed.

Lemma file_extension_suffix (stem ext : string) :
  PyStr.contains "." ext = false ->
  file_extension (stem +:+ "." +:+ ext) = lower ext.
Proof.
  intros Hno. unfold file_extension, split_at.
  rewrite lower_append.
  change ("." +:+ ext) with (String "." ext). cbn [lower].
  change (lower_char ".") with "."%char.
  rewrite split_at_from_last. unfold split_at.
  rewrite split_at_from_whole by (rewrite lower_contains_dot; exact Hno).
  reflexivity.
Qed.

Lemma file_extension_whole (name : string) :
  PyStr.contains "." name = false -> file_extension name = lower name.
Proof.
  intros Hno. unfold file_extension, split_at.
  rewrite split_at_from_whole by (rewrite lower_contains_dot; exact Hno).
  reflexivity.
Qed.

(** X18. The format of a data file is read off the text after its last dot,
    whatever the case of its letters, and off the whole path when it has
    no dot: an existing [stem.ext] is read as Excel when [ext] lowered is
    [xlsx] or [xls], as CSV when it is [csv], and not at all otherwise
    (so [report.CSV] is read, [report.csv.bak] is not, and a file named
    [csv] is). *)
Theorem data_format_is_last_suffix `{Pandas} (stem ext : string) :
  PyStr.contains "." ext = false ->
  (path_exists (stem +:+ "." +:+ ext) = true ->
   read_data_file (stem +:+ "." +:+ ext) = read_as (lower ext) (stem +:+ "." +:+ ext)) /\
  (path_exists ext = true -> read_data_file ext = read_as (lower ext) ext).
Proof.
  intros Hno. unfold read_data_file. split; intros ->; cbn [negb].
  - rewrite file_extension_suffix by exact Hno. reflexivity.
  - rewrite file_extension_whole by exact Hno. reflexivity.
Qed.

(** A file system holding every path, with readers that return the name
    of the reader as the one cell of the frame. *)
Definition sample_pandas : Pandas :=
  {| path_exists := fun _ => true;
     read_excel := fun _ => Some [ {[ "reader" := Text "read_excel" ]} ];
     read_csv := fun _ => Some [ {[ "reader" := Text "read_csv" ]} ] |}.

Lemma data_format_is_last_suffix_witness :
  read_data_file (H:=sample_pandas) "data.v2/REPORT.Xlsx"
  = Some [ {[ "reader" := Text "read_excel" ]} ].
Proof.
  destruct (data_format_is_last_suffix (H:=sample_pandas) "data.v2/REPORT" "Xlsx" eq_refl)
    as [Hsuffix _].
  change ("data.v2/REPORT" +:+ "." +:+ "Xlsx") with "data.v2/REPORT.Xlsx" in Hsuffix.
  rewrite Hsuffix by reflexivity. reflexivity.
Defined.

(** * The environment set-up script ([src/setup_enviroment.py])

    The script prepares a virtual environment by running a fixed sequence
    of commands. What it asks of the machine (the interpreter's version
    and path, the platform, whether [requirements.txt] exists, how a
    command ends, whether a file can be opened for writing) is a field of
    the class [Machine]; the world it acts on is the list of commands
    handed to [subprocess.run] and the files written. What the script
    prints is left out. *)

Module Setup.

(** How [run_command] hands a command to [subprocess.run]: the whole line
    to a shell on Windows, the list [command.split()] elsewhere (lines
    20-23). *)
Inductive invocation : Type :=
| Shell (command : string)
| Argv (args : list string).

(** The exceptions [main] tells apart (lines 168-173). *)
Inductive abort : Type :=
| KeyboardInterrupt
| OtherException.

(** How [subprocess.run(..., check=True)] ends: it returns (exit status 0),
    it raises CalledProcessError (any other exit status), or it raises
    something else (the program cannot be started, the user interrupts). *)
Inductive completion : Type :=
| Exit_zero
| Exit_nonzero
| Not_run (e : abort).

(** What the script does to the file system: [f.write(content)] on a file
    opened for writing, [os.chmod(name, mode)]. *)
Inductive file_op : Type :=
| Write (name content : string)
| Chmod (name : string) (mode : Z).

Class Machine : Type := {
  version_major : Z;
  version_minor : Z;
  version_micro : Z;
  executable : string;
  is_windows : bool;
  requirements_exist : bool;
  (** the commands handed over so far, the command: how it ends *)
  subprocess_run : list invocation -> invocation -> completion;
  (** [open(name, "w")]: the exception raised, if any *)
  open_for_writing : string -> option abort
}.

Record world : Type := {
  attempted : list invocation;
  file_ops : list file_op
}.

Inductive outcome (A : Type) : Type :=
| Value (a : A)
| Abort (e : abort).
Arguments Value {A} a.
Arguments Abort {A} e.

(** A piece of the script: it changes the world and returns or raises. *)
Definition step (A : Type) : Type := world -> outcome A * world.

Definition ret {A} (a : A) : step A := fun w => (Value a, w).

Definition bind {A B} (m : step A) (k : A -> step B) : step B :=
  fun w =>
    match m w with
    | (Value a, w') => k a w'
    | (Abort e, w') => (Abort e, w')
    end.

Definition nl : string := String (ascii_of_nat 10) EmptyString.
Definition dq : string := String (ascii_of_nat 34) EmptyString.

Section Script.
Context `{Machine}.

Definition invoke (command : string) : invocation :=
  if is_windows then Shell command else Argv (PyStr.split command).

(** Lines 12-36. *)
Definition run_command (command description : string) : step bool :=
  fun w =>
    let w' := {| attempted := attempted w ++ [invoke command]; file_ops := file_ops w |} in
    match subprocess_run (attempted w) (invoke command) with
    | Exit_zero => (Value true, w')
    | Exit_nonzero => (Value false, w')
    | Not_run e => (Abort e, w')
    end.

(** Lines 38-46. *)
Definition check_python_version : bool :=
  (3 <=? version_major) && (8 <=? version_minor).

Definition write (name content : string) : step unit :=
  fun w =>
    match open_for_writing name with
    | Some e => (Abort e, w)
    | None =>
        (Value tt,
         {| attempted := attempted w; file_ops := file_ops w ++ [Write name content] |})
    end.

Definition chmod (name : string) (mode : Z) : step unit :=
  fun w =>
    (Value tt, {| attempted := attempted w; file_ops := file_ops w ++ [Chmod name mode] |}).

Definition batch_content (venv_name : string) : string :=
  "@echo off" +:+ nl +:+
  "echo Activating barcode generator environment..." +:+ nl +:+
  "call " +:+ venv_name +:+ "\Scripts\activate.bat" +:+ nl +:+
  "echo Environment activated! You can now run: python barcode_generator.py" +:+ nl +:+
  "cmd /k" +:+ nl.

Definition shell_content (venv_name : string) : string :=
  "#!/bin/bash" +:+ nl +:+
  "echo " +:+ dq +:+ "Activating barcode generator environment..." +:+ dq +:+ nl +:+
  "source " +:+ venv_name +:+ "/bin/activate" +:+ nl +:+
  "echo " +:+ dq +:+
    "Environment activated! You can now run: python barcode_generator.py" +:+ dq +:+ nl +:+
  "exec " +:+ dq +:+ "$SHELL" +:+ dq +:+ nl.

(** Lines 124-150. A file once opened is taken to be written, and its
    mode changed, without error. *)
Definition create_activation_scripts (venv_name : string) : step unit :=
  if is_windows then write "activate_env.bat" (batch_content venv_name)
  else bind (write "activate_env.sh" (shell_content venv_name))
            (fun _ => chmod "activate_env.sh" 493).

(** The loop of lines 94-97: [False] is the [return False] in its body,
    [True] the end of the loop. *)
Fixpoint install_packages (pip_cmd : string) (packages : list string) : step bool :=
  match packages with
  | [] => ret true
  | package :: rest =>
      bind (run_command (pip_cmd +:+ " install " +:+ package) ("Installing " +:+ package))
           (fun ok => if negb ok then ret false else install_packages pip_cmd rest)
  end.

Definition packages : list string :=
  ["pandas>=1.5.0"; "Pillow>=9.0.0"; "qrcode[pil]>=7.4.2"; "python-barcode>=0.14.0"].

Definition pip_cmd (venv_name : string) : string :=
  if is_windows then venv_name +:+ "\Scripts\pip" else venv_name +:+ "/bin/pip".

Definition python_cmd (venv_name : string) : string :=
  if is_windows then venv_name +:+ "\Scripts\python" else venv_name +:+ "/bin/python".

(** Lines 48-122. *)
Definition setup_virtual_environment : step bool :=
  if negb check_python_version then ret false
  else
    let venv_name := "barcode_env" in
    bind (run_command (executable +:+ " -m venv " +:+ venv_name)
                      ("Creating virtual environment '" +:+ venv_name +:+ "'"))
    (fun ok =>
    if negb ok then ret false
    else
      bind (run_command (python_cmd venv_name +:+ " -m pip install --upgrade pip")
                        "Upgrading pip in virtual environment")
      (fun ok =>
      if negb ok then ret false
      else
        bind (if requirements_exist
              then run_command (pip_cmd venv_name +:+ " install -r requirements.txt")
                               "Installing requirements from requirements.txt"
              else install_packages (pip_cmd venv_name) packages)
        (fun ok =>
        if negb ok then ret false
        else bind (create_activation_scripts venv_name) (fun _ => ret true)))).

(** Lines 152-173: the exit status of [sys.exit], or [None] when [main]
    returns. *)
Definition main (w : world) : option Z * world :=
  match setup_virtual_environment w with
  | (Value true, w') => (None, w')
  | (Value false, w') => (Some 1, w')
  | (Abort KeyboardInterrupt, w') => (Some 1, w')
  | (Abort OtherException, w') => (Some 1, w')
  end.

(** The commands of a complete run, in order. *)
Definition setup_commands : list string :=
  [executable +:+ " -m venv barcode_env";
   python_cmd "barcode_env" +:+ " -m pip install --upgrade pip"] ++
  (if requirements_exist
   then [pip_cmd "barcode_env" +:+ " install -r requirements.txt"]
   else map (fun package => pip_cmd "barcode_env" +:+ " install " +:+ package) packages).

(** Every command of [commands], handed over in this order after
    [history], exits with status 0. *)
Definition succeeded (history commands : list invocation) : Prop :=
  forall k c, commands !! k = Some c ->
              subprocess_run (history ++ take k commands) c = Exit_zero.

(** The activation script of a complete run: its name, and what writing
    it does to the file system. *)
Definition script_name : string :=
  if is_windows then "activate_env.bat" else "activate_env.sh".

Definition activation_script : list file_op :=
  if is_windows
  then [Write "activate_env.bat" (batch_content "barcode_env")]
  else [Write "activate_env.sh" (shell_content "barcode_env"); Chmod "activate_env.sh" 493].

End Script.

(** A machine on which every command succeeds. *)
Definition sample_machine (major minor : Z) (python : string) (windows requirements : bool)
    : Machine :=
  {| version_major := major; version_minor := minor; version_micro := 0;
     executable := python; is_windows := windows; requirements_exist := requirements;
     subprocess_run := fun _ _ => Exit_zero;
     open_for_writing := fun _ => None |}.

Definition new_world : world := {| attempted := []; file_ops := [] |}.

End Setup.

(** ** The set-up script: what is run, and when it stops *)

Lemma split_from_space (a rest : string) (sp : ascii) :
  PyStr.isspace sp = true ->
  forall cur,
    PyStr.split_from cur (a +:+ String sp rest)
    = PyStr.split_from cur a ++ PyStr.split rest.
Proof.
  intros Hsp. induction a as [|c a IH]; intros cur.
  - rewrite append_nil. cbn [PyStr.split_from]. rewrite Hsp.
    destruct (PyStr.falsy cur); reflexivity.
  - rewrite append_cons. cbn [PyStr.split_from].
    destruct (PyStr.isspace c).
    + destruct (PyStr.falsy cur); rewrite IH; reflexivity.
    + apply IH.
Qed.

Section SetupFacts.
Import Setup.
Context `{Machine}.

Lemma succeeded_app (h l1 l2 : list invocation) :
  succeeded h l1 -> succeeded (h ++ l1) l2 -> succeeded h (l1 ++ l2).
Proof.
  intros H1 H2 k c Hk.
  destruct (Nat.lt_ge_cases k (length l1)) as [Hlt|Hge].
  - rewrite lookup_app_l in Hk by exact Hlt.
    rewrite take_app_le by lia. apply H1, Hk.
  - rewrite lookup_app_r in Hk by exact Hge.
    rewrite take_app_ge by exact Hge. rewrite app_assoc. apply H2, Hk.
Qed.

(** What a piece of the script that runs the commands [plan] one after
    the other, stopping at the first that does not exit with status 0,
    leaves behind. *)
Definition runs (plan : list invocation) (w : world) (end_ : outcome bool * world) : Prop :=
  file_ops (snd end_) = file_ops w /\
  ((fst end_ = Value true /\ attempted (snd end_) = attempted w ++ plan /\
    succeeded (attempted w) plan)
   \/ exists before c after,
        plan = before ++ c :: after /\
        attempted (snd end_) = attempted w ++ before ++ [c] /\
        succeeded (attempted w) before /\
        ((fst end_ = Value false /\
          subprocess_run (attempted w ++ before) c = Exit_nonzero)
         \/ exists e, fst end_ = Abort e /\
                      subprocess_run (attempted w ++ before) c = Not_run e)).

Lemma runs_command (command description : string) (w : world) :
  runs [invoke command] w (run_command command description w).
Proof.
  unfold runs, run_command.
  destruct (subprocess_run (attempted w) (invoke command)) as [| |e] eqn:Hrun;
    cbn [fst snd attempted file_ops]; (split; [reflexivity|]).
  - left. split; [reflexivity|]. split; [reflexivity|].
    intros [|k] c Hk; [|destruct k; discriminate].
    injection Hk as <-. cbn [take]. rewrite app_nil_r. exact Hrun.
  - right. exists [], (invoke command), []. rewrite app_nil_r.
    split; [reflexivity|]. split; [reflexivity|].
    split; [intros k c Hk; destruct k; discriminate|].
    left. split; [reflexivity|exact Hrun].
  - right. exists [], (invoke command), []. rewrite app_nil_r.
    split; [reflexivity|]. split; [reflexivity|].
    split; [intros k c Hk; destruct k; discriminate|].
    right. exists e. split; [reflexivity|exact Hrun].
Qed.

Lemma runs_nothing (w : world) : runs [] w (ret true w).
Proof.
  unfold runs, ret. cbn [fst snd]. split; [reflexivity|].
  left. split; [reflexivity|]. split; [symmetry; apply app_nil_r|].
  intros k c Hk. destruct k; discriminate.
Qed.

Lemma runs_then (plan1 plan2 : list invocation) (m k : step bool) (w : world) :
  runs plan1 w (m w) -> (forall w1, runs plan2 w1 (k w1)) ->
  runs (plan1 ++ plan2) w (bind m (fun ok => if negb ok then ret false else k) w).
Proof.
  intros (Hf1 & H1) H2. unfold bind.
  destruct (m w) as [r1 w1]. cbn [fst snd] in Hf1, H1.
  destruct H1 as [(-> & Hatt & Hok)|(before & c & after & -> & Hatt & Hok & Hend)].
  - cbn [negb]. specialize (H2 w1). destruct (k w1) as [r2 w2].
    destruct H2 as (Hf2 & H2). unfold runs. cbn [fst snd] in Hf2, H2 |- *.
    split; [congruence|]. rewrite Hatt in H2.
    destruct H2 as [(-> & Hatt2 & Hok2)|(before & c & after & -> & Hatt2 & Hok2 & Hend)].
    + left. split; [reflexivity|]. split; [rewrite Hatt2; apply eq_sym, app_assoc|].
      apply succeeded_app; assumption.
    + right. exists (plan1 ++ before), c, after.
      split; [apply app_assoc|].
      split; [rewrite Hatt2, <- !app_assoc; reflexivity|].
      split; [apply succeeded_app; assumption|].
      rewrite (app_assoc (attempted w)). exact Hend.
  - assert (exists r, (r = Value false \/ exists e, r = Abort e) /\
                      (match r1 with
                       | Value a => (if negb a then ret false else k) w1
                       | Abort e => (Abort e, w1)
                       end) = (r, w1) /\ r = r1) as (r & Hr & -> & ->).
    { destruct Hend as [(-> & _)|(e & -> & _)].
      - exists (Value false). split; [left; reflexivity|]. split; reflexivity.
      - exists (Abort e). split; [right; exists e; reflexivity|]. split; reflexivity. }
    unfold runs. cbn [fst snd]. split; [exact Hf1|].
    right. exists before, c, (after ++ plan2).
    split; [rewrite <- app_assoc; reflexivity|].
    split; [exact Hatt|]. split; [exact Hok|exact Hend].
Qed.

Lemma runs_packages (pip : string) (pkgs : list string) :
  forall w,
    runs (map (fun package => invoke (pip +:+ " install " +:+ package)) pkgs) w
         (install_packages pip pkgs w).
Proof.
  induction pkgs as [|package rest IH]; intros w; [apply runs_nothing|].
  cbn [map install_packages].
  apply (runs_then [invoke (pip +:+ " install " +:+ package)]); [apply runs_command|exact IH].
Qed.

(** The three stages of [setup_virtual_environment] that run commands. *)
Definition install_stage : step bool :=
  if requirements_exist
  then run_command (pip_cmd "barcode_env" +:+ " install -r requirements.txt")
                   "Installing requirements from requirements.txt"
  else install_packages (pip_cmd "barcode_env") packages.

Lemma runs_install_stage (w : world) :
  runs (map invoke (drop 2 setup_commands)) w (install_stage w).
Proof.
  unfold install_stage, setup_commands. cbn [app drop]. rewrite drop_0.
  destruct requirements_exist.
  - apply runs_command.
  - rewrite List.map_map. apply runs_packages.
Qed.

Lemma runs_setup_commands (w : world) :
  runs (map invoke setup_commands) w
       (bind (run_command (executable +:+ " -m venv " +:+ "barcode_env")
                          ("Creating virtual environment '" +:+ "barcode_env" +:+ "'"))
             (fun ok => if negb ok then ret false else
                bind (run_command (python_cmd "barcode_env" +:+ " -m pip install --upgrade pip")
                                  "Upgrading pip in virtual environment")
                     (fun ok => if negb ok then ret false else install_stage)) w).
Proof.
  change (map invoke setup_commands)
    with ([invoke (executable +:+ " -m venv barcode_env")] ++
          [invoke (python_cmd "barcode_env" +:+ " -m pip install --upgrade pip")] ++
          map invoke (drop 2 setup_commands)).
  apply runs_then; [apply runs_command|]. intros w1.
  apply runs_then; [apply runs_command|]. apply runs_install_stage.
Qed.

Lemma create_activation_scripts_spec (w : world) :
  match open_for_writing script_name with
  | Some e => create_activation_scripts "barcode_env" w = (Abort e, w)
  | None =>
      create_activation_scripts "barcode_env" w
      = (Value tt, {| attempted := attempted w;
                      file_ops := file_ops w ++ activation_script |})
  end.
Proof.
  unfold create_activation_scripts, script_name, activation_script, bind, write, chmod.
  destruct is_windows.
  - destruct (open_for_writing "activate_env.bat"); reflexivity.
  - destruct (open_for_writing "activate_env.sh"); [reflexivity|].
    cbn [attempted file_ops]. rewrite <- app_assoc. reflexivity.
Qed.

Lemma setup_virtual_environment_spec (w : world) :
  check_python_version = true ->
  exists r1 w1,
    runs (map invoke setup_commands) w (r1, w1) /\
    setup_virtual_environment w =
      match r1 with
      | Value true =>
          match create_activation_scripts "barcode_env" w1 with
          | (Value _, w2) => (Value true, w2)
          | (Abort e, w2) => (Abort e, w2)
          end
      | _ => (r1, w1)
      end.
Proof.
  intros Hversion. pose proof (runs_setup_commands w) as Hruns.
  unfold setup_virtual_environment. rewrite Hversion. cbn [negb].
  fold install_stage.
  unfold bind at 1. unfold bind at 1 in Hruns.
  destruct (run_command (executable +:+ " -m venv " +:+ "barcode_env")
              ("Creating virtual environment '" +:+ "barcode_env" +:+ "'") w)
    as [[[|]|e] w1]; cbn [negb] in Hruns |- *;
    [|exists (Value false), w1; split; [exact Hruns|reflexivity]
     |exists (Abort e), w1; split; [exact Hruns|reflexivity]].
  unfold bind at 1. unfold bind at 1 in Hruns.
  destruct (run_command (python_cmd "barcode_env" +:+ " -m pip install --upgrade pip")
              "Upgrading pip in virtual environment" w1)
    as [[[|]|e] w2]; cbn [negb] in Hruns |- *;
    [|exists (Value false), w2; split; [exact Hruns|reflexivity]
     |exists (Abort e), w2; split; [exact Hruns|reflexivity]].
  unfold bind at 1.
  destruct (install_stage w2) as [[[|]|e] w3]; cbn [negb];
    [|exists (Value false), w3; split; [exact Hruns|reflexivity]
     |exists (Abort e), w3; split; [exact Hruns|reflexivity]].
  exists (Value true), w3. split; [exact Hruns|].
  unfold bind, ret. destruct (create_activation_scripts "barcode_env" w3) as [[[]|e] w4];
    reflexivity.
Qed.

End SetupFacts.

Section SetupRuns.
Import Setup.
Context `{Machine}.

Lemma main_spec (w : world) :
  check_python_version = true ->
  exists r1 w1,
    runs (map invoke setup_commands) w (r1, w1) /\
    match r1 with
    | Value true =>
        match open_for_writing script_name with
        | Some _ => main w = (Some 1, w1)
        | None =>
            main w = (None, {| attempted := attempted w1;
                               file_ops := file_ops w1 ++ activation_script |})
        end
    | _ => main w = (Some 1, w1)
    end.
Proof.
  intros Hversion.
  destruct (setup_virtual_environment_spec w Hversion) as (r1 & w1 & Hruns & Hsetup).
  exists r1, w1. split; [exact Hruns|].
  unfold main. rewrite Hsetup.
  destruct r1 as [[|]|[|]]; try reflexivity.
  pose proof (create_activation_scripts_spec w1) as Hscript.
  destruct (open_for_writing script_name) as [[|]|]; rewrite Hscript; reflexivity.
Qed.

Lemma invoke_venv :
  is_windows = false ->
  invoke (executable +:+ " -m venv barcode_env")
  = Argv (PyStr.split executable ++ ["-m"; "venv"; "barcode_env"]).
Proof.
  intros Hposix. unfold invoke. rewrite Hposix. f_equal.
  unfold PyStr.split at 1.
  change (executable +:+ " -m venv barcode_env")
    with (executable +:+ String " " "-m venv barcode_env").
  rewrite split_from_space by reflexivity.
  f_equal.
Qed.

(** X19. A minor version below 8 stops the set-up whatever the major version
    is (a Python 4.0 is turned away like a Python 3.7), and so does a
    major version below 3: [main] exits with status 1, no command is run
    and no file is written. *)
Theorem unsupported_version_runs_nothing (w : world) :
  version_major < 3 \/ version_minor < 8 -> main w = (Some 1, w).
Proof.
  intros Hversion. unfold main, setup_virtual_environment, check_python_version.
  destruct (Z.leb_spec 3 version_major), (Z.leb_spec 8 version_minor);
    try lia; reflexivity.
Qed.


(** X21. Away from Windows the command that creates the virtual environment is
    split at white space before it is run (line 23), the path of the
    interpreter included: the arguments are the pieces of
    [sys.executable] followed by [-m venv barcode_env], so a path holding
    a space is not handed over as one argument. *)
Theorem interpreter_path_is_split (w : world) :
  is_windows = false -> check_python_version = true ->
  exists rest,
    attempted (snd (main w))
    = attempted w ++ Argv (PyStr.split executable ++ ["-m"; "venv"; "barcode_env"]) :: rest.
Proof.
  intros Hposix Hversion.
  destruct (main_spec w Hversion) as (r1 & w1 & (_ & Hruns) & Hmain).
  assert (attempted (snd (main w)) = attempted w1) as ->.
  { destruct r1 as [[|]|e]; [|rewrite Hmain; reflexivity|rewrite Hmain; reflexivity].
    destruct (open_for_writing script_name); rewrite Hmain; reflexivity. }
  cbn [fst snd] in Hruns. rewrite <- invoke_venv by exact Hposix.
  change (map invoke setup_commands)
    with (invoke (executable +:+ " -m venv barcode_env")
          :: map invoke (drop 1 setup_commands)) in Hruns.
  destruct Hruns as [(_ & -> & _)|(before & c & after & Hplan & -> & _)].
  - eexists. reflexivity.
  - destruct before as [|b before]; injection Hplan as <- _.
    + exists []. reflexivity.
    + exists (before ++ [c]). reflexivity.
Qed.

End SetupRuns.

Lemma unsupported_version_runs_nothing_witness :
  Setup.main (H:=Setup.sample_machine 4 0 "/usr/bin/python3" false false) Setup.new_world
  = (Some 1, Setup.new_world).
Proof.
  apply (unsupported_version_runs_nothing
           (H:=Setup.sample_machine 4 0 "/usr/bin/python3" false false)).
  right. reflexivity.
Defined.


Lemma interpreter_path_is_split_witness :
  exists rest,
    Setup.attempted
      (snd (Setup.main (H:=Setup.sample_machine 3 11 "/opt/my tools/python3" false false)
              Setup.new_world))
    = Setup.Argv ["/opt/my"; "tools/python3"; "-m"; "venv"; "barcode_env"] :: rest.
Proof.
  destruct (interpreter_path_is_split
              (H:=Setup.sample_machine 3 11 "/opt/my tools/python3" false false)
              Setup.new_world eq_refl eq_refl) as (rest & Hrest).
  exists rest. rewrite Hrest. vm_compute. reflexivity.
Defined.
